(** * mflow-be: the queue / care-session lifecycle engine

    A shallow embedding of [QueueService] (queue-number allocation, the
    waiting-queue snapshot, [add], [update] with medical-record-number
    allocation, the listing and the pharmacy and doctor views), of
    [TreatmentService] (applied prices, the catalog listing, update and
    delete), of [EmployeeService] (NIP and password generation,
    registration, delete) and of [AuthService] (sign-in and sign-out),
    together with the properties the specification states about them and
    further properties read off the code.

    Conventions.  The Prisma client is modelled as tables (lists of rows in
    insertion order, with an auto-increment counter per table).  A service
    call runs in a small state-and-exception monad over the database and
    the log of gateway emissions.  Everything the environment decides for
    one call (the clock, whether a store operation or a gateway emission
    raises) is collected in an [Env] record.  The table of applied
    treatments keeps its foreign keys: an insert that names a missing
    session or treatment is refused.  JavaScript numbers are modelled as
    exact integers, which is what they are below 2^53. *)

From Stdlib Require Import ZArith Lia Ascii String List.
From stdpp Require Import base list sorting gmap strings.

Local Open Scope Z_scope.

(** ** JavaScript primitives used by the services *)

Module Js.

(** [Number.prototype.toString] on an integer; [None] is [NaN]. *)
Definition digitChar (d : Z) : ascii :=
  match d with
  | 0 => "0" | 1 => "1" | 2 => "2" | 3 => "3" | 4 => "4"
  | 5 => "5" | 6 => "6" | 7 => "7" | 8 => "8" | _ => "9"
  end%char.

Fixpoint digitsOf (fuel : nat) (n : Z) (acc : string) : string :=
  match fuel with
  | O => acc
  | S fuel' =>
      let acc' := String (digitChar (n mod 10)) acc in
      if n <? 10 then acc' else digitsOf fuel' (n / 10) acc'
  end.

(** Integers below 10^21 print in plain decimal; 22 digits of fuel cover
    them all. *)
Definition intToString (n : Z) : string :=
  if n <? 0 then String "-"%char (digitsOf 22 (- n) "")
  else digitsOf 22 n "".

Definition toString (n : option Z) : string :=
  match n with
  | Some z => intToString z
  | None => "NaN"
  end.

(** [k] copies of [c] in front of [s]. *)
Fixpoint fill (c : ascii) (k : nat) (s : string) : string :=
  match k with
  | O => s
  | S k' => String c (fill c k' s)
  end.

(** [s.padStart(width, c)] for a one-character filler. *)
Definition padStart (width : nat) (c : ascii) (s : string) : string :=
  fill c (width - String.length s) s.

Definition isDigit (c : ascii) : bool :=
  match c with
  | "0" | "1" | "2" | "3" | "4" | "5" | "6" | "7" | "8" | "9" => true
  | _ => false
  end%char.

(** [s.replace(/\./g, '')] *)
Fixpoint removeDots (s : string) : string :=
  match s with
  | EmptyString => EmptyString
  | String c r => if Ascii.eqb c "."%char then removeDots r
                  else String c (removeDots r)
  end.

(** [s.replace(/(\d{2})(\d{2})(\d{2})/, '$1.$2.$3')]: the leftmost run of
    six digits is regrouped, the rest of the string is kept. *)
Fixpoint groupPairs (s : string) : string :=
  match s with
  | String a (String b (String c (String d (String e (String f r))))) =>
      if isDigit a && isDigit b && isDigit c &&
         isDigit d && isDigit e && isDigit f
      then String a (String b (String "."%char (String c (String d
             (String "."%char (String e (String f r)))))))
      else match s with
           | String x t => String x (groupPairs t)
           | EmptyString => EmptyString
           end
  | String x t => String x (groupPairs t)
  | EmptyString => EmptyString
  end.

(** Value of a character as a digit in bases up to 36. *)
Definition digitVal (c : ascii) : option Z :=
  let n := Z.of_N (N_of_ascii c) in
  if (48 <=? n) && (n <=? 57) then Some (n - 48)
  else if (97 <=? n) && (n <=? 122) then Some (n - 87)
  else if (65 <=? n) && (n <=? 90) then Some (n - 55)
  else None.

(** Leading ASCII white space is skipped. *)
Fixpoint skipWhite (s : string) : string :=
  match s with
  | String c r => if Ascii.is_space c then skipWhite r else s
  | EmptyString => EmptyString
  end.

(** Longest prefix of digits valid in [radix], accumulated left to
    right; [None] when that prefix is empty. *)
Fixpoint parseDigits (radix : Z) (s : string) (acc : option Z) : option Z :=
  match s with
  | String c r =>
      match digitVal c with
      | Some d =>
          if d <? radix
          then parseDigits radix r (Some (default 0 acc * radix + d))
          else acc
      | None => acc
      end
  | EmptyString => acc
  end.

(** [parseInt(s, radix)]; [radix = None] is the one-argument call, which
    reads a [0x] prefix as hexadecimal.  [None] is [NaN]. *)
Definition parseInt (s : string) (radix : option Z) : option Z :=
  let s1 := skipWhite s in
  let '(sign, s2) :=
    match s1 with
    | String "-"%char r => (-1, r)
    | String "+"%char r => (1, r)
    | _ => (1, s1)
    end in
  let '(base, s3) :=
    match radix, s2 with
    | None, String "0"%char (String "x"%char r) => (16, r)
    | None, String "0"%char (String "X"%char r) => (16, r)
    | None, _ => (10, s2)
    | Some b, _ => (b, s2)
    end in
  Z.mul sign <$> parseDigits base s3 None.

(** Truthiness of a string-or-null value. *)
Definition truthy (s : option string) : bool :=
  match s with
  | Some EmptyString | None => false
  | Some _ => true
  end.

(** [Math.ceil(a / b)] on integers, [b] not zero. *)
Definition ceilDiv (a b : Z) : Z := - ((- a) / b).

(** [n || 1] on a number: [NaN] and 0 are falsy. *)
Definition orOne (n : option Z) : Z :=
  match n with
  | None | Some 0 => 1
  | Some z => z
  end.

(** [!n] on an optional number: [undefined] and 0 are falsy. *)
Definition falsyNumber (n : option Z) : bool :=
  match n with
  | None => true
  | Some z => z =? 0
  end.

(** [s.split('').reverse().join('')] *)
Fixpoint reverseOnto (s acc : string) : string :=
  match s with
  | EmptyString => acc
  | String c r => reverseOnto r (String c acc)
  end.

Definition reverse (s : string) : string := reverseOnto s "".

(** [s.slice(-k)]: the last [k] characters, or all of [s] when it is
    shorter. *)
Fixpoint sliceLast (k : nat) (s : string) : string :=
  match s with
  | EmptyString => EmptyString
  | String _ r => if (String.length s <=? k)%nat then s else sliceLast k r
  end.

(** [l.indexOf(x)], -1 when absent. *)
Fixpoint indexOf {A} `{EqDecision A} (x : A) (l : list A) : Z :=
  match l with
  | [] => -1
  | a :: r =>
      if decide (a = x) then 0
      else let i := indexOf x r in if i =? -1 then -1 else i + 1
  end.

End Js.

(** ** Errors and results *)

Module HttpStatus.
Definition BAD_REQUEST : Z := 400.
Definition NOT_FOUND : Z := 404.
End HttpStatus.

(** What a service call can throw: a plain [Error] or a Prisma client
    error (which carries a [code]), a Nest [HttpException], a [ZodError]. *)
Inductive Exn :=
| JsError (message : string) (code : option string)
| HttpException (response : string) (status : Z)
| ZodError (message : string).

Definition message (e : Exn) : string :=
  match e with
  | JsError m _ => m
  | HttpException m _ => m
  | ZodError m => m
  end.

Definition code (e : Exn) : option string :=
  match e with
  | JsError _ c => c
  | _ => None
  end.

Inductive Result (A : Type) :=
| Ok (a : A)
| Throw (e : Exn).
Arguments Ok {A} a.
Arguments Throw {A} e.

(** ** Data model *)

Inductive QueueStatus :=
| WAITING_CONSULTATION
| IN_CONSULTATION
| WAITING_MEDICATION
| WAITING_PAYMENT
| COMPLETED.

Global Instance QueueStatus_eq_dec : EqDecision QueueStatus.
Proof. solve_decision. Defined.

(** Modelled from the spec: the Prisma schema of patients and care sessions
    and the DTO classes of [queue.model] are not among the sources; the
    records below carry the fields the services read and write. *)
Module PatientData.
Record t := mk {
  name : string;
  birth_date : Z;
  gender : string;
}.
End PatientData.

Module Patient.
Record t := mk {
  id : Z;
  data : PatientData.t;
  medical_record_number : option string;
}.
Definition set_medical_record_number (m : option string) (p : t) : t :=
  mk (id p) (data p) m.
End Patient.

Module CareSession.
Record t := mk {
  id : Z;
  status : QueueStatus;
  queue_number : string;
  complaints : string;
  diagnosis : option string;
  doctor_id : string;
  room_id : Z;
  patient_id : option Z;
  created_at : Z;
  updated_at : Z;
}.
End CareSession.

Module Treatment.
Record t := mk {
  id : Z;
  name : string;
  price : Z;
}.
End Treatment.

Module CareSessionTreatment.
Record t := mk {
  id : Z;
  care_session_id : Z;
  treatment_id : Z;
  quantity : Z;
  applied_price : Z;
}.
End CareSessionTreatment.

Module AddQueueDto.
Record t := mk {
  doctor_id : string;
  room_id : Z;
  complaints : string;
  patient_id : option Z;
  patient_data : option PatientData.t;
}.
End AddQueueDto.

Module UpdateQueueDto.
Record t := mk {
  status : option QueueStatus;
  complaints : option string;
  diagnosis : option string;
  doctor_id : option string;
  room_id : option Z;
}.
End UpdateQueueDto.

Module WaitingQueueDetail.
(** The joined [doctor] and [room] rows are determined by their keys,
    which stand for them here. *)
Record t := mk {
  id : Z;
  doctor : string;
  queue_number : string;
  room : Z;
}.
End WaitingQueueDetail.

Module SessionTreatmentItem.
Record t := mk {
  treatment_id : Z;
  quantity : Z;
}.
End SessionTreatmentItem.

Module AddSessionTreatmentDto.
Record t := mk {
  care_session_id : Z;
  treatments : list SessionTreatmentItem.t;
}.
End AddSessionTreatmentDto.

Module AddSessionTreatmentResponse.
Record t := mk {
  care_session_id : Z;
  treatment_id : Z;
  applied_price : Z;
  quantity : Z;
}.
End AddSessionTreatmentResponse.

Module UpdateTreatmentDto.
Record t := mk {
  name : option string;
  price : option Z;
}.
End UpdateTreatmentDto.

Module Meta.
Record t := mk {
  current_page : Z;
  previous_page : option Z;
  next_page : option Z;
  total_page : Z;
  total_data : Z;
}.
End Meta.

Module GetAllTreatmentsResponse.
Record t := mk {
  data : list Treatment.t;
  meta : Meta.t;
}.
End GetAllTreatmentsResponse.

(** Rows of the tables the queue endpoints only read: diagnoses, drug
    orders and vital signs of a session. *)
Module Diagnosis.
Record t := mk {
  id : Z;
  name : string;
}.
End Diagnosis.

Module Drug.
Record t := mk {
  id : Z;
  name : string;
  price : Z;
  unit : string;
}.
End Drug.

Module DrugOrder.
Record t := mk {
  quantity : Z;
  dose : string;
  drug : Drug.t;
}.
End DrugOrder.

Module VitalSign.
Record t := mk {
  height_cm : Z;
  weight_kg : Z;
  body_temperature_c : Z;
  blood_pressure : string;
  heart_rate_bpm : Z;
  respiratory_rate_bpm : Z;
}.
End VitalSign.

(** A care session as a [findMany] or [findFirst] with [include] returns
    it: the row and its relations.  The joined [doctor] and [room] rows are
    determined by their keys in [session], which stand for them. *)
Module SessionRow.
Record t := mk {
  session : CareSession.t;
  patient : option Patient.t;
  CareSessionTreatment : list (CareSessionTreatment.t * option Treatment.t);
  VitalSign : option VitalSign.t;
  CareSessionDiagnosis : list Diagnosis.t;
  DrugOrder : list DrugOrder.t;
}.
End SessionRow.

Module NextQueue.
Record t := mk {
  id : Z;
  queue_number : string;
}.
End NextQueue.

(** [select: { id, name, birth_date, gender }] on the patient. *)
Module PatientSummary.
Record t := mk {
  id : Z;
  name : string;
  birth_date : Z;
  gender : string;
}.
End PatientSummary.

Module PharmacyDrugOrder.
Record t := mk {
  id : Z;
  name : string;
  price : Z;
  quantity : Z;
  dose : string;
}.
End PharmacyDrugOrder.

Module CurrentPharmacyQueueDetail.
Record t := mk {
  id : Z;
  queue_number : string;
  diagnoses : list Diagnosis.t;
  drug_orders : list PharmacyDrugOrder.t;
  doctor : string;
  patient : option PatientSummary.t;
  complaints : string;
}.
End CurrentPharmacyQueueDetail.

Module GetActivePharmacyQueueResponse.
Record t := mk {
  current : option CurrentPharmacyQueueDetail.t;
  next_queues : list NextQueue.t;
}.
End GetActivePharmacyQueueResponse.

(** The patient's [occupation], which the doctor's view also selects, is
    not a column of the modelled patient table and is left out. *)
Module CurrentDoctorQueueDetail.
Record t := mk {
  id : Z;
  doctor : string;
  patient : option PatientSummary.t;
  queue_number : string;
  complaints : string;
  vital_sign : option VitalSign.t;
}.
End CurrentDoctorQueueDetail.

Module GetActiveDoctorQueueResponse.
Record t := mk {
  current : option CurrentDoctorQueueDetail.t;
  next_queues : list NextQueue.t;
}.
End GetActiveDoctorQueueResponse.

Module TreatmentLine.
Record t := mk {
  id : Z;
  name : string;
  price : Z;
  quantity : Z;
  applied_price : Z;
}.
End TreatmentLine.

Module QueueDrugOrder.
Record t := mk {
  id : Z;
  name : string;
  quantity : Z;
  price : Z;
  unit : string;
  dose : string;
}.
End QueueDrugOrder.

(** [select: { id, name, medical_record_number }] on the patient. *)
Module PatientLabel.
Record t := mk {
  id : Z;
  name : string;
  medical_record_number : option string;
}.
End PatientLabel.

Module QueueDetail.
Record t := mk {
  id : Z;
  status : QueueStatus;
  queue_number : string;
  complaints : string;
  diagnosis : option string;
  doctor : string;
  patient : option PatientLabel.t;
  room : Z;
  created_at : Z;
  updated_at : Z;
  treatments : list TreatmentLine.t;
  vital_sign : option VitalSign.t;
  diagnoses : list Diagnosis.t;
  drug_orders : list QueueDrugOrder.t;
}.
End QueueDetail.

Module TransformedCareSession.
Record t := mk {
  id : Z;
  status : QueueStatus;
  queue_number : string;
  complaints : string;
  diagnosis : option string;
  doctor : string;
  patient : option PatientLabel.t;
  room : Z;
  created_at : Z;
  updated_at : Z;
  treatments : list TreatmentLine.t;
}.
End TransformedCareSession.

Module GetAllQueuesResponse.
Record t := mk {
  data : list QueueDetail.t;
  meta : Meta.t;
}.
End GetAllQueuesResponse.

(** ** The database, the gateway log and the environment of a call *)

Record Db := mkDb {
  careSession : list CareSession.t;
  patient : list Patient.t;
  treatment : list Treatment.t;
  careSessionTreatment : list CareSessionTreatment.t;
  nextCareSessionId : Z;
  nextPatientId : Z;
  nextCareSessionTreatmentId : Z;
}.

Definition set_careSession (f : list CareSession.t → list CareSession.t)
    (d : Db) : Db :=
  mkDb (f (careSession d)) (patient d) (treatment d) (careSessionTreatment d)
       (nextCareSessionId d) (nextPatientId d) (nextCareSessionTreatmentId d).

Definition set_patient (f : list Patient.t → list Patient.t) (d : Db) : Db :=
  mkDb (careSession d) (f (patient d)) (treatment d) (careSessionTreatment d)
       (nextCareSessionId d) (nextPatientId d) (nextCareSessionTreatmentId d).

Definition set_treatment (f : list Treatment.t → list Treatment.t)
    (d : Db) : Db :=
  mkDb (careSession d) (patient d) (f (treatment d)) (careSessionTreatment d)
       (nextCareSessionId d) (nextPatientId d) (nextCareSessionTreatmentId d).

Definition set_careSessionTreatment
    (f : list CareSessionTreatment.t → list CareSessionTreatment.t)
    (d : Db) : Db :=
  mkDb (careSession d) (patient d) (treatment d) (f (careSessionTreatment d))
       (nextCareSessionId d) (nextPatientId d) (nextCareSessionTreatmentId d).

Definition bump_careSessionId (d : Db) : Db :=
  mkDb (careSession d) (patient d) (treatment d) (careSessionTreatment d)
       (nextCareSessionId d + 1) (nextPatientId d)
       (nextCareSessionTreatmentId d).

Definition bump_patientId (d : Db) : Db :=
  mkDb (careSession d) (patient d) (treatment d) (careSessionTreatment d)
       (nextCareSessionId d) (nextPatientId d + 1)
       (nextCareSessionTreatmentId d).

Definition bump_careSessionTreatmentId (k : Z) (d : Db) : Db :=
  mkDb (careSession d) (patient d) (treatment d) (careSessionTreatment d)
       (nextCareSessionId d) (nextPatientId d)
       (nextCareSessionTreatmentId d + k).

(** What [QueueGateway] was asked to emit, oldest first. *)
Inductive Emit :=
| WaitingQueueUpdate (snapshot : list WaitingQueueDetail.t)
| CalledQueueUpdate (id : Z) (queue_number : string).

Record World := mkWorld {
  db : Db;
  emitted : list Emit;
}.

Inductive StoreOp :=
| PatientCreate | PatientFindFirst | PatientUpdate
| CareSessionCount | CareSessionCreate | CareSessionFindMany
| CareSessionUpdate
| TreatmentFindMany | TreatmentUpdate | Transaction.

Inductive Channel := WaitingQueue | CalledQueue.

Global Instance StoreOp_eq_dec : EqDecision StoreOp.
Proof. solve_decision. Defined.

Global Instance Channel_eq_dec : EqDecision Channel.
Proof. solve_decision. Defined.

(** The environment of one service call: the clock reading, and for each
    store operation and each gateway channel whether it raises. *)
Record Env := mkEnv {
  now : Z;
  storeFault : StoreOp → option Exn;
  emitFault : Channel → option Exn;
}.

Definition calm (t : Z) : Env := mkEnv t (λ _, None) (λ _, None).

(** The store operations of the list, lookup and delete endpoints, and
    whether each raises during one call. *)
Inductive QueryOp :=
| TreatmentFindManyOrdered | TreatmentCount | TreatmentDelete
| CareSessionFindManyWhere | CareSessionCountWhere | CareSessionFindFirst.

Record QueryEnv := mkQueryEnv {
  queryFault : QueryOp → option Exn;
}.

Definition quiet : QueryEnv := mkQueryEnv (λ _, None).

(** The read-only tables, by care session id. *)
Record Relations := mkRelations {
  vitalSignOf : Z → option VitalSign.t;
  diagnosesOf : Z → list Diagnosis.t;
  drugOrdersOf : Z → list DrugOrder.t;
}.

(** ** The monad of service calls

    A thrown exception leaves the world as it was at the throw: nothing is
    rolled back. *)

Definition M (A : Type) : Type := World → Result A * World.

Definition ret {A} (a : A) : M A := λ w, (Ok a, w).
Definition throw {A} (e : Exn) : M A := λ w, (Throw e, w).
Definition bind {A B} (m : M A) (k : A → M B) : M B :=
  λ w, match m w with
       | (Ok a, w') => k a w'
       | (Throw e, w') => (Throw e, w')
       end.
Definition tryCatch {A} (m : M A) (handler : Exn → M A) : M A :=
  λ w, match m w with
       | (Ok a, w') => (Ok a, w')
       | (Throw e, w') => handler e w'
       end.
Definition getDb : M Db := λ w, (Ok (db w), w).
Definition modifyDb (f : Db → Db) : M unit :=
  λ w, (Ok tt, mkWorld (f (db w)) (emitted w)).

Notation "'let*' x ':=' m 'in' k" := (bind m (λ x, k))
  (at level 10, x pattern, m at level 100, k at level 200).

Definition raiseIf (fault : option Exn) : M unit :=
  match fault with
  | Some e => throw e
  | None => ret tt
  end.

(** [ValidationService.validate]: the parsed request, or a [ZodError]. *)
Definition validate {A} (schema : A → bool) (dto : A) : M A :=
  if schema dto then ret dto else throw (ZodError "Validation failed").

(** A computation that touches neither store nor gateway. *)
Definition liftResult {A} (r : Result A) : M A := λ w, (r, w).

(** [l.map(f)] for a callback that may throw: the first exception ends
    the loop. *)
Fixpoint traverse {A B} (f : A → Result B) (l : list A) : Result (list B) :=
  match l with
  | [] => Ok []
  | a :: rest =>
      match f a with
      | Throw e => Throw e
      | Ok b =>
          match traverse f rest with
          | Throw e => Throw e
          | Ok bs => Ok (b :: bs)
          end
      end
  end.

(** ** Collaborators: date-fns, the Prisma client, the queue gateway *)

Module DateFns.
(** Timestamps are milliseconds of local time; a day has a fixed
    length.  The clock readings of one call are taken to be the same
    instant. *)
Definition msPerDay : Z := 86400000.
Definition startOfDay (t : Z) : Z := t - t mod msPerDay.
Definition endOfDay (t : Z) : Z := startOfDay t + (msPerDay - 1).
End DateFns.

Module CareSessionTreatmentCreateInput.
Record t := mk {
  care_session_id : Z;
  treatment_id : Z;
  quantity : Z;
  applied_price : Z;
}.
End CareSessionTreatmentCreateInput.

Module Prisma.

Definition RECORD_NOT_FOUND : Exn :=
  JsError "Record to update not found." (Some "P2025").

(** [patient.create({ data })]: the new row has no medical record
    number. *)
Definition patient_create (env : Env) (data : PatientData.t)
    : M Patient.t :=
  let* _ := raiseIf (storeFault env PatientCreate) in
  let* d := getDb in
  let row := Patient.mk (nextPatientId d) data None in
  let* _ := modifyDb (λ d, bump_patientId (set_patient (λ l, l ++ [row]) d)) in
  ret row.

(** String order of the store, taken to be the order of character
    codes. *)
Fixpoint greatest (l : list string) : option string :=
  match l with
  | [] => None
  | s :: r =>
      match greatest r with
      | None => Some s
      | Some b => if String.ltb s b then Some b else Some s
      end
  end.

(** [patient.findFirst({ where: { medical_record_number: { not: null } },
      orderBy: { medical_record_number: 'desc' },
      select: { medical_record_number: true } })] *)
Definition patient_findFirst_lastMr (env : Env) : M (option string) :=
  let* _ := raiseIf (storeFault env PatientFindFirst) in
  let* d := getDb in
  ret (greatest (omap Patient.medical_record_number (patient d))).

(** [patient.update({ where: { id }, data: { medical_record_number } })] *)
Definition patient_update (env : Env) (id : Z) (mr : string) : M unit :=
  let* _ := raiseIf (storeFault env PatientUpdate) in
  let* d := getDb in
  match List.find (λ p, Patient.id p =? id) (patient d) with
  | None => throw RECORD_NOT_FOUND
  | Some _ =>
      modifyDb (set_patient (List.map (λ p,
        if Patient.id p =? id
        then Patient.set_medical_record_number (Some mr) p else p)))
  end.

(** [careSession.count({ where: { created_at: { gte, lte } } })] *)
Definition careSession_count (env : Env) (gte lte : Z) : M Z :=
  let* _ := raiseIf (storeFault env CareSessionCount) in
  let* d := getDb in
  ret (Z.of_nat (length (filter
         (λ s, gte ≤ CareSession.created_at s ∧ CareSession.created_at s ≤ lte)
         (careSession d)))).

(** [careSession.create({ data })]: the store assigns the id and both
    timestamps, here at the reading of [env].  [Clocked.add] below calls
    it at the store's own reading. *)
Definition careSession_create (env : Env)
    (doctor_id : string) (complaints : string) (status : QueueStatus)
    (room_id : Z) (patient_id : option Z) (queue_number : string)
    : M CareSession.t :=
  let* _ := raiseIf (storeFault env CareSessionCreate) in
  let* d := getDb in
  let row := CareSession.mk (nextCareSessionId d) status queue_number
               complaints None doctor_id room_id patient_id
               (now env) (now env) in
  let* _ := modifyDb (λ d, bump_careSessionId
                             (set_careSession (λ l, l ++ [row]) d)) in
  ret row.

Definition createdBefore (a b : CareSession.t) : Prop :=
  CareSession.created_at a ≤ CareSession.created_at b.

Global Instance createdBefore_dec : RelDecision createdBefore.
Proof. intros a b. unfold createdBefore. apply _. Defined.

(** [careSession.findMany({ where: { status }, orderBy:
      { created_at: 'asc' } })] *)
Definition careSession_findMany (env : Env) (status : QueueStatus)
    : M (list CareSession.t) :=
  let* _ := raiseIf (storeFault env CareSessionFindMany) in
  let* d := getDb in
  ret (merge_sort createdBefore
         (filter (λ s, CareSession.status s = status) (careSession d))).

Definition applyUpdate (t : Z) (r : UpdateQueueDto.t) (s : CareSession.t)
    : CareSession.t :=
  CareSession.mk (CareSession.id s)
    (default (CareSession.status s) (UpdateQueueDto.status r))
    (CareSession.queue_number s)
    (default (CareSession.complaints s) (UpdateQueueDto.complaints r))
    (match UpdateQueueDto.diagnosis r with
     | Some g => Some g
     | None => CareSession.diagnosis s
     end)
    (default (CareSession.doctor_id s) (UpdateQueueDto.doctor_id r))
    (default (CareSession.room_id s) (UpdateQueueDto.room_id r))
    (CareSession.patient_id s)
    (CareSession.created_at s)
    t.

Definition joinPatient (d : Db) (s : CareSession.t) : option Patient.t :=
  match CareSession.patient_id s with
  | Some pid => List.find (λ p, Patient.id p =? pid) (patient d)
  | None => None
  end.

(** [careSession.update({ where: { id }, data, include:
      { patient: true } })] *)
Definition careSession_update (env : Env) (id : Z) (data : UpdateQueueDto.t)
    : M (CareSession.t * option Patient.t) :=
  let* _ := raiseIf (storeFault env CareSessionUpdate) in
  let* d := getDb in
  match List.find (λ s, CareSession.id s =? id) (careSession d) with
  | None => throw RECORD_NOT_FOUND
  | Some s =>
      let s' := applyUpdate (now env) data s in
      let* _ := modifyDb (set_careSession (List.map (λ r,
                  if CareSession.id r =? id then s' else r))) in
      ret (s', joinPatient d s')
  end.

(** [treatment.findMany({ where: { id: { in: ids } },
      select: { id: true, price: true } })] *)
Definition treatment_findMany (env : Env) (ids : list Z)
    : M (list (Z * Z)) :=
  let* _ := raiseIf (storeFault env TreatmentFindMany) in
  let* d := getDb in
  ret ((λ t, (Treatment.id t, Treatment.price t)) <$>
       filter (λ t, Treatment.id t ∈ ids) (treatment d)).

(** [treatment.update({ where: { id }, data })] *)
Definition treatment_update (env : Env) (id : Z) (data : UpdateTreatmentDto.t)
    : M Treatment.t :=
  let* _ := raiseIf (storeFault env TreatmentUpdate) in
  let* d := getDb in
  match List.find (λ t, Treatment.id t =? id) (treatment d) with
  | None => throw RECORD_NOT_FOUND
  | Some t =>
      let t' := Treatment.mk (Treatment.id t)
                  (default (Treatment.name t) (UpdateTreatmentDto.name data))
                  (default (Treatment.price t) (UpdateTreatmentDto.price data)) in
      let* _ := modifyDb (set_treatment (List.map (λ r,
                  if Treatment.id r =? id then t' else r))) in
      ret t'
  end.

(** The violation of a foreign key, reported by the client with code
    [P2003]. *)
Definition FOREIGN_KEY_FAILED : Exn :=
  JsError "Foreign key constraint failed" (Some "P2003").

(** A row of applied treatments refers to a care session and to a
    treatment.  [QueueService.getAll] reads [CareSessionTreatment] as a
    relation of the session and [treatment] as a relation of the row, and
    the datasource is PostgreSQL under Prisma's default relation mode, so
    both columns are foreign keys and an insert that names a missing row
    is refused. *)
Definition refers (d : Db) (o : CareSessionTreatmentCreateInput.t) : bool :=
  bool_decide (CareSessionTreatmentCreateInput.care_session_id o
               ∈ CareSession.id <$> careSession d)
  && bool_decide (CareSessionTreatmentCreateInput.treatment_id o
                  ∈ Treatment.id <$> treatment d).

(** [$transaction(operations)] over [careSessionTreatment.create] calls:
    every row is inserted, or none is. *)
Definition transaction_createSessionTreatments (env : Env)
    (operations : list CareSessionTreatmentCreateInput.t)
    : M (list CareSessionTreatment.t) :=
  let* _ := raiseIf (storeFault env Transaction) in
  let* d := getDb in
  if forallb (refers d) operations
  then
    let rows := imap (λ i o,
                  CareSessionTreatment.mk
                    (nextCareSessionTreatmentId d + Z.of_nat i)
                    (CareSessionTreatmentCreateInput.care_session_id o)
                    (CareSessionTreatmentCreateInput.treatment_id o)
                    (CareSessionTreatmentCreateInput.quantity o)
                    (CareSessionTreatmentCreateInput.applied_price o))
                  operations in
    let* _ := modifyDb (λ d,
                bump_careSessionTreatmentId (Z.of_nat (length operations))
                  (set_careSessionTreatment (λ l, l ++ rows) d)) in
    ret rows
  else throw FOREIGN_KEY_FAILED.

(** [skip] and [take] of a [findMany]: a negative [skip] is refused, a
    negative [take] counts from the end of the ordered rows. *)
Definition window {A} (skip take : Z) (rows : list A) : list A :=
  if 0 <=? take
  then firstn (Z.to_nat take) (skipn (Z.to_nat skip) rows)
  else rev (firstn (Z.to_nat (- take)) (skipn (Z.to_nat skip) (rev rows))).

Definition paged {A} (page : option (Z * Z)) (rows : list A) : M (list A) :=
  match page with
  | None => ret rows
  | Some (skip, take) =>
      if skip <? 0
      then throw (JsError "Invalid value for skip argument" None)
      else ret (window skip take rows)
  end.

Definition nameBefore (a b : Treatment.t) : Prop :=
  String.le (Treatment.name a) (Treatment.name b).

Global Instance nameBefore_dec : RelDecision nameBefore.
Proof. intros a b. unfold nameBefore. apply _. Defined.

(** [treatment.findMany({ skip, take, where, orderBy: { name: 'asc' } })] *)
Definition treatment_findManyOrdered (q : QueryEnv)
    (where_ : Treatment.t → bool) (page : option (Z * Z))
    : M (list Treatment.t) :=
  let* _ := raiseIf (queryFault q TreatmentFindManyOrdered) in
  let* d := getDb in
  paged page
    (merge_sort nameBefore (filter (λ t, where_ t = true) (treatment d))).

(** [treatment.count({ where })] *)
Definition treatment_count (q : QueryEnv) (where_ : Treatment.t → bool)
    : M Z :=
  let* _ := raiseIf (queryFault q TreatmentCount) in
  let* d := getDb in
  ret (Z.of_nat (length (filter (λ t, where_ t = true) (treatment d)))).

Definition RECORD_TO_DELETE_NOT_FOUND : Exn :=
  JsError "Record to delete does not exist." (Some "P2025").

(** [treatment.delete({ where: { id } })].  What the store does to applied
    rows that refer to the treatment depends on the referential action of
    the relation, which is not among the sources; a refusal is one of the
    faults of [q], and otherwise the rows stay. *)
Definition treatment_delete (q : QueryEnv) (id : Z) : M Treatment.t :=
  let* _ := raiseIf (queryFault q TreatmentDelete) in
  let* d := getDb in
  match List.find (λ t, Treatment.id t =? id) (treatment d) with
  | None => throw RECORD_TO_DELETE_NOT_FOUND
  | Some t =>
      let* _ := modifyDb (set_treatment
                  (List.filter (λ r, negb (Treatment.id r =? id)))) in
      ret t
  end.

Inductive SortOrder := Asc | Desc.

Definition createdAfter (a b : CareSession.t) : Prop :=
  CareSession.created_at b ≤ CareSession.created_at a.

Global Instance createdAfter_dec : RelDecision createdAfter.
Proof. intros a b. unfold createdAfter. apply _. Defined.

(** [orderBy: { created_at }]; without [orderBy] the rows come in the
    order of the table. *)
Definition ordered (orderBy : option SortOrder) (rows : list CareSession.t)
    : list CareSession.t :=
  match orderBy with
  | Some Asc => merge_sort createdBefore rows
  | Some Desc => merge_sort createdAfter rows
  | None => rows
  end.

(** The relations an [include] joins to a care session. *)
Definition included (rel : Relations) (d : Db) (s : CareSession.t)
    : SessionRow.t :=
  SessionRow.mk s (joinPatient d s)
    ((λ l, (l, List.find
                 (λ t, Treatment.id t =? CareSessionTreatment.treatment_id l)
                 (treatment d))) <$>
     filter (λ l, CareSessionTreatment.care_session_id l = CareSession.id s)
            (careSessionTreatment d))
    (vitalSignOf rel (CareSession.id s))
    (diagnosesOf rel (CareSession.id s))
    (drugOrdersOf rel (CareSession.id s)).

Definition matching (rel : Relations) (where_ : SessionRow.t → bool)
    (d : Db) : list CareSession.t :=
  filter (λ s, where_ (included rel d s) = true) (careSession d).

(** [careSession.findMany({ skip, take, where, orderBy, include })] *)
Definition careSession_findManyWhere (q : QueryEnv) (rel : Relations)
    (where_ : SessionRow.t → bool) (orderBy : option SortOrder)
    (page : option (Z * Z)) : M (list SessionRow.t) :=
  let* _ := raiseIf (queryFault q CareSessionFindManyWhere) in
  let* d := getDb in
  paged page (included rel d <$> ordered orderBy (matching rel where_ d)).

(** [careSession.findFirst({ where, include })] *)
Definition careSession_findFirst (q : QueryEnv) (rel : Relations)
    (where_ : SessionRow.t → bool) : M (option SessionRow.t) :=
  let* _ := raiseIf (queryFault q CareSessionFindFirst) in
  let* d := getDb in
  ret (head (included rel d <$> matching rel where_ d)).

(** [careSession.count({ where })] *)
Definition careSession_countWhere (q : QueryEnv) (rel : Relations)
    (where_ : SessionRow.t → bool) : M Z :=
  let* _ := raiseIf (queryFault q CareSessionCountWhere) in
  let* d := getDb in
  ret (Z.of_nat (length (matching rel where_ d))).

End Prisma.

(** Modelled from the spec: [QueueGateway] is not among the sources.  Its
    two methods hand an event to the live-update channel; the call is
    logged, and raises when the environment says so. *)
Module QueueGateway.

Definition emit (env : Env) (ch : Channel) (ev : Emit) : M unit :=
  λ w, let w' := mkWorld (db w) (emitted w ++ [ev]) in
       match emitFault env ch with
       | Some e => (Throw e, w')
       | None => (Ok tt, w')
       end.

Definition emitWaitingQueueUpdate (env : Env)
    (queues : list WaitingQueueDetail.t) : M unit :=
  emit env WaitingQueue (WaitingQueueUpdate queues).

Definition emitCalledQueueUpdate (env : Env) (id : Z)
    (queue_number : string) : M unit :=
  emit env CalledQueue (CalledQueueUpdate id queue_number).

End QueueGateway.

(** The schemas of [queue.validation] and [treatment.validation] are not
    among the sources: they are parameters of the services. *)
Module QueueValidation.
Record t := mk {
  ADD : AddQueueDto.t → bool;
  UPDATE : UpdateQueueDto.t → bool;
}.
End QueueValidation.

Module TreatmentValidation.
Record t := mk {
  ADD_SESSION_TREATMENT : AddSessionTreatmentDto.t → bool;
  UPDATE : UpdateTreatmentDto.t → bool;
}.
End TreatmentValidation.

(** ** The paging block of the [getAll] methods

    Every [getAll] opens with the same lines on [page] and closes with the
    same lines on the page count and the neighbouring pages. *)

Module Pagination.

(** [let pageNumber = parseInt(page) || 1; if (pageNumber == 0) throw ...;
    if (pageNumber < 1) pageNumber = 1;] *)
Definition pageNumberOf (page : string) : M Z :=
  let pageNumber := Js.orOne (Js.parseInt page None) in
  if pageNumber =? 0
  then throw (HttpException "Invalid page data type" HttpStatus.BAD_REQUEST)
  else ret (if pageNumber <? 1 then 1 else pageNumber).

Definition unpagedMeta (total : Z) : Meta.t :=
  Meta.mk 1 None None 1 total.

Definition pagedMeta (pageNumber pageSize totalData : Z) : Meta.t :=
  let totalPage := Js.ceilDiv totalData pageSize in
  let previousPage :=
    if 1 <? pageNumber then Some (pageNumber - 1) else None in
  let nextPage :=
    if pageNumber <? totalPage then Some (pageNumber + 1) else None in
  Meta.mk pageNumber previousPage nextPage totalPage totalData.

(** [Promise.all([a, b])] over two reads; when both raise, the failure of
    the first is the one reported. *)
Definition promiseAll2 {A B} (a : M A) (b : M B) : M (A * B) :=
  let* x := a in
  let* y := b in
  ret (x, y).

End Pagination.

(** ** QueueService *)

Module QueueService.
Section WithValidation.

Variable validation : QueueValidation.t.

Definition generateQueueNumber (env : Env) : M string :=
  let todayStart := DateFns.startOfDay (now env) in
  let todayEnd := DateFns.endOfDay (now env) in
  let* countToday := Prisma.careSession_count env todayStart todayEnd in
  let nextNumber := countToday + 1 in
  if 999 <? nextNumber
  then throw (JsError "Queue limit exceeded for today" None)
  else ret (String "U"%char
              (Js.padStart 3 "0" (Js.toString (Some nextNumber)))).

Definition toWaitingQueueDetail (s : CareSession.t) : WaitingQueueDetail.t :=
  WaitingQueueDetail.mk (CareSession.id s) (CareSession.doctor_id s)
    (CareSession.queue_number s) (CareSession.room_id s).

Definition getWaitingQueuesData (env : Env)
    : M (list WaitingQueueDetail.t) :=
  let* waitingSessions :=
    Prisma.careSession_findMany env WAITING_CONSULTATION in
  ret (toWaitingQueueDetail <$> waitingSessions).

(** [!request.patient_id]: an absent id and the id 0 are both falsy. *)
Definition noPatientId (patient_id : option Z) : bool :=
  match patient_id with
  | None => true
  | Some n => n =? 0
  end.

(** The patient block of [add]: a patient row is created when the
    request carries [patient_data] and no [patient_id]. *)
Definition resolvePatientId (env : Env) (request : AddQueueDto.t)
    : M (option Z) :=
  match AddQueueDto.patient_data request with
  | Some patient_data =>
      if noPatientId (AddQueueDto.patient_id request)
      then let* newPatient := Prisma.patient_create env patient_data in
           ret (Some (Patient.id newPatient))
      else ret (AddQueueDto.patient_id request)
  | None => ret (AddQueueDto.patient_id request)
  end.

Definition add (env : Env) (dto : AddQueueDto.t) : M CareSession.t :=
  let* request := validate (QueueValidation.ADD validation) dto in
  tryCatch
    (let* patientId := resolvePatientId env request in
     let* queueNumber := generateQueueNumber env in
     let* res := Prisma.careSession_create env
                   (AddQueueDto.doctor_id request)
                   (AddQueueDto.complaints request)
                   WAITING_CONSULTATION
                   (AddQueueDto.room_id request)
                   patientId
                   queueNumber in
     let* waitingQueues := getWaitingQueuesData env in
     let* _ := QueueGateway.emitWaitingQueueUpdate env waitingQueues in
     ret res)
    (λ error, throw (HttpException (message error) HttpStatus.BAD_REQUEST)).

(** The number block of [update]: the successor of the greatest number on
    record, or 1.  The sum is taken on integers; the code takes it on
    doubles, which give the same result while the number read is below
    2^53. *)
Definition nextMedicalRecordNumber (lastMr : option string) : option Z :=
  if Js.truthy lastMr
  then let lastNumber :=
         Js.parseInt (Js.removeDots (default "" lastMr)) (Some 10) in
       (λ n, n + 1) <$> lastNumber
  else Some 1.

Definition formatMedicalRecordNumber (nextNumber : option Z) : string :=
  Js.groupPairs (Js.padStart 6 "0" (Js.toString nextNumber)).

Definition needsMedicalRecordNumber (request : UpdateQueueDto.t)
    (patient : option Patient.t) : bool :=
  bool_decide (UpdateQueueDto.status request = Some COMPLETED) &&
  match patient with
  | Some p => negb (Js.truthy (Patient.medical_record_number p))
  | None => false
  end.

(** The [COMPLETED] block of [update]: a patient without a medical
    record number gets the next one. *)
Definition assignMedicalRecordNumber (env : Env)
    (request : UpdateQueueDto.t) (res : CareSession.t * option Patient.t)
    : M unit :=
  if needsMedicalRecordNumber request (snd res)
  then
    let* lastPatientWithMr := Prisma.patient_findFirst_lastMr env in
    let nextNumber := nextMedicalRecordNumber lastPatientWithMr in
    let formatted := formatMedicalRecordNumber nextNumber in
    match CareSession.patient_id (fst res) with
    | Some patient_id => Prisma.patient_update env patient_id formatted
    | None => throw (JsError "Argument id is missing." None)
    end
  else ret tt.

Definition update (env : Env) (id : string) (dto : UpdateQueueDto.t)
    : M (CareSession.t * option Patient.t) :=
  match Js.parseInt id None with
  | None => throw (HttpException "Invalid ID type" HttpStatus.BAD_REQUEST)
  | Some numericId =>
      let* request := validate (QueueValidation.UPDATE validation) dto in
      tryCatch
        (let* res := Prisma.careSession_update env numericId request in
         let* _ := assignMedicalRecordNumber env request res in
         let* waitingQueues := getWaitingQueuesData env in
         let* _ := QueueGateway.emitWaitingQueueUpdate env waitingQueues in
         let* _ :=
           if bool_decide (CareSession.status (fst res) = IN_CONSULTATION)
           then QueueGateway.emitCalledQueueUpdate env
                  (CareSession.id (fst res))
                  (CareSession.queue_number (fst res))
           else ret tt in
         ret res)
        (λ error,
           if bool_decide (code error = Some "P2025")
           then throw (HttpException "Data pelayanan tidak ditemukan!"
                         HttpStatus.NOT_FOUND)
           else throw error)
  end.

End WithValidation.

Section Queries.

(** Prisma's case-insensitive [contains] on a column: the text searched
    for, then the column value. *)
Variable contains : string → string → bool.

Variable rel : Relations.

Definition toNextQueue (session : SessionRow.t) : NextQueue.t :=
  let s := SessionRow.session session in
  NextQueue.mk (CareSession.id s) (CareSession.queue_number s).

Definition toPatientSummary (p : Patient.t) : PatientSummary.t :=
  PatientSummary.mk (Patient.id p) (PatientData.name (Patient.data p))
    (PatientData.birth_date (Patient.data p))
    (PatientData.gender (Patient.data p)).

Definition toCurrentPharmacyQueue (session : SessionRow.t)
    : CurrentPharmacyQueueDetail.t :=
  let s := SessionRow.session session in
  CurrentPharmacyQueueDetail.mk (CareSession.id s)
    (CareSession.queue_number s)
    (SessionRow.CareSessionDiagnosis session)
    ((λ o, PharmacyDrugOrder.mk (Drug.id (DrugOrder.drug o))
             (Drug.name (DrugOrder.drug o)) (Drug.price (DrugOrder.drug o))
             (DrugOrder.quantity o) (DrugOrder.dose o))
     <$> SessionRow.DrugOrder session)
    (CareSession.doctor_id s)
    (toPatientSummary <$> SessionRow.patient session)
    (CareSession.complaints s).

Definition getActivePharmacyQueues (q : QueryEnv)
    : M GetActivePharmacyQueueResponse.t :=
  let* careSessions :=
    Prisma.careSession_findManyWhere q rel
      (λ r, bool_decide (CareSession.status (SessionRow.session r)
                         ∈ [WAITING_MEDICATION]))
      (Some Prisma.Asc) None in
  let currentQueue :=
    if (length careSessions =? 0)%nat then None
    else head (toCurrentPharmacyQueue <$> careSessions) in
  ret (GetActivePharmacyQueueResponse.mk currentQueue
         (toNextQueue <$> drop 1 careSessions)).

Definition toCurrentDoctorQueue (session : SessionRow.t)
    : CurrentDoctorQueueDetail.t :=
  let s := SessionRow.session session in
  CurrentDoctorQueueDetail.mk (CareSession.id s) (CareSession.doctor_id s)
    (toPatientSummary <$> SessionRow.patient session)
    (CareSession.queue_number s) (CareSession.complaints s)
    (SessionRow.VitalSign session).

Definition ofDoctor (statuses : list QueueStatus) (id : string)
    (r : SessionRow.t) : bool :=
  bool_decide (CareSession.status (SessionRow.session r) ∈ statuses)
  && String.eqb (CareSession.doctor_id (SessionRow.session r)) id.

Definition getActiveDoctorQueue (q : QueryEnv) (id : string)
    : M GetActiveDoctorQueueResponse.t :=
  let* (activeSessionData, nextQueues) :=
    Pagination.promiseAll2
      (Prisma.careSession_findFirst q rel (ofDoctor [IN_CONSULTATION] id))
      (Prisma.careSession_findManyWhere q rel
         (ofDoctor [WAITING_CONSULTATION] id) None None) in
  ret (GetActiveDoctorQueueResponse.mk
         (toCurrentDoctorQueue <$> activeSessionData)
         (toNextQueue <$> nextQueues)).

(** Reading [treatment.id] of a line whose treatment is [null]. *)
Definition NULL_TREATMENT : Exn :=
  JsError "Cannot read properties of null (reading 'id')" None.

(** [CareSessionTreatment.map(({ treatment, quantity, applied_price }) =>
      ({ id: treatment.id, name: treatment.name, price: treatment.price,
         quantity, applied_price }))] *)
Definition toTreatmentLine (l : CareSessionTreatment.t * option Treatment.t)
    : Result TreatmentLine.t :=
  match l.2 with
  | Some treatment =>
      Ok (TreatmentLine.mk (Treatment.id treatment)
            (Treatment.name treatment) (Treatment.price treatment)
            (CareSessionTreatment.quantity l.1)
            (CareSessionTreatment.applied_price l.1))
  | None => Throw NULL_TREATMENT
  end.

Definition toPatientLabel (p : Patient.t) : PatientLabel.t :=
  PatientLabel.mk (Patient.id p) (PatientData.name (Patient.data p))
    (Patient.medical_record_number p).

Definition transformCareSession (session : SessionRow.t)
    : Result TransformedCareSession.t :=
  let s := SessionRow.session session in
  match traverse toTreatmentLine (SessionRow.CareSessionTreatment session)
  with
  | Throw e => Throw e
  | Ok treatments =>
      Ok (TransformedCareSession.mk (CareSession.id s)
            (CareSession.status s) (CareSession.queue_number s)
            (CareSession.complaints s) (CareSession.diagnosis s)
            (CareSession.doctor_id s)
            (toPatientLabel <$> SessionRow.patient session)
            (CareSession.room_id s) (CareSession.created_at s)
            (CareSession.updated_at s) treatments)
  end.

(** The callback both branches of [getAll] map over the rows read. *)
Definition toQueueDetail (session : SessionRow.t) : Result QueueDetail.t :=
  match transformCareSession session with
  | Throw e => Throw e
  | Ok base =>
      let vital_sign :=
        (λ v, VitalSign.mk (VitalSign.height_cm v) (VitalSign.weight_kg v)
                (VitalSign.body_temperature_c v) (VitalSign.blood_pressure v)
                (VitalSign.heart_rate_bpm v)
                (VitalSign.respiratory_rate_bpm v))
        <$> SessionRow.VitalSign session in
      let diagnoses := SessionRow.CareSessionDiagnosis session in
      let drug_orders :=
        (λ o, QueueDrugOrder.mk (Drug.id (DrugOrder.drug o))
                (Drug.name (DrugOrder.drug o)) (DrugOrder.quantity o)
                (Drug.price (DrugOrder.drug o)) (Drug.unit (DrugOrder.drug o))
                (DrugOrder.dose o))
        <$> SessionRow.DrugOrder session in
      match traverse toTreatmentLine
              (SessionRow.CareSessionTreatment session) with
      | Throw e => Throw e
      | Ok treatments =>
          Ok (QueueDetail.mk (TransformedCareSession.id base)
                (TransformedCareSession.status base)
                (TransformedCareSession.queue_number base)
                (TransformedCareSession.complaints base)
                (TransformedCareSession.diagnosis base)
                (TransformedCareSession.doctor base)
                (TransformedCareSession.patient base)
                (TransformedCareSession.room base)
                (TransformedCareSession.created_at base)
                (TransformedCareSession.updated_at base)
                treatments vital_sign diagnoses drug_orders)
      end
  end.

(** [Object.values(QueueStatus).includes(status)], with the value found. *)
Definition statusNamed (status : string) : option QueueStatus :=
  if String.eqb status "WAITING_CONSULTATION" then Some WAITING_CONSULTATION
  else if String.eqb status "IN_CONSULTATION" then Some IN_CONSULTATION
  else if String.eqb status "WAITING_MEDICATION" then Some WAITING_MEDICATION
  else if String.eqb status "WAITING_PAYMENT" then Some WAITING_PAYMENT
  else if String.eqb status "COMPLETED" then Some COMPLETED
  else None.

Definition includedStatusesOf (isQueueActive : option bool)
    (status : option string) : M (list QueueStatus) :=
  let includedStatuses :=
    if default false isQueueActive
    then [WAITING_CONSULTATION; IN_CONSULTATION; WAITING_MEDICATION;
          WAITING_PAYMENT]
    else [COMPLETED] in
  if Js.truthy status
  then match statusNamed (default "" status) with
       | Some st => ret [st]
       | None => throw (HttpException "Invalid status" HttpStatus.BAD_REQUEST)
       end
  else ret includedStatuses.

(** The [where] clause: the status set, the room when one is given, and
    the search text in the patient's name or medical record number. *)
Definition whereClause (includedStatuses : list QueueStatus)
    (roomId : option Z) (search : option string) (r : SessionRow.t) : bool :=
  bool_decide (CareSession.status (SessionRow.session r) ∈ includedStatuses)
  && (if Js.falsyNumber roomId then true
      else CareSession.room_id (SessionRow.session r) =? default 0 roomId)
  && (if Js.truthy search
      then match SessionRow.patient r with
           | Some p =>
               contains (default "" search)
                 (PatientData.name (Patient.data p))
               || match Patient.medical_record_number p with
                  | Some m => contains (default "" search) m
                  | None => false
                  end
           | None => false
           end
      else true).

Definition getAll (q : QueryEnv) (page : string) (pageSize : option Z)
    (isQueueActive : option bool) (roomId : option Z)
    (status : option string) (search : option string)
    : M GetAllQueuesResponse.t :=
  let* pageNumber := Pagination.pageNumberOf page in
  let* includedStatuses := includedStatusesOf isQueueActive status in
  let where_ := whereClause includedStatuses roomId search in
  let orderBy :=
    Some (if default false isQueueActive then Prisma.Asc else Prisma.Desc) in
  if Js.falsyNumber pageSize
  then
    let* careSessions :=
      Prisma.careSession_findManyWhere q rel where_ orderBy None in
    let* data := liftResult (traverse toQueueDetail careSessions) in
    ret (GetAllQueuesResponse.mk data
           (Pagination.unpagedMeta (Z.of_nat (length careSessions))))
  else
    let size := default 0 pageSize in
    let offset := (pageNumber - 1) * size in
    let* (careSessions, totalData) :=
      Pagination.promiseAll2
        (Prisma.careSession_findManyWhere q rel where_ orderBy
           (Some (offset, size)))
        (Prisma.careSession_countWhere q rel where_) in
    let* data := liftResult (traverse toQueueDetail careSessions) in
    ret (GetAllQueuesResponse.mk data
           (Pagination.pagedMeta pageNumber size totalData)).

End Queries.
End QueueService.

(** ** The clock within one [add]

    [generateQueueNumber] reads the clock for the start of the day and
    again for its end, and the store reads its own clock when it stamps
    the new row.  [QueueService.add] takes the three as one instant; here
    they are three readings. *)
Record Readings := mkReadings {
  atDayStart : Z;
  atDayEnd : Z;
  atInsert : Z;
}.

(** The environment [env] with the clock at [t]. *)
Definition clockAt (t : Z) (env : Env) : Env :=
  mkEnv t (storeFault env) (emitFault env).

Module Clocked.
Section WithValidation.

Variable validation : QueueValidation.t.

Definition generateQueueNumber (env : Env) (r : Readings) : M string :=
  let todayStart := DateFns.startOfDay (atDayStart r) in
  let todayEnd := DateFns.endOfDay (atDayEnd r) in
  let* countToday := Prisma.careSession_count env todayStart todayEnd in
  let nextNumber := countToday + 1 in
  if 999 <? nextNumber
  then throw (JsError "Queue limit exceeded for today" None)
  else ret (String "U"%char
              (Js.padStart 3 "0" (Js.toString (Some nextNumber)))).

(** [add] with its readings apart: the store stamps the row at
    [atInsert r]. *)
Definition add (env : Env) (r : Readings) (dto : AddQueueDto.t)
    : M CareSession.t :=
  let* request := validate (QueueValidation.ADD validation) dto in
  tryCatch
    (let* patientId := QueueService.resolvePatientId env request in
     let* queueNumber := generateQueueNumber env r in
     let* res := Prisma.careSession_create (clockAt (atInsert r) env)
                   (AddQueueDto.doctor_id request)
                   (AddQueueDto.complaints request)
                   WAITING_CONSULTATION
                   (AddQueueDto.room_id request)
                   patientId
                   queueNumber in
     let* waitingQueues := QueueService.getWaitingQueuesData env in
     let* _ := QueueGateway.emitWaitingQueueUpdate env waitingQueues in
     ret res)
    (λ error, throw (HttpException (message error) HttpStatus.BAD_REQUEST)).

End WithValidation.
End Clocked.

(** ** TreatmentService *)

Module TreatmentService.
Section WithValidation.

Variable validation : TreatmentValidation.t.

(** [priceMap]: filled by [forEach] with one [set] per catalog row. *)
Definition priceMapOf (treatments : list (Z * Z)) : gmap Z Z :=
  foldl (λ m t, <[t.1 := t.2]> m) ∅ treatments.

Definition addSessionTreatments (env : Env) (dto : AddSessionTreatmentDto.t)
    : M (list AddSessionTreatmentResponse.t) :=
  let* request :=
    validate (TreatmentValidation.ADD_SESSION_TREATMENT validation) dto in
  let treatmentIds :=
    SessionTreatmentItem.treatment_id <$>
    AddSessionTreatmentDto.treatments request in
  let* treatments := Prisma.treatment_findMany env treatmentIds in
  let priceMap := priceMapOf treatments in
  let operations :=
    (λ t, CareSessionTreatmentCreateInput.mk
            (AddSessionTreatmentDto.care_session_id request)
            (SessionTreatmentItem.treatment_id t)
            (SessionTreatmentItem.quantity t)
            (default 0 (priceMap !! SessionTreatmentItem.treatment_id t)))
    <$> AddSessionTreatmentDto.treatments request in
  let* created :=
    Prisma.transaction_createSessionTreatments env operations in
  ret ((λ r, AddSessionTreatmentResponse.mk
               (CareSessionTreatment.care_session_id r)
               (CareSessionTreatment.treatment_id r)
               (CareSessionTreatment.applied_price r)
               (CareSessionTreatment.quantity r)) <$> created).

Definition update (env : Env) (id : string) (dto : UpdateTreatmentDto.t)
    : M Treatment.t :=
  match Js.parseInt id None with
  | None => throw (HttpException "Invalid ID format" HttpStatus.BAD_REQUEST)
  | Some numericId =>
      let* request :=
        validate (TreatmentValidation.UPDATE validation) dto in
      tryCatch
        (Prisma.treatment_update env numericId request)
        (λ error,
           if bool_decide (code error = Some "P2025")
           then throw (HttpException "Data penanganan tidak ditemukan!"
                         HttpStatus.NOT_FOUND)
           else throw error)
  end.

End WithValidation.
Section Queries.

(** Prisma's case-insensitive [contains] on a column: the text searched
    for, then the column value. *)
Variable contains : string → string → bool.

Definition searchFilter (search : option string) (t : Treatment.t) : bool :=
  match search with
  | Some needle =>
      if Js.truthy search then contains needle (Treatment.name t) else true
  | None => true
  end.

Definition getAll (q : QueryEnv) (page : string) (search : option string)
    (pageSize : option Z) : M GetAllTreatmentsResponse.t :=
  let* pageNumber := Pagination.pageNumberOf page in
  if Js.falsyNumber pageSize
  then
    let* treatments :=
      Prisma.treatment_findManyOrdered q (searchFilter search) None in
    ret (GetAllTreatmentsResponse.mk treatments
           (Pagination.unpagedMeta (Z.of_nat (length treatments))))
  else
    let size := default 0 pageSize in
    let offset := (pageNumber - 1) * size in
    let* (treatments, totalData) :=
      Pagination.promiseAll2
        (Prisma.treatment_findManyOrdered q (searchFilter search)
           (Some (offset, size)))
        (Prisma.treatment_count q (searchFilter search)) in
    ret (GetAllTreatmentsResponse.mk treatments
           (Pagination.pagedMeta pageNumber size totalData)).

End Queries.

Definition delete (q : QueryEnv) (id : string) : M string :=
  match Js.parseInt id None with
  | None => throw (HttpException "Invalid ID format" HttpStatus.BAD_REQUEST)
  | Some numericId =>
      let* _ :=
        tryCatch
          (let* _ := Prisma.treatment_delete q numericId in ret tt)
          (λ error,
             if bool_decide (code error = Some "P2025")
             then throw (HttpException "Data penanganan tidak ditemukan!"
                           HttpStatus.NOT_FOUND)
             else throw error) in
      ret ("Successfully deleted: " +:+ id)
  end.

End TreatmentService.

(** ** Staff: employee registration and sign-in

    The employee table and the mailer's outbox form a state of their own,
    threaded through the calls of [EmployeeService] and [AuthService]. *)

Inductive EmployeeRole :=
| ADMIN | DOKTER | PERAWAT | BIDAN | FARMASI | APOTEKER | STAFF.

Global Instance EmployeeRole_eq_dec : EqDecision EmployeeRole.
Proof. solve_decision. Defined.

Definition roleName (role : EmployeeRole) : string :=
  match role with
  | ADMIN => "ADMIN" | DOKTER => "DOKTER" | PERAWAT => "PERAWAT"
  | BIDAN => "BIDAN" | FARMASI => "FARMASI" | APOTEKER => "APOTEKER"
  | STAFF => "STAFF"
  end.

Module Employee.
Record t := mk {
  id : string;
  nip : string;
  name : string;
  role : EmployeeRole;
  email : string;
  phone : string;
  password : string;
  token : option string;
}.
Definition set_token (tok : option string) (e : t) : t :=
  mk (id e) (nip e) (name e) (role e) (email e) (phone e) (password e) tok.
End Employee.

(** Modelled from the spec: the DTO classes of [employee.model] are not
    among the sources; the request carries the employee columns that [add]
    does not generate. *)
Module AddEmployeeDto.
Record t := mk {
  name : string;
  role : EmployeeRole;
  email : string;
  phone : string;
}.
End AddEmployeeDto.

Module AddEmployeeRequest.
Record t := mk {
  name : string;
  role : EmployeeRole;
  email : string;
  phone : string;
  id : string;
  nip : string;
  password : string;
}.
Definition set_password (p : string) (r : t) : t :=
  mk (name r) (role r) (email r) (phone r) (id r) (nip r) p.
End AddEmployeeRequest.

Module EmployeeDetail.
Record t := mk {
  id : string;
  nip : string;
  name : string;
  email : string;
  phone : string;
  role : EmployeeRole;
}.
End EmployeeDetail.

Module AddEmployeeResponse.
Record t := mk {
  user : EmployeeDetail.t;
  token : option string;
}.
End AddEmployeeResponse.

(** The answer of [AuthService.login] and [AuthService.logout]. *)
Module AuthResponse.
Record t := mk {
  user : EmployeeDetail.t;
  token : option string;
}.
End AuthResponse.

Module AuthLoginDto.
Record t := mk {
  nip : string;
  password : string;
}.
End AuthLoginDto.

(** The welcome mail: its recipient and subject, and the three values the
    fixed HTML template is filled with. *)
Module Mail.
Record t := mk {
  to : string;
  subject : string;
  name : string;
  nip : string;
  password : string;
}.
End Mail.

Record Staff := mkStaff {
  employees : list Employee.t;
  outbox : list Mail.t;
}.

Inductive StaffOp :=
| EmployeeCount | EmployeeCountByEmail | EmployeeCreate
| EmployeeFindUnique | EmployeeUpdate | EmployeeDelete.

(** What the environment decides for one staff call: the id [uuid()]
    returns, the year of the clock, the index [Math.floor(Math.random() *
    7)], bcrypt's [hash] and [compare], the token the JWT service signs
    for a subject and a user name, and whether a store operation or the
    mailer raises. *)
Record Office := mkOffice {
  uuid : string;
  fullYear : Z;
  draw : Z;
  bcryptHash : string → string;
  bcryptCompare : string → string → bool;
  signAsync : string → string → Result string;
  staffFault : StaffOp → option Exn;
  sendMailFault : option Exn;
}.

Definition SM (A : Type) : Type := Staff → Result A * Staff.

Definition sret {A} (a : A) : SM A := λ s, (Ok a, s).
Definition sthrow {A} (e : Exn) : SM A := λ s, (Throw e, s).
Definition sbind {A B} (m : SM A) (k : A → SM B) : SM B :=
  λ s, match m s with
       | (Ok a, s') => k a s'
       | (Throw e, s') => (Throw e, s')
       end.
Definition stryCatch {A} (m : SM A) (handler : Exn → SM A) : SM A :=
  λ s, match m s with
       | (Ok a, s') => (Ok a, s')
       | (Throw e, s') => handler e s'
       end.
Definition getStaff : SM (list Employee.t) := λ s, (Ok (employees s), s).
Definition setStaff (f : list Employee.t → list Employee.t) : SM unit :=
  λ s, (Ok tt, mkStaff (f (employees s)) (outbox s)).
Definition sraiseIf (fault : option Exn) : SM unit :=
  match fault with
  | Some e => sthrow e
  | None => sret tt
  end.
Definition svalidate {A} (schema : A → bool) (dto : A) : SM A :=
  if schema dto then sret dto else sthrow (ZodError "Validation failed").

Notation "'let+' x ':=' m 'in' k" := (sbind m (λ x, k))
  (at level 10, x pattern, m at level 100, k at level 200).

Module PrismaEmployee.

(** The violation of a unique column, reported by the client with code
    [P2002]. *)
Definition UNIQUE_CONSTRAINT_FAILED (field : string) : Exn :=
  JsError ("Unique constraint failed on the fields: " +:+ field)
          (Some "P2002").

(** The first of the unique columns [id], [nip], [email] that a new row
    would repeat. *)
Definition repeated (rows : list Employee.t) (row : Employee.t)
    : option string :=
  if bool_decide (Employee.id row ∈ Employee.id <$> rows) then Some "id"
  else if bool_decide (Employee.nip row ∈ Employee.nip <$> rows)
       then Some "nip"
  else if bool_decide (Employee.email row ∈ Employee.email <$> rows)
       then Some "email"
  else None.

(** [employee.count()] *)
Definition employee_count (o : Office) : SM Z :=
  let+ _ := sraiseIf (staffFault o EmployeeCount) in
  let+ rows := getStaff in
  sret (Z.of_nat (length rows)).

(** [employee.count({ where: { email } })] *)
Definition employee_countByEmail (o : Office) (email : string) : SM Z :=
  let+ _ := sraiseIf (staffFault o EmployeeCountByEmail) in
  let+ rows := getStaff in
  sret (Z.of_nat (length (filter (λ e, Employee.email e = email) rows))).

(** [employee.create({ data })]: the token column starts out null. *)
Definition employee_create (o : Office) (data : AddEmployeeRequest.t)
    : SM Employee.t :=
  let+ _ := sraiseIf (staffFault o EmployeeCreate) in
  let+ rows := getStaff in
  let row := Employee.mk (AddEmployeeRequest.id data)
               (AddEmployeeRequest.nip data) (AddEmployeeRequest.name data)
               (AddEmployeeRequest.role data) (AddEmployeeRequest.email data)
               (AddEmployeeRequest.phone data)
               (AddEmployeeRequest.password data) None in
  match repeated rows row with
  | Some field => sthrow (UNIQUE_CONSTRAINT_FAILED field)
  | None =>
      let+ _ := setStaff (λ l, l ++ [row]) in
      sret row
  end.

(** [employee.findUnique({ where: { nip } })] *)
Definition employee_findUnique (o : Office) (nip : string)
    : SM (option Employee.t) :=
  let+ _ := sraiseIf (staffFault o EmployeeFindUnique) in
  let+ rows := getStaff in
  sret (List.find (λ e, String.eqb (Employee.nip e) nip) rows).

(** [employee.update({ where, data: { token } })], [where] being a test
    on a unique column. *)
Definition employee_updateToken (o : Office) (where_ : Employee.t → bool)
    (token : option string) : SM Employee.t :=
  let+ _ := sraiseIf (staffFault o EmployeeUpdate) in
  let+ rows := getStaff in
  match List.find where_ rows with
  | None => sthrow Prisma.RECORD_NOT_FOUND
  | Some e =>
      let+ _ := setStaff (List.map (λ r,
                  if where_ r then Employee.set_token token r else r)) in
      sret (Employee.set_token token e)
  end.

(** [employee.delete({ where: { id } })] *)
Definition employee_delete (o : Office) (id : string) : SM Employee.t :=
  let+ _ := sraiseIf (staffFault o EmployeeDelete) in
  let+ rows := getStaff in
  match List.find (λ e, String.eqb (Employee.id e) id) rows with
  | None => sthrow Prisma.RECORD_TO_DELETE_NOT_FOUND
  | Some e =>
      let+ _ := setStaff
                  (List.filter (λ r, negb (String.eqb (Employee.id r) id))) in
      sret e
  end.

End PrismaEmployee.

(** Modelled from the spec: [MailerService] is not among the sources.  A
    mail handed to it is logged in the outbox unless the mailer raises. *)
Module MailerService.

Definition sendMail (o : Office) (mail : Mail.t) : SM unit :=
  λ s, match sendMailFault o with
       | Some e => (Throw e, s)
       | None => (Ok tt, mkStaff (employees s) (outbox s ++ [mail]))
       end.

End MailerService.

(** The schema of [employee.validation] is not among the sources: it is a
    parameter of the service. *)
Module EmployeeValidation.
Record t := mk {
  ADD : AddEmployeeRequest.t → bool;
}.
End EmployeeValidation.

Module AuthValidation.

(** [z.string().min(1).max(100)].  A string here is a list of 8-bit
    characters: on ASCII text its length is the code's count of UTF-16
    units, on other text it is at least that count, so the upper bound is
    then the stricter one. *)
Definition boundedString (s : string) : bool :=
  (1 <=? String.length s)%nat && (String.length s <=? 100)%nat.

Definition LOGIN (dto : AuthLoginDto.t) : bool :=
  boundedString (AuthLoginDto.nip dto)
  && boundedString (AuthLoginDto.password dto).

End AuthValidation.

Module EmployeeService.

Definition roleValues : list EmployeeRole :=
  [ADMIN; DOKTER; PERAWAT; BIDAN; FARMASI; APOTEKER; STAFF].

Definition generateNip (o : Office) (role : EmployeeRole) : SM string :=
  let roleIndex := Js.indexOf role roleValues in
  if roleIndex =? -1
  then sthrow (JsError ("Invalid role: " +:+ roleName role) None)
  else
    let roleCode := Js.padStart 2 "0" (Js.toString (Some (roleIndex + 1))) in
    let year := Js.sliceLast 2 (Js.toString (Some (fullYear o))) in
    let+ count := PrismaEmployee.employee_count o in
    let sequence := count + 1 in
    let paddedSequence := Js.padStart 4 "0" (Js.toString (Some sequence)) in
    sret (year +:+ roleCode +:+ paddedSequence).

Definition roleMap (role : EmployeeRole) : string :=
  match role with
  | ADMIN => "ADM" | DOKTER => "DKT" | PERAWAT => "PRW" | BIDAN => "BDN"
  | FARMASI => "FRM" | APOTEKER => "APT" | STAFF => "STF"
  end.

Definition specialChars : list string :=
  ["!"; "@"; "#"; "$"; "%"; "*"; "?"].

Definition generatePassword (o : Office) (role : EmployeeRole)
    (nip : string) : string :=
  let roleCode :=
    let reversed := Js.reverse (roleMap role) in
    if Js.truthy (Some reversed) then reversed else "USR" in
  let nipSuffix := Js.reverse (Js.sliceLast 4 nip) in
  let specialChar :=
    default "undefined"
      (if draw o <? 0 then None else specialChars !! Z.to_nat (draw o)) in
  roleCode +:+ nipSuffix +:+ specialChar.

Definition toEmployeeDetail (e : Employee.t) : EmployeeDetail.t :=
  EmployeeDetail.mk (Employee.id e) (Employee.nip e) (Employee.name e)
    (Employee.email e) (Employee.phone e) (Employee.role e).

Section WithValidation.

Variable validation : EmployeeValidation.t.

Definition add (o : Office) (dto : AddEmployeeDto.t)
    : SM AddEmployeeResponse.t :=
  let generatedId := uuid o in
  let+ generatedNip := generateNip o (AddEmployeeDto.role dto) in
  let generatedPassword :=
    generatePassword o (AddEmployeeDto.role dto) generatedNip in
  let+ addEmployeeRequest :=
    svalidate (EmployeeValidation.ADD validation)
      (AddEmployeeRequest.mk (AddEmployeeDto.name dto)
         (AddEmployeeDto.role dto) (AddEmployeeDto.email dto)
         (AddEmployeeDto.phone dto) generatedId generatedNip
         generatedPassword) in
  let+ totalWithSameEmail :=
    PrismaEmployee.employee_countByEmail o (AddEmployeeDto.email dto) in
  if negb (totalWithSameEmail =? 0)
  then sthrow (HttpException
                 ("Email " +:+ AddEmployeeDto.email dto
                  +:+ " sudah terdaftar!")
                 HttpStatus.BAD_REQUEST)
  else
    let addEmployeeRequest :=
      AddEmployeeRequest.set_password
        (bcryptHash o (AddEmployeeRequest.password addEmployeeRequest))
        addEmployeeRequest in
    let+ employee := PrismaEmployee.employee_create o addEmployeeRequest in
    let+ _ :=
      stryCatch
        (MailerService.sendMail o
           (Mail.mk (Employee.email employee) "Informasi Akun MFlow Anda"
              (Employee.name employee) (Employee.nip employee)
              generatedPassword))
        (λ _, sret tt) in
    sret (AddEmployeeResponse.mk (toEmployeeDetail employee)
            (Employee.token employee)).

End WithValidation.

Definition delete (o : Office) (id : string) : SM string :=
  let+ _ :=
    stryCatch
      (let+ _ := PrismaEmployee.employee_delete o id in sret tt)
      (λ error,
         if bool_decide (code error = Some "P2025")
         then sthrow (HttpException "Data karyawan tidak ditemukan!"
                        HttpStatus.NOT_FOUND)
         else sthrow error) in
  sret ("Successfully deleted: " +:+ id).

End EmployeeService.

Module AuthService.

Definition UNAUTHORIZED : Exn := HttpException "NIP atau password salah!" 401.

Definition login (o : Office) (dto : AuthLoginDto.t) : SM AuthResponse.t :=
  let+ loginRequest := svalidate AuthValidation.LOGIN dto in
  let+ user :=
    PrismaEmployee.employee_findUnique o (AuthLoginDto.nip loginRequest) in
  match user with
  | None => sthrow UNAUTHORIZED
  | Some user =>
      let isPasswordValid :=
        bcryptCompare o (AuthLoginDto.password loginRequest)
          (Employee.password user) in
      if negb isPasswordValid then sthrow UNAUTHORIZED
      else
        match signAsync o (Employee.id user) (Employee.name user) with
        | Throw e => sthrow e
        | Ok accessToken =>
            let+ user :=
              PrismaEmployee.employee_updateToken o
                (λ e, String.eqb (Employee.nip e)
                        (AuthLoginDto.nip loginRequest))
                (Some accessToken) in
            sret (AuthResponse.mk (EmployeeService.toEmployeeDetail user)
                    (Employee.token user))
        end
  end.

Definition logout (o : Office) (id : string) : SM AuthResponse.t :=
  let+ user :=
    PrismaEmployee.employee_updateToken o
      (λ e, String.eqb (Employee.id e) id) None in
  sret (AuthResponse.mk (EmployeeService.toEmployeeDetail user)
          (Employee.token user)).

End AuthService.

(** ** Calls processed strictly one after another *)

Fixpoint runAll {A} (calls : list (M A)) (w : World)
    : list (Result A) * World :=
  match calls with
  | [] => ([], w)
  | c :: rest =>
      let '(r, w1) := c w in
      let '(rs, w2) := runAll rest w1 in
      (r :: rs, w2)
  end.

(** ** Vocabulary of the specification *)

(** The [k] low decimal digits of [n], most significant first, in front of
    [acc]. *)
Fixpoint fixedDigits (k : nat) (n : Z) (acc : string) : string :=
  match k with
  | O => acc
  | S k' => fixedDigits k' (n / 10) (String (Js.digitChar (n mod 10)) acc)
  end.

(** [NN.NN.NN]: zero-padded to six digits, grouped in pairs. *)
Definition specMedicalRecordFormat (n : Z) : string :=
  String (Js.digitChar (n / 100000))
    (String (Js.digitChar (n / 10000 mod 10))
      (String "."%char
        (String (Js.digitChar (n / 1000 mod 10))
          (String (Js.digitChar (n / 100 mod 10))
            (String "."%char
              (String (Js.digitChar (n / 10 mod 10))
                (String (Js.digitChar (n mod 10)) ""))))))).

(** [U###]: the letter U and three zero-padded digits. *)
Definition specQueueLabel (n : Z) : string :=
  String "U"%char (String (Js.digitChar (n / 100))
    (String (Js.digitChar (n / 10 mod 10))
      (String (Js.digitChar (n mod 10)) ""))).

(** A string of the shape [NN.NN.NN]. *)
Definition wellFormedMr (s : string) : bool :=
  match s with
  | String a (String b (String "."%char (String c (String d
      (String "."%char (String e (String f EmptyString))))))) =>
      Js.isDigit a && Js.isDigit b && Js.isDigit c &&
      Js.isDigit d && Js.isDigit e && Js.isDigit f
  | _ => false
  end.

(** The integer a medical record number stands for: separators stripped,
    parsed in base ten. *)
Definition mrValue (s : string) : option Z :=
  Js.parseInt (Js.removeDots s) (Some 10).

(** The numbers on record. *)
Definition assignedNumbers (d : Db) : list string :=
  omap Patient.medical_record_number (patient d).

(** The greatest of the values [values], 0 when there is none. *)
Definition greatestValue (values : list Z) : Z := foldr Z.max 0 values.

Definition patientById (d : Db) (id : Z) : option Patient.t :=
  List.find (λ p, Patient.id p =? id) (patient d).

Definition sessionById (d : Db) (id : Z) : option CareSession.t :=
  List.find (λ s, CareSession.id s =? id) (careSession d).

(** Sessions created within the day of [t]. *)
Definition createdOnDayOf (t : Z) (d : Db) : list CareSession.t :=
  filter (λ s, DateFns.startOfDay t ≤ CareSession.created_at s
               ∧ CareSession.created_at s ≤ DateFns.endOfDay t)
         (careSession d).

Definition waitingEmits (l : list Emit) : list (list WaitingQueueDetail.t) :=
  omap (λ e, match e with
             | WaitingQueueUpdate q => Some q
             | CalledQueueUpdate _ _ => None
             end) l.

Definition calledEmits (l : list Emit) : list (Z * string) :=
  omap (λ e, match e with
             | CalledQueueUpdate i q => Some (i, q)
             | WaitingQueueUpdate _ => None
             end) l.

Definition countOnDayOf (t : Z) (d : Db) : Z :=
  Z.of_nat (length (createdOnDayOf t d)).

(** Whether [add] creates a patient row for this request. *)
Definition createsPatient (request : AddQueueDto.t) : bool :=
  match AddQueueDto.patient_data request with
  | Some _ => QueueService.noPatientId (AddQueueDto.patient_id request)
  | None => false
  end.

(** A persistence or allocation step of [add] fails with [e], the steps
    before it having succeeded. *)
Inductive CreateStepFails (env : Env) (dto : AddQueueDto.t) (w : World)
    : Exn → Prop :=
| PatientCreationFails e :
    createsPatient dto = true →
    storeFault env PatientCreate = Some e →
    CreateStepFails env dto w e
| QueueCountFails e :
    (createsPatient dto = true → storeFault env PatientCreate = None) →
    storeFault env CareSessionCount = Some e →
    CreateStepFails env dto w e
| QueueLimitExceeded :
    (createsPatient dto = true → storeFault env PatientCreate = None) →
    storeFault env CareSessionCount = None →
    999 ≤ countOnDayOf (now env) (db w) →
    CreateStepFails env dto w (JsError "Queue limit exceeded for today" None)
| SessionInsertionFails e :
    (createsPatient dto = true → storeFault env PatientCreate = None) →
    storeFault env CareSessionCount = None →
    countOnDayOf (now env) (db w) < 999 →
    storeFault env CareSessionCreate = Some e →
    CreateStepFails env dto w e.

(** An environment in which nothing raises. *)
Definition noFaults (env : Env) : Prop :=
  (∀ op, storeFault env op = None) ∧ (∀ ch, emitFault env ch = None).

(** Valid create requests, all on the day of [t], none of them disturbed
    by the environment. *)
Definition sameDayCreates (validation : QueueValidation.t) (t : Z)
    (calls : list (Env * AddQueueDto.t)) : Prop :=
  Forall (λ c, noFaults c.1
               ∧ DateFns.startOfDay (now c.1) = DateFns.startOfDay t
               ∧ QueueValidation.ADD validation c.2 = true) calls.

(** A computation that leaves the gateway log alone. *)
Definition silent {A} (m : M A) : Prop :=
  ∀ w, emitted (m w).2 = emitted w.

(** What the handler of [update] passes on to the caller. *)
Definition rethrown (e : Exn) : Exn :=
  if bool_decide (code e = Some "P2025")
  then HttpException "Data pelayanan tidak ditemukan!" HttpStatus.NOT_FOUND
  else e.

(** The catalog rows [addSessionTreatments] reads for the requested ids. *)
Definition catalogRows (d : Db) (ids : list Z) : list (Z * Z) :=
  (λ t, (Treatment.id t, Treatment.price t)) <$>
  filter (λ t, Treatment.id t ∈ ids) (treatment d).

(** The session and every treatment a request names are on record. *)
Definition allReferred (d : Db) (dto : AddSessionTreatmentDto.t) : bool :=
  forallb
    (λ item,
       bool_decide (AddSessionTreatmentDto.care_session_id dto
                    ∈ CareSession.id <$> careSession d)
       && bool_decide (SessionTreatmentItem.treatment_id item
                       ∈ Treatment.id <$> treatment d))
    (AddSessionTreatmentDto.treatments dto).

(** The rows [addSessionTreatments] inserts for a request, given the store
    it reads the prices from. *)
Definition rowsFor (d : Db) (dto : AddSessionTreatmentDto.t)
    : list CareSessionTreatment.t :=
  let ids := SessionTreatmentItem.treatment_id <$>
             AddSessionTreatmentDto.treatments dto in
  imap (λ i item,
          CareSessionTreatment.mk
            (nextCareSessionTreatmentId d + Z.of_nat i)
            (AddSessionTreatmentDto.care_session_id dto)
            (SessionTreatmentItem.treatment_id item)
            (SessionTreatmentItem.quantity item)
            (default 0 (TreatmentService.priceMapOf (catalogRows d ids)
                          !! SessionTreatmentItem.treatment_id item)))
       (AddSessionTreatmentDto.treatments dto).

Definition responseOf (r : CareSessionTreatment.t)
    : AddSessionTreatmentResponse.t :=
  AddSessionTreatmentResponse.mk
    (CareSessionTreatment.care_session_id r)
    (CareSessionTreatment.treatment_id r)
    (CareSessionTreatment.applied_price r)
    (CareSessionTreatment.quantity r).

(** The catalog rows a listing ranges over: those the search keeps, in
    ascending order of name. *)
Definition listedTreatments (contains : string → string → bool)
    (search : option string) (d : Db) : list Treatment.t :=
  merge_sort Prisma.nameBefore
    (filter (λ t, TreatmentService.searchFilter contains search t = true)
            (treatment d)).

(** The rows of a listing response; none when the call threw. *)
Definition treatmentsOf (r : Result GetAllTreatmentsResponse.t)
    : list Treatment.t :=
  match r with
  | Ok resp => GetAllTreatmentsResponse.data resp
  | Throw _ => []
  end.

(** The page number a [getAll] works with. *)
Definition effectivePage (page : string) : Z :=
  Z.max 1 (default 1 (Js.parseInt page None)).

Definition treatmentById (d : Db) (id : Z) : option Treatment.t :=
  List.find (λ t, Treatment.id t =? id) (treatment d).

(** Session ids are pairwise distinct and below the counter of the
    table. *)
Definition sessionIdsFresh (d : Db) : Prop :=
  NoDup (CareSession.id <$> careSession d)
  ∧ Forall (λ s, CareSession.id s < nextCareSessionId d) (careSession d).

(** On every day the sessions created that day carry, in the order of
    their creation, the labels U001, U002, ..., and there are at most 999
    of them. *)
Definition dayNumbered (d : Db) : Prop :=
  ∀ t, countOnDayOf t d ≤ 999
       ∧ CareSession.queue_number <$> createdOnDayOf t d
         = specQueueLabel <$> seqZ 1 (countOnDayOf t d).

(** Patient ids are pairwise distinct and below the counter of the table;
    the medical record numbers on record are pairwise distinct and have
    the shape [NN.NN.NN]. *)
Definition registryOk (d : Db) : Prop :=
  NoDup (Patient.id <$> patient d)
  ∧ Forall (λ p, Patient.id p < nextPatientId d) (patient d)
  ∧ NoDup (assignedNumbers d)
  ∧ Forall (λ x, wellFormedMr x = true) (assignedNumbers d).

(** What [add] may do to the patient table. *)
Definition patientsGrew (d d' : Db) : Prop :=
  (patient d' = patient d ∧ nextPatientId d' = nextPatientId d)
  ∨ (∃ data, patient d' = patient d ++ [Patient.mk (nextPatientId d) data None]
             ∧ nextPatientId d' = nextPatientId d + 1).

(** Calls to the two mutating queue endpoints. *)
Inductive QueueCall :=
| CallAdd (env : Env) (dto : AddQueueDto.t)
| CallUpdate (env : Env) (id : string) (dto : UpdateQueueDto.t).

(** The world after a sequence of such calls, each run to its end before
    the next, whether it returned or threw. *)
Fixpoint runCalls (validation : QueueValidation.t) (calls : list QueueCall)
    (w : World) : World :=
  match calls with
  | [] => w
  | CallAdd env dto :: rest =>
      runCalls validation rest (QueueService.add validation env dto w).2
  | CallUpdate env id dto :: rest =>
      runCalls validation rest (QueueService.update validation env id dto w).2
  end.

(** Calls to the two mutating queue endpoints, an [add] with its clock
    readings. *)
Inductive ClockedCall :=
| ClockedAdd (env : Env) (r : Readings) (dto : AddQueueDto.t)
| ClockedUpdate (env : Env) (id : string) (dto : UpdateQueueDto.t).

Fixpoint runClockedCalls (validation : QueueValidation.t)
    (calls : list ClockedCall) (w : World) : World :=
  match calls with
  | [] => w
  | ClockedAdd env r dto :: rest =>
      runClockedCalls validation rest (Clocked.add validation env r dto w).2
  | ClockedUpdate env id dto :: rest =>
      runClockedCalls validation rest
        (QueueService.update validation env id dto w).2
  end.

(** The three readings of an [add] fall on one day. *)
Definition withinOneDay (r : Readings) : bool :=
  (DateFns.startOfDay (atDayStart r) =? DateFns.startOfDay (atInsert r))
  && (DateFns.startOfDay (atDayEnd r) =? DateFns.startOfDay (atInsert r)).

Definition servedWithinOneDay (c : ClockedCall) : bool :=
  match c with
  | ClockedAdd _ r _ => withinOneDay r
  | ClockedUpdate _ _ _ => true
  end.

(** All three readings at [t]. *)
Definition instant (t : Z) : Readings := mkReadings t t t.

(** The row [careSession.update] writes in place of [r] when the call
    names id [n]. *)
Definition touch (t : Z) (dto : UpdateQueueDto.t) (n : Z)
    (r : CareSession.t) : CareSession.t :=
  if CareSession.id r =? n then Prisma.applyUpdate t dto r else r.

(** The row [patient.update] writes in place of [q] when the call names
    id [pid] and sets the medical record number [m]. *)
Definition stamp (pid : Z) (m : string) (q : Patient.t) : Patient.t :=
  if Patient.id q =? pid
  then Patient.set_medical_record_number (Some m) q else q.

(** A snapshot entry that stands for the session [s]: its id, its queue
    number, its doctor and its room. *)
Definition detailShows (d : WaitingQueueDetail.t) (s : CareSession.t)
    : Prop :=
  WaitingQueueDetail.id d = CareSession.id s
  ∧ WaitingQueueDetail.queue_number d = CareSession.queue_number s
  ∧ WaitingQueueDetail.doctor d = CareSession.doctor_id s
  ∧ WaitingQueueDetail.room d = CareSession.room_id s.

(** The [current] entry of the pharmacy view stands for the session
    [s]. *)
Definition pharmacyShows (rel : Relations)
    (c : CurrentPharmacyQueueDetail.t) (s : CareSession.t) : Prop :=
  CurrentPharmacyQueueDetail.id c = CareSession.id s
  ∧ CurrentPharmacyQueueDetail.queue_number c = CareSession.queue_number s
  ∧ CurrentPharmacyQueueDetail.doctor c = CareSession.doctor_id s
  ∧ CurrentPharmacyQueueDetail.complaints c = CareSession.complaints s
  ∧ CurrentPharmacyQueueDetail.diagnoses c
    = diagnosesOf rel (CareSession.id s)
  ∧ PharmacyDrugOrder.id <$> CurrentPharmacyQueueDetail.drug_orders c
    = (λ o, Drug.id (DrugOrder.drug o))
      <$> drugOrdersOf rel (CareSession.id s)
  ∧ ∀ p, CurrentPharmacyQueueDetail.patient c = Some p →
         CareSession.patient_id s = Some (PatientSummary.id p).

(** The [current] entry of a doctor's view stands for the session [s]. *)
Definition doctorShows (rel : Relations)
    (c : CurrentDoctorQueueDetail.t) (s : CareSession.t) : Prop :=
  CurrentDoctorQueueDetail.id c = CareSession.id s
  ∧ CurrentDoctorQueueDetail.queue_number c = CareSession.queue_number s
  ∧ CurrentDoctorQueueDetail.doctor c = CareSession.doctor_id s
  ∧ CurrentDoctorQueueDetail.complaints c = CareSession.complaints s
  ∧ CurrentDoctorQueueDetail.vital_sign c
    = vitalSignOf rel (CareSession.id s)
  ∧ ∀ p, CurrentDoctorQueueDetail.patient c = Some p →
         CareSession.patient_id s = Some (PatientSummary.id p).

(** The patient summary a view shows for the session [s]. *)
Definition toPatientSummary_opt (d : Db) (s : CareSession.t)
    : option PatientSummary.t :=
  QueueService.toPatientSummary <$> Prisma.joinPatient d s.

(** The ids a pharmacy view shows, the current one first. *)
Definition pharmacyIds (r : GetActivePharmacyQueueResponse.t) : list Z :=
  (CurrentPharmacyQueueDetail.id <$>
     option_list (GetActivePharmacyQueueResponse.current r))
  ++ (NextQueue.id <$> GetActivePharmacyQueueResponse.next_queues r).

Definition nextQueueOf (s : CareSession.t) : NextQueue.t :=
  NextQueue.mk (CareSession.id s) (CareSession.queue_number s).

(** Every treatment line on record names a treatment of the catalog. *)
Definition linesResolve (d : Db) : Prop :=
  Forall (λ l, is_Some (List.find
                          (λ t, Treatment.id t
                                =? CareSessionTreatment.treatment_id l)
                          (treatment d)))
         (careSessionTreatment d).

(** What a queue listing shows of the treatment lines: per session id, the
    treatment id, quantity and applied price of each line; nothing when
    the call threw. *)

(** A joined session read against a catalog whose rows were rewritten by
    [g]. *)
Definition reline (g : Treatment.t → Treatment.t)
    (l : CareSessionTreatment.t * option Treatment.t)
    : CareSessionTreatment.t * option Treatment.t :=
  (l.1, g <$> l.2).

Definition recatalog (g : Treatment.t → Treatment.t) (r : SessionRow.t)
    : SessionRow.t :=
  SessionRow.mk (SessionRow.session r) (SessionRow.patient r)
    (reline g <$> SessionRow.CareSessionTreatment r)
    (SessionRow.VitalSign r) (SessionRow.CareSessionDiagnosis r)
    (SessionRow.DrugOrder r).

Definition mapOk {A B} (f : A → B) (r : Result A) : Result B :=
  match r with
  | Ok a => Ok (f a)
  | Throw e => Throw e
  end.

(** Two results that fail alike or succeed with values related by [R]. *)
Definition alike {A B} (R : A → B → Prop) (x : Result A) (y : Result B)
    : Prop :=
  match x, y with
  | Ok a, Ok b => R a b
  | Throw e, Throw e' => e = e'
  | _, _ => False
  end.

Definition lineFacts (t : TreatmentLine.t) : Z * Z * Z :=
  (TreatmentLine.id t, TreatmentLine.quantity t,
   TreatmentLine.applied_price t).

Definition rowFacts (row : QueueDetail.t) : Z * list (Z * Z * Z) :=
  (QueueDetail.id row, lineFacts <$> QueueDetail.treatments row).

(** What a queue listing shows of the treatment lines: per session id, the
    treatment id, quantity and applied price of each line; nothing when
    the call threw. *)
Definition appliedPrices (r : Result GetAllQueuesResponse.t)
    : list (Z * list (Z * Z * Z)) :=
  match r with
  | Ok resp => rowFacts <$> GetAllQueuesResponse.data resp
  | Throw _ => []
  end.

(** The NIP [generateNip] composes in a given year for a given role when
    the table holds [headcount] employees. *)
Definition nipFor (year : Z) (role : EmployeeRole) (headcount : nat)
    : string :=
  Js.sliceLast 2 (Js.toString (Some year))
  +:+ Js.padStart 2 "0"
        (Js.toString (Some (Js.indexOf role EmployeeService.roleValues + 1)))
  +:+ Js.padStart 4 "0" (Js.toString (Some (Z.of_nat headcount + 1))).

(** The row [add] inserts. *)
Definition hired (o : Office) (dto : AddEmployeeDto.t) (headcount : nat)
    : Employee.t :=
  let nip := nipFor (fullYear o) (AddEmployeeDto.role dto) headcount in
  Employee.mk (uuid o) nip (AddEmployeeDto.name dto)
    (AddEmployeeDto.role dto) (AddEmployeeDto.email dto)
    (AddEmployeeDto.phone dto)
    (bcryptHash o
       (EmployeeService.generatePassword o (AddEmployeeDto.role dto) nip))
    None.

(** The welcome mail of [add]. *)
Definition welcome (o : Office) (dto : AddEmployeeDto.t) (headcount : nat)
    : Mail.t :=
  let nip := nipFor (fullYear o) (AddEmployeeDto.role dto) headcount in
  Mail.mk (AddEmployeeDto.email dto) "Informasi Akun MFlow Anda"
    (AddEmployeeDto.name dto) nip
    (EmployeeService.generatePassword o (AddEmployeeDto.role dto) nip).

(** The request [add] submits to validation. *)
Definition addRequest (o : Office) (dto : AddEmployeeDto.t)
    (headcount : nat) : AddEmployeeRequest.t :=
  let nip := nipFor (fullYear o) (AddEmployeeDto.role dto) headcount in
  AddEmployeeRequest.mk (AddEmployeeDto.name dto) (AddEmployeeDto.role dto)
    (AddEmployeeDto.email dto) (AddEmployeeDto.phone dto) (uuid o) nip
    (EmployeeService.generatePassword o (AddEmployeeDto.role dto) nip).

(** The rows carry the sequence numbers 1, 2, 3, ... in table order, after
    a two-character year and a two-character role code. *)
Definition hiredInOrder (rows : list Employee.t) : Prop :=
  ∀ i row, rows !! i = Some row →
    ∃ yy rr, String.length yy = 2%nat ∧ String.length rr = 2%nat
             ∧ Employee.nip row
               = yy +:+ rr
                 +:+ Js.padStart 4 "0" (Js.toString (Some (Z.of_nat i + 1))).

(** Registrations processed one after another, whether they return or
    throw. *)
Fixpoint hireAll (validation : EmployeeValidation.t)
    (calls : list (Office * AddEmployeeDto.t)) (s : Staff) : Staff :=
  match calls with
  | [] => s
  | (o, dto) :: rest =>
      hireAll validation rest (EmployeeService.add validation o dto s).2
  end.

Definition noStaffFaults (o : Office) : Prop :=
  ∀ op, staffFault o op = None.

(** ** Sample data *)

Definition acceptAll : QueueValidation.t :=
  QueueValidation.mk (λ _, true) (λ _, true).

Definition acceptAllTreatments : TreatmentValidation.t :=
  TreatmentValidation.mk (λ _, true) (λ _, true).

Definition emptyWorld : World := mkWorld (mkDb [] [] [] [] 1 1 1) [].

Definition walkIn (name : string) : AddQueueDto.t :=
  AddQueueDto.mk "dr-1" 2 "fever" None (Some (PatientData.mk name 0 "F")).

Definition returning (patient_id : Z) : AddQueueDto.t :=
  AddQueueDto.mk "dr-1" 2 "cough" (Some patient_id) None.

(** An environment in which exactly one store operation raises. *)
Definition storeFails (t : Z) (failing : StoreOp) (e : Exn) : Env :=
  mkEnv t (λ op, if bool_decide (op = failing) then Some e else None)
        (λ _, None).

(** An environment in which exactly one gateway channel raises. *)
Definition emitFails (t : Z) (failing : Channel) (e : Exn) : Env :=
  mkEnv t (λ _, None)
        (λ ch, if bool_decide (ch = failing) then Some e else None).

Definition threeCreates : list (Env * AddQueueDto.t) :=
  [(calm 1000, walkIn "Ani"); (calm 2000, returning 1);
   (calm 3000, walkIn "Budi")].

Definition insertRefused : Env :=
  storeFails 1000 CareSessionCreate (JsError "Connection lost" None).

Definition oneWaiting : World :=
  mkWorld (mkDb [CareSession.mk 1 WAITING_CONSULTATION "U001" "fever" None
                   "dr-1" 2 (Some 1) 1000 1000]
                [Patient.mk 1 (PatientData.mk "Ani" 0 "F") None]
                [] [] 2 2 1) [].

Definition setStatus (st : QueueStatus) : UpdateQueueDto.t :=
  UpdateQueueDto.mk (Some st) None None None None.

Definition socketClosed : Exn := JsError "socket closed" None.

Definition mixedQueue : World :=
  mkWorld (mkDb [CareSession.mk 1 WAITING_CONSULTATION "U001" "fever" None
                   "dr-1" 2 (Some 1) 3000 3000;
                 CareSession.mk 2 IN_CONSULTATION "U002" "cough" None
                   "dr-1" 2 (Some 2) 2000 2500;
                 CareSession.mk 3 WAITING_CONSULTATION "U003" "rash" None
                   "dr-2" 1 (Some 3) 1000 1000]
                [] [] [] 4 4 1) [].

Definition clinic : World :=
  mkWorld (mkDb [CareSession.mk 1 IN_CONSULTATION "U001" "fever" None
                   "dr-1" 2 (Some 1) 1000 1500]
                [Patient.mk 1 (PatientData.mk "Ani" 0 "F") None]
                [Treatment.mk 1 "Nebulizer" 50000;
                 Treatment.mk 2 "Suture" 120000]
                [] 2 2 1) [].

Definition applyNebulizer : AddSessionTreatmentDto.t :=
  AddSessionTreatmentDto.mk 1 [SessionTreatmentItem.mk 1 2].

Definition applyUnknown : AddSessionTreatmentDto.t :=
  AddSessionTreatmentDto.mk 1
    [SessionTreatmentItem.mk 1 2; SessionTreatmentItem.mk 9 1].

Definition afterNebulizer : World :=
  Eval vm_compute in
    (TreatmentService.addSessionTreatments acceptAllTreatments (calm 2000)
       applyNebulizer clinic).2.

Definition raiseNebulizer : list (Env * string * UpdateTreatmentDto.t) :=
  [(calm 3000, "1", UpdateTreatmentDto.mk None (Some 75000))].

Definition registry : World :=
  mkWorld (mkDb [CareSession.mk 1 WAITING_PAYMENT "U001" "fever" None
                   "dr-1" 2 (Some 3) 1000 1500]
                [Patient.mk 1 (PatientData.mk "Ani" 0 "F") (Some "00.00.07");
                 Patient.mk 2 (PatientData.mk "Budi" 0 "M") (Some "00.01.12");
                 Patient.mk 3 (PatientData.mk "Citra" 0 "F") None]
                [] [] 2 4 1) [].

Definition fullRegistry : World :=
  mkWorld (mkDb [CareSession.mk 1 WAITING_PAYMENT "U001" "fever" None
                   "dr-1" 2 (Some 2) 1000 1500;
                 CareSession.mk 2 WAITING_PAYMENT "U002" "cough" None
                   "dr-1" 2 (Some 3) 1100 1600]
                [Patient.mk 1 (PatientData.mk "Ani" 0 "F") (Some "99.99.99");
                 Patient.mk 2 (PatientData.mk "Budi" 0 "M") None;
                 Patient.mk 3 (PatientData.mk "Citra" 0 "F") None]
                [] [] 3 4 1) [].

Definition busyMorning : list QueueCall :=
  [CallAdd (calm 1000) (walkIn "Ani");
   CallUpdate (calm 1500) "1" (setStatus IN_CONSULTATION);
   CallAdd (calm 2000) (walkIn "Budi");
   CallUpdate (emitFails 2500 WaitingQueue socketClosed) "1"
     (setStatus COMPLETED);
   CallAdd (calm 90000000) (returning 1)].

(** The same morning, the second [add] served across three milliseconds. *)
Definition busyMorningClocked : list ClockedCall :=
  [ClockedAdd (calm 1000) (instant 1000) (walkIn "Ani");
   ClockedUpdate (calm 1500) "1" (setStatus IN_CONSULTATION);
   ClockedAdd (calm 2000) (mkReadings 2000 2001 2003) (walkIn "Budi");
   ClockedUpdate (emitFails 2500 WaitingQueue socketClosed) "1"
     (setStatus COMPLETED);
   ClockedAdd (calm 90000000) (instant 90000000) (returning 1)].

(** An [add] that counts just before midnight and is stamped just after
    it, between two ordinary ones. *)
Definition overMidnight : list ClockedCall :=
  [ClockedAdd (calm 1000) (instant 1000) (walkIn "Ani");
   ClockedAdd (calm 86399990) (mkReadings 86399990 86399995 86400005)
     (walkIn "Budi");
   ClockedAdd (calm 86400100) (instant 86400100) (walkIn "Citra")].

Definition noteDiagnosis (text : string) : UpdateQueueDto.t :=
  UpdateQueueDto.mk None None (Some text) None None.

(** The patient of session 1 is discharged twice, then a new patient is
    registered and discharged. *)
Definition dischargeBoth : list QueueCall :=
  [CallUpdate (calm 2000) "1" (setStatus COMPLETED);
   CallUpdate (calm 2100) "1" (setStatus COMPLETED);
   CallAdd (calm 2200) (walkIn "Dewi");
   CallUpdate (calm 2300) "2" (setStatus COMPLETED)].

Definition noRelations : Relations :=
  mkRelations (λ _, None) (λ _, []) (λ _, []).

Definition dispensary : World :=
  mkWorld (mkDb [CareSession.mk 1 WAITING_MEDICATION "U001" "fever" None
                   "dr-1" 2 (Some 1) 3000 3500;
                 CareSession.mk 2 IN_CONSULTATION "U002" "cough" None
                   "dr-1" 2 None 2000 2500;
                 CareSession.mk 3 WAITING_MEDICATION "U003" "rash" None
                   "dr-2" 1 None 1000 1800;
                 CareSession.mk 4 WAITING_CONSULTATION "U004" "burn" None
                   "dr-2" 1 None 4000 4000]
                [Patient.mk 1 (PatientData.mk "Ani" 0 "F") None]
                [] [] 5 2 1) [].

Definition archive : World :=
  mkWorld (mkDb [CareSession.mk 1 COMPLETED "U001" "fever" None
                   "dr-1" 2 (Some 1) 1000 1500;
                 CareSession.mk 2 WAITING_PAYMENT "U002" "cough" None
                   "dr-1" 2 None 2000 2500;
                 CareSession.mk 3 COMPLETED "U003" "rash" None
                   "dr-2" 1 None 3000 3800]
                [Patient.mk 1 (PatientData.mk "Ani" 0 "F") (Some "00.00.01")]
                [Treatment.mk 1 "Nebulizer" 50000;
                 Treatment.mk 2 "Suture" 120000]
                [CareSessionTreatment.mk 1 1 1 2 50000;
                 CareSessionTreatment.mk 2 3 2 1 120000]
                4 2 3) [].

Definition acceptAllEmployees : EmployeeValidation.t :=
  EmployeeValidation.mk (λ _, true).

Definition emptyStaff : Staff := mkStaff [] [].

(** A working office: the id to hand out, the year, and the special
    character drawn. *)
Definition desk (id : string) (year : Z) (k : Z) : Office :=
  mkOffice id year k (λ p, "bcrypt:" +:+ p)
    (λ p h, String.eqb h ("bcrypt:" +:+ p))
    (λ sub username, Ok ("jwt:" +:+ sub +:+ ":" +:+ username))
    (λ _, None) None.

Definition mailerDown (o : Office) : Office :=
  mkOffice (uuid o) (fullYear o) (draw o) (bcryptHash o) (bcryptCompare o)
    (signAsync o) (staffFault o) (Some socketClosed).

Definition ani : AddEmployeeDto.t :=
  AddEmployeeDto.mk "Ani" DOKTER "ani@klinik.id" "0811".

Definition budi : AddEmployeeDto.t :=
  AddEmployeeDto.mk "Budi" PERAWAT "budi@klinik.id" "0812".

Definition citra : AddEmployeeDto.t :=
  AddEmployeeDto.mk "Citra" PERAWAT "citra@klinik.id" "0813".

Definition anywhere : string → string → bool := λ _ _, true.

(** * Properties *)

(** ** The JavaScript primitives on sample inputs *)

Example toString_7 : Js.toString (Some 7) = "7".
Proof. reflexivity. Qed.
Example toString_1000000 : Js.toString (Some 1000000) = "1000000".
Proof. reflexivity. Qed.
Example toString_neg : Js.toString (Some (-12)) = "-12".
Proof. reflexivity. Qed.
Example padStart_7 : Js.padStart 3 "0" "7" = "007".
Proof. reflexivity. Qed.
Example padStart_long : Js.padStart 3 "0" "1234" = "1234".
Proof. reflexivity. Qed.
Example groupPairs_7 : Js.groupPairs "1000000" = "10.00.000".
Proof. reflexivity. Qed.
Example groupPairs_nan : Js.groupPairs "000NaN" = "000NaN".
Proof. reflexivity. Qed.
Example parseInt_mr :
  Js.parseInt (Js.removeDots "12.34.56") (Some 10) = Some 123456.
Proof. reflexivity. Qed.
Example parseInt_abc : Js.parseInt "abc" None = None.
Proof. reflexivity. Qed.
Example parseInt_12abc : Js.parseInt " 12abc" None = Some 12.
Proof. reflexivity. Qed.
Example parseInt_hex : Js.parseInt "0x1f" None = Some 31.
Proof. reflexivity. Qed.

(** ** Decimal digits *)

Section Digits.

Lemma digitChar_isDigit d : Js.isDigit (Js.digitChar d) = true.
Proof. unfold Js.digitChar. repeat case_match; reflexivity. Qed.

Lemma digitChar_not_dot d : Ascii.eqb (Js.digitChar d) "."%char = false.
Proof. unfold Js.digitChar. repeat case_match; reflexivity. Qed.

Lemma digit_cases d :
  0 ≤ d < 10 →
  d = 0 ∨ d = 1 ∨ d = 2 ∨ d = 3 ∨ d = 4 ∨
  d = 5 ∨ d = 6 ∨ d = 7 ∨ d = 8 ∨ d = 9.
Proof. lia. Qed.

Lemma digitVal_digitChar d :
  0 ≤ d < 10 → Js.digitVal (Js.digitChar d) = Some d.
Proof.
  intros H. destruct (digit_cases d H) as [->|[->|[->|[->|[->|[->|[->|[->|[->| ->]]]]]]]]];
    reflexivity.
Qed.

Lemma compare_digitChar a b :
  0 ≤ a < 10 → 0 ≤ b < 10 →
  Ascii.compare (Js.digitChar a) (Js.digitChar b) = (a ?= b).
Proof.
  intros Ha Hb.
  destruct (digit_cases a Ha) as [->|[->|[->|[->|[->|[->|[->|[->|[->| ->]]]]]]]]];
  destruct (digit_cases b Hb) as [->|[->|[->|[->|[->|[->|[->|[->|[->| ->]]]]]]]]];
    reflexivity.
Qed.

Lemma digitChar_inj a b :
  0 ≤ a < 10 → 0 ≤ b < 10 → Js.digitChar a = Js.digitChar b → a = b.
Proof.
  intros Ha Hb.
  destruct (digit_cases a Ha) as [->|[->|[->|[->|[->|[->|[->|[->|[->| ->]]]]]]]]];
  destruct (digit_cases b Hb) as [->|[->|[->|[->|[->|[->|[->|[->|[->| ->]]]]]]]]];
    intros E; first [reflexivity | discriminate E].
Qed.

End Digits.

(** ** Zero-padded decimal printing *)

Section Padding.

Lemma fill_snoc c k s :
  Js.fill c k (String c s) = String c (Js.fill c k s).
Proof. induction k as [|k IH]; simpl; [reflexivity | now rewrite IH]. Qed.

Lemma fixedDigits_zero k acc :
  fixedDigits k 0 acc = Js.fill "0" k acc.
Proof.
  revert acc. induction k as [|k IH]; intros acc; [reflexivity|].
  change (fixedDigits (S k) 0 acc)
    with (fixedDigits k 0 (String "0"%char acc)).
  rewrite IH. apply fill_snoc.
Qed.

(** Printing [n] and padding to [k] places gives the [k] digits of [n]. *)
Lemma fixedDigits_digitsOf k :
  ∀ fuel n acc,
    (1 ≤ k ≤ fuel)%nat → 0 ≤ n < 10 ^ Z.of_nat k →
    ∃ z, (z + String.length (Js.digitsOf fuel n acc)
            = k + String.length acc)%nat
         ∧ fixedDigits k n acc = Js.fill "0" z (Js.digitsOf fuel n acc).
Proof.
  induction k as [|k IH]; intros fuel n acc Hk Hn; [lia|].
  destruct fuel as [|fuel]; [lia|].
  cbn [Js.digitsOf fixedDigits].
  destruct (Z.ltb_spec n 10) as [Hlt|Hge].
  - exists k. split; [simpl; lia|].
    rewrite (Z.div_small n 10) by lia. apply fixedDigits_zero.
  - destruct k as [|k]; [simpl in Hn; lia|].
    destruct (IH fuel (n / 10)
                (String (Js.digitChar (n mod 10)) acc)) as (z & Hlen & Heq).
    + lia.
    + rewrite Nat2Z.inj_succ, Z.pow_succ_r in Hn by lia.
      split; [apply Z.div_pos; lia|].
      apply Z.div_lt_upper_bound; lia.
    + exists z. split; [|exact Heq].
      rewrite Hlen. simpl. lia.
Qed.

Lemma padStart_toString k n :
  (1 ≤ k ≤ 22)%nat → 0 ≤ n < 10 ^ Z.of_nat k →
  Js.padStart k "0" (Js.toString (Some n)) = fixedDigits k n "".
Proof.
  intros Hk Hn. unfold Js.toString, Js.intToString.
  destruct (Z.ltb_spec n 0) as [?|_]; [lia|].
  destruct (fixedDigits_digitsOf k 22 n "" Hk Hn) as (z & Hlen & Heq).
  unfold Js.padStart. rewrite Heq. f_equal.
  change (String.length "") with 0%nat in Hlen. lia.
Qed.

Lemma formatMedicalRecordNumber_grouped n :
  0 ≤ n < 1000000 →
  QueueService.formatMedicalRecordNumber (Some n)
  = specMedicalRecordFormat n.
Proof.
  intros Hn. unfold QueueService.formatMedicalRecordNumber.
  rewrite (padStart_toString 6) by (simpl; lia).
  cbn [fixedDigits Js.groupPairs].
  rewrite !digitChar_isDigit. cbn [andb].
  unfold specMedicalRecordFormat.
  replace (n / 10 / 10 / 10 / 10 / 10 mod 10) with (n / 100000)
    by (Z.div_mod_to_equations; lia).
  replace (n / 10 / 10 / 10 / 10 mod 10) with (n / 10000 mod 10)
    by (Z.div_mod_to_equations; lia).
  replace (n / 10 / 10 / 10 mod 10) with (n / 1000 mod 10)
    by (Z.div_mod_to_equations; lia).
  replace (n / 10 / 10 mod 10) with (n / 100 mod 10)
    by (Z.div_mod_to_equations; lia).
  reflexivity.
Qed.

Lemma queueLabel_padded n :
  0 ≤ n < 1000 →
  String "U"%char (Js.padStart 3 "0" (Js.toString (Some n)))
  = specQueueLabel n.
Proof.
  intros Hn. rewrite (padStart_toString 3) by (simpl; lia).
  cbn [fixedDigits]. unfold specQueueLabel.
  replace (n / 10 / 10 mod 10) with (n / 100)
    by (Z.div_mod_to_equations; lia).
  reflexivity.
Qed.

Lemma specQueueLabel_inj a b :
  0 ≤ a < 1000 → 0 ≤ b < 1000 →
  specQueueLabel a = specQueueLabel b → a = b.
Proof.
  intros Ha Hb E. unfold specQueueLabel in E.
  injection E as E2 E1 E0.
  apply digitChar_inj in E2, E1, E0;
    try (Z.div_mod_to_equations; lia).
Qed.

End Padding.

(** ** Queue numbers *)

Ltac step_m :=
  cbv beta iota zeta
      delta [bind ret throw tryCatch raiseIf getDb modifyDb validate].

Section QueueNumbers.

Variable validation : QueueValidation.t.

Lemma startOfDay_le t : DateFns.startOfDay t ≤ t ≤ DateFns.endOfDay t.
Proof.
  unfold DateFns.endOfDay, DateFns.startOfDay, DateFns.msPerDay.
  pose proof (Z.mod_pos_bound t 86400000). lia.
Qed.

Lemma createdOnDayOf_same_day t t' d :
  DateFns.startOfDay t = DateFns.startOfDay t' →
  createdOnDayOf t d = createdOnDayOf t' d.
Proof.
  intros E. unfold createdOnDayOf, DateFns.endOfDay. now rewrite E.
Qed.

Lemma countOnDayOf_ext t d d' :
  careSession d = careSession d' → countOnDayOf t d = countOnDayOf t d'.
Proof. intros E. unfold countOnDayOf, createdOnDayOf. now rewrite E. Qed.

Lemma generateQueueNumber_run env w :
  storeFault env CareSessionCount = None →
  QueueService.generateQueueNumber env w
  = (if 999 <? countOnDayOf (now env) (db w) + 1
     then Throw (JsError "Queue limit exceeded for today" None)
     else Ok (String "U"%char
                (Js.padStart 3 "0"
                   (Js.toString (Some (countOnDayOf (now env) (db w) + 1))))),
     w).
Proof.
  intros Hc. unfold QueueService.generateQueueNumber,
    Prisma.careSession_count. rewrite Hc. step_m.
  fold (createdOnDayOf (now env) (db w)).
  fold (countOnDayOf (now env) (db w)).
  now destruct (999 <? countOnDayOf (now env) (db w) + 1).
Qed.

Lemma resolvePatientId_ok env request w :
  (createsPatient request = true → storeFault env PatientCreate = None) →
  ∃ pid w1,
    QueueService.resolvePatientId env request w = (Ok pid, w1)
    ∧ careSession (db w1) = careSession (db w)
    ∧ nextCareSessionId (db w1) = nextCareSessionId (db w)
    ∧ emitted w1 = emitted w.
Proof.
  unfold createsPatient, QueueService.resolvePatientId.
  destruct (AddQueueDto.patient_data request) as [pd|];
    [destruct (QueueService.noPatientId _)|]; intros H;
    try (eexists _, w; split; [reflexivity|done]).
  unfold Prisma.patient_create. rewrite H by reflexivity. step_m.
  eexists _, _; split; [reflexivity|done].
Qed.

Lemma resolvePatientId_fail env request w e :
  createsPatient request = true →
  storeFault env PatientCreate = Some e →
  QueueService.resolvePatientId env request w = (Throw e, w).
Proof.
  unfold createsPatient, QueueService.resolvePatientId.
  destruct (AddQueueDto.patient_data request) as [pd|]; [|done].
  intros -> H. unfold Prisma.patient_create. rewrite H. reflexivity.
Qed.

Lemma getWaitingQueuesData_run env w :
  storeFault env CareSessionFindMany = None →
  QueueService.getWaitingQueuesData env w
  = (Ok (QueueService.toWaitingQueueDetail <$>
         merge_sort Prisma.createdBefore
           (filter (λ s, CareSession.status s = WAITING_CONSULTATION)
                   (careSession (db w)))), w).
Proof.
  intros H. unfold QueueService.getWaitingQueuesData,
    Prisma.careSession_findMany. rewrite H. reflexivity.
Qed.

Lemma add_ok env dto w :
  noFaults env →
  QueueValidation.ADD validation dto = true →
  countOnDayOf (now env) (db w) < 999 →
  ∃ s w',
    QueueService.add validation env dto w = (Ok s, w')
    ∧ CareSession.queue_number s
      = specQueueLabel (countOnDayOf (now env) (db w) + 1)
    ∧ CareSession.created_at s = now env
    ∧ CareSession.status s = WAITING_CONSULTATION
    ∧ careSession (db w') = careSession (db w) ++ [s].
Proof.
  intros [Hs He] Hv Hc.
  destruct (resolvePatientId_ok env dto w (λ _, Hs _))
    as (pid & w1 & Hr & Hcs & _ & _).
  unfold QueueService.add. unfold validate at 1. rewrite Hv.
  step_m. rewrite Hr.
  rewrite generateQueueNumber_run by apply Hs.
  rewrite (countOnDayOf_ext _ (db w1) (db w)) by exact Hcs.
  destruct (Z.ltb_spec 999 (countOnDayOf (now env) (db w) + 1)); [lia|].
  unfold Prisma.careSession_create. rewrite Hs. step_m.
  rewrite getWaitingQueuesData_run by apply Hs.
  unfold QueueGateway.emitWaitingQueueUpdate, QueueGateway.emit.
  rewrite He. cbn [db emitted].
  eexists _, _. split; [reflexivity|]. cbn.
  rewrite Hcs. repeat split; try reflexivity.
  apply queueLabel_padded. unfold countOnDayOf in *. lia.
Qed.

(** What [add] does when one of its persistence or allocation steps
    fails. *)
Lemma add_step_fails env dto w e :
  QueueValidation.ADD validation dto = true →
  CreateStepFails env dto w e →
  ∃ w',
    QueueService.add validation env dto w
    = (Throw (HttpException (message e) HttpStatus.BAD_REQUEST), w')
    ∧ careSession (db w') = careSession (db w)
    ∧ emitted w' = emitted w.
Proof.
  intros Hv Hfail.
  unfold QueueService.add. unfold validate at 1. rewrite Hv. step_m.
  destruct Hfail as [e Hp He | e Hp He | Hp Hcnt Hfull | e Hp Hcnt Hroom He].
  - rewrite (resolvePatientId_fail env dto w e Hp He). eauto.
  - destruct (resolvePatientId_ok env dto w Hp)
      as (pid & w1 & -> & Hcs & _ & Hem).
    unfold QueueService.generateQueueNumber, Prisma.careSession_count.
    rewrite He. step_m. eauto.
  - destruct (resolvePatientId_ok env dto w Hp)
      as (pid & w1 & -> & Hcs & _ & Hem).
    rewrite generateQueueNumber_run by exact Hcnt.
    rewrite (countOnDayOf_ext _ (db w1) (db w)) by exact Hcs.
    destruct (Z.ltb_spec 999 (countOnDayOf (now env) (db w) + 1)); [|lia].
    eauto.
  - destruct (resolvePatientId_ok env dto w Hp)
      as (pid & w1 & -> & Hcs & _ & Hem).
    rewrite generateQueueNumber_run by exact Hcnt.
    rewrite (countOnDayOf_ext _ (db w1) (db w)) by exact Hcs.
    destruct (Z.ltb_spec 999 (countOnDayOf (now env) (db w) + 1)); [lia|].
    unfold Prisma.careSession_create. rewrite He. step_m. eauto.
Qed.

Lemma countOnDayOf_snoc t d d' s :
  careSession d' = careSession d ++ [s] →
  DateFns.startOfDay (CareSession.created_at s) = DateFns.startOfDay t →
  countOnDayOf t d' = countOnDayOf t d + 1.
Proof.
  intros E Hday. unfold countOnDayOf, createdOnDayOf. rewrite E.
  rewrite filter_app, length_app, filter_cons_True.
  - simpl. lia.
  - pose proof (startOfDay_le (CareSession.created_at s)) as Hle.
    unfold DateFns.endOfDay in *. rewrite Hday in Hle. exact Hle.
Qed.

Lemma runAll_adds t calls :
  ∀ w c,
    sameDayCreates validation t calls →
    countOnDayOf t (db w) = c →
    c + Z.of_nat (length calls) ≤ 999 →
    ∃ sessions w',
      runAll ((λ c, QueueService.add validation c.1 c.2) <$> calls) w
      = (Ok <$> sessions, w')
      ∧ CareSession.queue_number <$> sessions
        = specQueueLabel <$> seqZ (c + 1) (Z.of_nat (length calls))
      ∧ countOnDayOf t (db w') = c + Z.of_nat (length calls)
      ∧ careSession (db w') = careSession (db w) ++ sessions.
Proof.
  induction calls as [|[env dto] calls IH]; intros w c Hall Hc Hroom.
  - exists [], w. rewrite app_nil_r. repeat split; simpl; lia.
  - apply Forall_cons in Hall as [(Hnf & Hday & Hv) Hall].
    simpl in Hnf, Hday, Hv.
    assert (Hsame : createdOnDayOf (now env) (db w) = createdOnDayOf t (db w))
      by now apply createdOnDayOf_same_day.
    destruct (add_ok env dto w Hnf Hv) as (s & w1 & Hrun & Hq & Hat & _ & Hcs).
    { unfold countOnDayOf in *. rewrite Hsame.
      rewrite length_cons in Hroom. lia. }
    destruct (IH w1 (c + 1))
      as (sessions & w2 & Hrest & Hqs & Hcount & Hcs2).
    + exact Hall.
    + rewrite (countOnDayOf_snoc t (db w) (db w1) s Hcs); [lia|].
      now rewrite Hat.
    + rewrite length_cons in Hroom. lia.
    + exists (s :: sessions), w2. split; [|split; [|split]].
      * cbn [fmap list_fmap runAll fst snd]. rewrite Hrun.
        change (list_fmap _ _ ?f calls) with (f <$> calls). rewrite Hrest.
        reflexivity.
      * rewrite length_cons, seqZ_cons by lia.
        rewrite !fmap_cons. f_equal.
        -- rewrite Hq. unfold countOnDayOf. rewrite Hsame.
           unfold countOnDayOf in Hc. now rewrite Hc.
        -- rewrite Hqs. do 2 f_equal; lia.
      * rewrite Hcount, length_cons. lia.
      * rewrite Hcs2, Hcs, <- app_assoc. reflexivity.
Qed.

(** Once the day is full, every further create is refused and adds no
    session. *)
Lemma runAll_adds_full t calls :
  ∀ w,
    sameDayCreates validation t calls →
    countOnDayOf t (db w) = 999 →
    ∃ w',
      runAll ((λ c, QueueService.add validation c.1 c.2) <$> calls) w
      = (replicate (length calls)
           (Throw (HttpException "Queue limit exceeded for today"
                     HttpStatus.BAD_REQUEST)), w')
      ∧ careSession (db w') = careSession (db w).
Proof.
  induction calls as [|[env dto] calls IH]; intros w Hall Hc.
  - exists w. split; reflexivity.
  - apply Forall_cons in Hall as [([Hs He] & Hday & Hv) Hall].
    simpl in Hs, He, Hday, Hv.
    destruct (add_step_fails env dto w
                (JsError "Queue limit exceeded for today" None) Hv)
      as (w1 & Hrun & Hcs & _).
    { apply QueueLimitExceeded; [auto..|].
      unfold countOnDayOf in *.
      rewrite (createdOnDayOf_same_day (now env) t) by exact Hday. lia. }
    destruct (IH w1 Hall) as (w2 & Hrest & Hcs2).
    { now rewrite (countOnDayOf_ext t (db w1) (db w)). }
    exists w2. split; [|congruence].
    cbn [fmap list_fmap runAll fst snd]. rewrite Hrun.
    change (list_fmap _ _ ?f calls) with (f <$> calls). rewrite Hrest.
    reflexivity.
Qed.

Lemma runAll_app {A} (l1 l2 : list (M A)) w :
  runAll (l1 ++ l2) w
  = let '(r1, w1) := runAll l1 w in
    let '(r2, w2) := runAll l2 w1 in
    (r1 ++ r2, w2).
Proof.
  revert w. induction l1 as [|c l1 IH]; intros w; simpl.
  - now destruct (runAll l2 w).
  - destruct (c w) as [r w1]. rewrite IH.
    destruct (runAll l1 w1) as [r1 w2].
    now destruct (runAll l2 w2).
Qed.

Lemma specQueueLabel_NoDup n :
  0 ≤ n ≤ 999 → NoDup (specQueueLabel <$> seqZ 1 n).
Proof.
  intros Hn. apply NoDup_fmap_2_strong; [|apply NoDup_seqZ].
  intros a b Ha%elem_of_seqZ Hb%elem_of_seqZ.
  apply specQueueLabel_inj; lia.
Qed.

End QueueNumbers.

Example specQueueLabel_first : specQueueLabel 1 = "U001".
Proof. reflexivity. Qed.

Example specQueueLabel_last : specQueueLabel 999 = "U999".
Proof. reflexivity. Qed.

(** C1.  [generateQueueNumber] counts the sessions created within the
    current day, adds one and prints the result as [U] and three
    zero-padded digits, refusing a number above 999.  Consequently, creates
    of one day that are processed strictly one after another, starting from
    a day without sessions, are numbered U001, U002, ... in order, without
    gap or repeat, up to U999, and every create after the 999th fails with
    the queue-limit error and adds no session.  In general a create on a
    day that already has 999 sessions fails with that error. *)
Theorem sequential_creates_number_the_day (validation : QueueValidation.t) :
  (∀ env w,
     storeFault env CareSessionCount = None →
     QueueService.generateQueueNumber env w
     = (if 999 <? countOnDayOf (now env) (db w) + 1
        then Throw (JsError "Queue limit exceeded for today" None)
        else Ok (specQueueLabel (countOnDayOf (now env) (db w) + 1)), w))
  ∧
  (∀ t calls w,
     sameDayCreates validation t calls →
     createdOnDayOf t (db w) = [] →
     ∃ sessions w',
       runAll ((λ c, QueueService.add validation c.1 c.2) <$> calls) w
       = ((Ok <$> sessions) ++
          replicate (length calls - 999)
            (Throw (HttpException "Queue limit exceeded for today"
                      HttpStatus.BAD_REQUEST)), w')
       ∧ CareSession.queue_number <$> sessions
         = specQueueLabel <$> seqZ 1 (Z.of_nat (length calls `min` 999))
       ∧ NoDup (CareSession.queue_number <$> sessions)
       ∧ careSession (db w') = careSession (db w) ++ sessions)
  ∧
  (∀ env dto w,
     noFaults env →
     QueueValidation.ADD validation dto = true →
     countOnDayOf (now env) (db w) = 999 →
     ∃ w',
       QueueService.add validation env dto w
       = (Throw (HttpException "Queue limit exceeded for today"
                   HttpStatus.BAD_REQUEST), w')
       ∧ careSession (db w') = careSession (db w)).
Proof.
  split; [|split].
  - intros env w Hc. rewrite generateQueueNumber_run by exact Hc.
    destruct (Z.ltb_spec 999 (countOnDayOf (now env) (db w) + 1));
      [reflexivity|].
    rewrite queueLabel_padded; [reflexivity|].
    unfold countOnDayOf in *. lia.
  - intros t calls w Hall Hempty.
    replace ((λ c, QueueService.add validation c.1 c.2) <$> calls)
      with ((λ c, QueueService.add validation c.1 c.2) <$>
            (take 999 calls ++ drop 999 calls))
      by now rewrite take_drop.
    rewrite fmap_app, runAll_app.
    destruct (runAll_adds validation t (take 999 calls) w 0)
      as (sessions & w1 & -> & Hq & Hcount & Hcs).
    { now apply Forall_take. }
    { unfold countOnDayOf. now rewrite Hempty. }
    { rewrite length_take. lia. }
    rewrite length_take in Hq, Hcount.
    replace (length calls `min` 999)%nat with (999 `min` length calls)%nat
      by lia.
    assert (Hnodup : NoDup (CareSession.queue_number <$> sessions)).
    { rewrite Hq. apply specQueueLabel_NoDup. lia. }
    destruct (decide (length calls ≤ 999)%nat) as [Hle|Hgt].
    + rewrite drop_ge by exact Hle.
      replace (length calls - 999)%nat with 0%nat by lia.
      exists sessions, w1. cbn [fmap list_fmap runAll replicate]. done.
    + destruct (runAll_adds_full validation t (drop 999 calls) w1)
        as (w2 & -> & Hcs2).
      { now apply Forall_drop. }
      { lia. }
      rewrite length_drop. exists sessions, w2.
      repeat split; try done. congruence.
  - intros env dto w [Hs He] Hv Hfull.
    destruct (add_step_fails validation env dto w
                (JsError "Queue limit exceeded for today" None) Hv)
      as (w' & Hrun & Hcs & _).
    { apply QueueLimitExceeded; [auto..|lia]. }
    exists w'. split; [exact Hrun|exact Hcs].
Qed.

Lemma sequential_creates_number_the_day_witness :
  sameDayCreates acceptAll 0 threeCreates
  ∧ createdOnDayOf 0 (db emptyWorld) = []
  ∧ ∃ sessions w',
      runAll ((λ c, QueueService.add acceptAll c.1 c.2) <$> threeCreates)
        emptyWorld
      = ((Ok <$> sessions) ++
         replicate (length threeCreates - 999)
           (Throw (HttpException "Queue limit exceeded for today"
                     HttpStatus.BAD_REQUEST)), w')
      ∧ CareSession.queue_number <$> sessions
        = specQueueLabel <$>
          seqZ 1 (Z.of_nat (length threeCreates `min` 999))
      ∧ NoDup (CareSession.queue_number <$> sessions)
      ∧ careSession (db w') = careSession (db emptyWorld) ++ sessions.
Proof.
  assert (H : sameDayCreates acceptAll 0 threeCreates).
  { repeat constructor. }
  split; [exact H|]. split; [reflexivity|].
  apply (proj1 (proj2 (sequential_creates_number_the_day acceptAll))
           0 threeCreates emptyWorld H).
  reflexivity.
Defined.

Example threeCreates_numbers :
  (λ r, match r with
        | Ok s => CareSession.queue_number s
        | Throw e => message e
        end) <$>
  (runAll ((λ c, QueueService.add acceptAll c.1 c.2) <$> threeCreates)
     emptyWorld).1
  = ["U001"; "U002"; "U003"].
Proof. vm_compute. reflexivity. Qed.

(** C5.  When a persistence or allocation step of a create fails (the
    patient row cannot be created, the day's sessions cannot be counted or
    the day is full, or the session row cannot be inserted), the call ends
    with an [HttpException] of status 400, a client error, whose message is
    the message of the underlying error; no session row has been written
    and nothing has been published. *)
Theorem failed_create_persists_no_session
    (validation : QueueValidation.t) env dto w e :
  QueueValidation.ADD validation dto = true →
  CreateStepFails env dto w e →
  ∃ w',
    QueueService.add validation env dto w
    = (Throw (HttpException (message e) HttpStatus.BAD_REQUEST), w')
    ∧ 400 ≤ HttpStatus.BAD_REQUEST < 500
    ∧ careSession (db w') = careSession (db w)
    ∧ emitted w' = emitted w.
Proof.
  intros Hv Hfail.
  destruct (add_step_fails validation env dto w e Hv Hfail)
    as (w' & Hrun & Hcs & Hem).
  exists w'. unfold HttpStatus.BAD_REQUEST in *. repeat split; try done.
Qed.

Lemma failed_create_persists_no_session_witness :
  QueueValidation.ADD acceptAll (walkIn "Ani") = true
  ∧ CreateStepFails insertRefused (walkIn "Ani") emptyWorld
      (JsError "Connection lost" None)
  ∧ ∃ w',
      QueueService.add acceptAll insertRefused (walkIn "Ani") emptyWorld
      = (Throw (HttpException "Connection lost" HttpStatus.BAD_REQUEST), w')
      ∧ 400 ≤ HttpStatus.BAD_REQUEST < 500
      ∧ careSession (db w') = careSession (db emptyWorld)
      ∧ emitted w' = emitted emptyWorld.
Proof.
  assert (H : CreateStepFails insertRefused (walkIn "Ani") emptyWorld
                (JsError "Connection lost" None)).
  { apply SessionInsertionFails; [reflexivity|reflexivity| |reflexivity].
    vm_compute. reflexivity. }
  split; [reflexivity|]. split; [exact H|].
  exact (failed_create_persists_no_session acceptAll insertRefused
           (walkIn "Ani") emptyWorld (JsError "Connection lost" None)
           eq_refl H).
Defined.

(** A create that fails after its patient row was written leaves that row
    behind: the patient step is not undone. *)
Example failed_create_keeps_new_patient :
  patient (db (QueueService.add acceptAll insertRefused (walkIn "Ani")
                 emptyWorld).2)
  = [Patient.mk 1 (PatientData.mk "Ani" 0 "F") None].
Proof. vm_compute. reflexivity. Qed.

(** ** Store operations publish nothing *)

Section Silent.

Lemma silent_ret {A} (a : A) : silent (ret a).
Proof. intros w. reflexivity. Qed.

Lemma silent_throw {A} e : silent (@throw A e).
Proof. intros w. reflexivity. Qed.

Lemma silent_getDb : silent getDb.
Proof. intros w. reflexivity. Qed.

Lemma silent_modifyDb f : silent (modifyDb f).
Proof. intros w. reflexivity. Qed.

Lemma silent_raiseIf o : silent (raiseIf o).
Proof. destruct o; intros w; reflexivity. Qed.

Lemma silent_bind {A B} (m : M A) (k : A → M B) :
  silent m → (∀ a, silent (k a)) → silent (bind m k).
Proof.
  intros Hm Hk w. unfold bind. specialize (Hm w).
  destruct (m w) as [[a|e] w1]; simpl in *; [|exact Hm].
  rewrite (Hk a w1). exact Hm.
Qed.

End Silent.

Ltac solve_silent :=
  repeat first
    [ apply silent_ret | apply silent_throw | apply silent_getDb
    | apply silent_modifyDb | apply silent_raiseIf
    | apply silent_bind; [|intros ?]
    | match goal with
      | |- silent (match ?x with _ => _ end) => destruct x
      end ].

Section SilentStore.

Lemma silent_careSession_update env id data :
  silent (Prisma.careSession_update env id data).
Proof. unfold Prisma.careSession_update. solve_silent. Qed.

Lemma silent_patient_findFirst env :
  silent (Prisma.patient_findFirst_lastMr env).
Proof. unfold Prisma.patient_findFirst_lastMr. solve_silent. Qed.

Lemma silent_patient_update env id mr :
  silent (Prisma.patient_update env id mr).
Proof. unfold Prisma.patient_update. solve_silent. Qed.

Lemma silent_careSession_findMany env st :
  silent (Prisma.careSession_findMany env st).
Proof. unfold Prisma.careSession_findMany. solve_silent. Qed.

Lemma silent_assignMedicalRecordNumber env request res :
  silent (QueueService.assignMedicalRecordNumber env request res).
Proof.
  unfold QueueService.assignMedicalRecordNumber.
  destruct (QueueService.needsMedicalRecordNumber _ _); [|apply silent_ret].
  apply silent_bind; [apply silent_patient_findFirst|intros last].
  cbv zeta. destruct (CareSession.patient_id _);
    [apply silent_patient_update|apply silent_throw].
Qed.

Lemma silent_getWaitingQueuesData env :
  silent (QueueService.getWaitingQueuesData env).
Proof.
  unfold QueueService.getWaitingQueuesData.
  apply silent_bind; [apply silent_careSession_findMany|intros ?].
  apply silent_ret.
Qed.

(** The snapshot query does not write. *)
Lemma getWaitingQueuesData_reads env w :
  (QueueService.getWaitingQueuesData env w).2 = w.
Proof.
  unfold QueueService.getWaitingQueuesData, Prisma.careSession_findMany.
  destruct (storeFault env CareSessionFindMany); reflexivity.
Qed.

End SilentStore.

(** ** Transitions *)

Section Transitions.

Variable validation : QueueValidation.t.

(** The handler of [update] always rethrows. *)
Lemma update_handler_throws {A} (e : Exn) w (r : A) w' :
  (if bool_decide (code e = Some "P2025")
   then throw (HttpException "Data pelayanan tidak ditemukan!"
                 HttpStatus.NOT_FOUND)
   else throw e) w ≠ (Ok r, w').
Proof. destruct (bool_decide _); discriminate. Qed.

(** What a successful [update] went through. *)
Lemma update_ok_inv env id dto w res w' :
  QueueService.update validation env id dto w = (Ok res, w') →
  ∃ n w1 w2,
    Js.parseInt id None = Some n
    ∧ QueueValidation.UPDATE validation dto = true
    ∧ Prisma.careSession_update env n dto w = (Ok res, w1)
    ∧ QueueService.assignMedicalRecordNumber env dto res w1 = (Ok tt, w2)
    ∧ db w' = db w2
    ∧ ∃ snapshot,
        QueueService.getWaitingQueuesData env w2 = (Ok snapshot, w2)
        ∧ emitted w'
          = emitted w2 ++ WaitingQueueUpdate snapshot ::
            (if bool_decide (CareSession.status res.1 = IN_CONSULTATION)
             then [CalledQueueUpdate (CareSession.id res.1)
                     (CareSession.queue_number res.1)]
             else []).
Proof.
  unfold QueueService.update.
  destruct (Js.parseInt id None) as [n|]; [|discriminate].
  unfold validate.
  destruct (QueueValidation.UPDATE validation dto); [|discriminate].
  step_m.
  destruct (Prisma.careSession_update env n dto w) as [[res1|e] w1] eqn:E1;
    [|intros H; now apply update_handler_throws in H].
  destruct (QueueService.assignMedicalRecordNumber env dto res1 w1)
    as [[[]|e] w2] eqn:E2;
    [|intros H; now apply update_handler_throws in H].
  pose proof (getWaitingQueuesData_reads env w2) as Hread.
  destruct (QueueService.getWaitingQueuesData env w2)
    as [[snapshot|e] w3] eqn:E3;
    [|intros H; now apply update_handler_throws in H].
  simpl in Hread. subst w3.
  unfold QueueGateway.emitWaitingQueueUpdate,
    QueueGateway.emitCalledQueueUpdate, QueueGateway.emit.
  destruct (emitFault env WaitingQueue);
    [intros H; now apply update_handler_throws in H|].
  destruct (bool_decide (CareSession.status res1.1 = IN_CONSULTATION)) eqn:Es.
  - destruct (emitFault env CalledQueue);
      [intros H; now apply update_handler_throws in H|].
    intros [= <- <-]. exists n, w1, w2. rewrite Es. cbn.
    repeat split; try done. exists snapshot. split; [done|].
    now rewrite <- app_assoc.
  - intros [= <- <-]. exists n, w1, w2. rewrite Es. cbn.
    repeat split; try done. exists snapshot. done.
Qed.

End Transitions.

(** C3.  A successful [update] asks the gateway for exactly one
    waiting-queue publish; when the status of the updated session is
    [IN_CONSULTATION] it asks, after that, for exactly one called-queue
    publish carrying the session's id and queue number; for any other
    resulting status it asks for no called-queue publish. *)
Theorem transition_publishes (validation : QueueValidation.t)
    env id dto w res w' :
  QueueService.update validation env id dto w = (Ok res, w') →
  ∃ published snapshot,
    emitted w' = emitted w ++ published
    ∧ waitingEmits published = [snapshot]
    ∧ calledEmits published
      = (if bool_decide (CareSession.status res.1 = IN_CONSULTATION)
         then [(CareSession.id res.1, CareSession.queue_number res.1)]
         else []).
Proof.
  intros H.
  destruct (update_ok_inv validation env id dto w res w' H)
    as (n & w1 & w2 & _ & _ & E1 & E2 & _ & snapshot & _ & Hem).
  pose proof (silent_careSession_update env n dto w) as S1.
  pose proof (silent_assignMedicalRecordNumber env dto res w1) as S2.
  rewrite E1 in S1. rewrite E2 in S2. simpl in S1, S2.
  rewrite S2, S1 in Hem.
  eexists _, snapshot. split; [exact Hem|].
  destruct (bool_decide _); split; reflexivity.
Qed.

Lemma transition_publishes_witness :
  ∃ res w',
    QueueService.update acceptAll (calm 2000) "1" (setStatus IN_CONSULTATION)
      oneWaiting = (Ok res, w')
    ∧ ∃ published snapshot,
        emitted w' = emitted oneWaiting ++ published
        ∧ waitingEmits published = [snapshot]
        ∧ calledEmits published
          = (if bool_decide (CareSession.status res.1 = IN_CONSULTATION)
             then [(CareSession.id res.1, CareSession.queue_number res.1)]
             else []).
Proof.
  eexists _, _. split; [vm_compute; reflexivity|].
  eapply (transition_publishes acceptAll (calm 2000) "1"
            (setStatus IN_CONSULTATION) oneWaiting).
  vm_compute. reflexivity.
Defined.

Example call_in_publishes :
  emitted (QueueService.update acceptAll (calm 2000) "1"
             (setStatus IN_CONSULTATION) oneWaiting).2
  = [WaitingQueueUpdate []; CalledQueueUpdate 1 "U001"].
Proof. vm_compute. reflexivity. Qed.

(** C6.  An [update] whose id names no session changes nothing and
    publishes nothing, whatever the environment does; when the id is
    numeric, the request passes validation and the store answers, the call
    fails with the not-found [HttpException] (status 404). *)
Theorem update_of_missing_session (validation : QueueValidation.t)
    env id dto w :
  (∀ n, Js.parseInt id None = Some n → sessionById (db w) n = None) →
  ∃ e,
    QueueService.update validation env id dto w = (Throw e, w)
    ∧ (is_Some (Js.parseInt id None) →
       QueueValidation.UPDATE validation dto = true →
       storeFault env CareSessionUpdate = None →
       e = HttpException "Data pelayanan tidak ditemukan!"
             HttpStatus.NOT_FOUND).
Proof.
  intros Hmissing. unfold QueueService.update.
  destruct (Js.parseInt id None) as [n|].
  - specialize (Hmissing n eq_refl). unfold sessionById in Hmissing.
    unfold validate.
    destruct (QueueValidation.UPDATE validation dto).
    + unfold Prisma.careSession_update.
      destruct (storeFault env CareSessionUpdate) as [e0|] eqn:Ef; step_m.
      * destruct (bool_decide (code e0 = Some "P2025"));
          eexists; (split; [reflexivity|]); intros _ _ [=].
      * rewrite Hmissing. eexists. split; [reflexivity|]. reflexivity.
    + eexists. split; [reflexivity|]. intros _ [=].
  - eexists. split; [reflexivity|]. intros [? [=]].
Qed.

Lemma update_of_missing_session_witness :
  (∀ n, Js.parseInt "7" None = Some n → sessionById (db oneWaiting) n = None)
  ∧ ∃ e,
      QueueService.update acceptAll (calm 2000) "7" (setStatus COMPLETED)
        oneWaiting = (Throw e, oneWaiting)
      ∧ (is_Some (Js.parseInt "7" None) →
         QueueValidation.UPDATE acceptAll (setStatus COMPLETED) = true →
         storeFault (calm 2000) CareSessionUpdate = None →
         e = HttpException "Data pelayanan tidak ditemukan!"
               HttpStatus.NOT_FOUND).
Proof.
  assert (H : ∀ n, Js.parseInt "7" None = Some n →
                   sessionById (db oneWaiting) n = None).
  { intros n [= <-]. reflexivity. }
  split; [exact H|].
  exact (update_of_missing_session acceptAll (calm 2000) "7"
           (setStatus COMPLETED) oneWaiting H).
Defined.

Example update_of_missing_session_run :
  QueueService.update acceptAll (calm 2000) "7" (setStatus COMPLETED)
    oneWaiting
  = (Throw (HttpException "Data pelayanan tidak ditemukan!" 404), oneWaiting).
Proof. vm_compute. reflexivity. Qed.

Example update_of_malformed_id :
  QueueService.update acceptAll (calm 2000) "abc" (setStatus COMPLETED)
    oneWaiting
  = (Throw (HttpException "Invalid ID type" 400), oneWaiting).
Proof. vm_compute. reflexivity. Qed.

(** ** Failures raised by the gateway *)

(** A publish that raises fails the call that triggered it: the create
    answers 400 with the gateway's message, the transition rethrows the
    gateway's error.  Without the failure both calls succeed. *)
Lemma publish_failure_reaches_the_caller :
  (QueueService.add acceptAll (calm 1000) (walkIn "Ani") emptyWorld).1
  = Ok (CareSession.mk 1 WAITING_CONSULTATION "U001" "fever" None "dr-1" 2
          (Some 1) 1000 1000)
  ∧ (QueueService.add acceptAll (emitFails 1000 WaitingQueue socketClosed)
       (walkIn "Ani") emptyWorld).1
    = Throw (HttpException "socket closed" 400)
  ∧ (QueueService.update acceptAll (calm 2000) "1"
       (setStatus IN_CONSULTATION) oneWaiting).1
    = Ok (CareSession.mk 1 IN_CONSULTATION "U001" "fever" None "dr-1" 2
            (Some 1) 1000 2000,
          Some (Patient.mk 1 (PatientData.mk "Ani" 0 "F") None))
  ∧ (QueueService.update acceptAll
       (emitFails 2000 CalledQueue socketClosed) "1"
       (setStatus IN_CONSULTATION) oneWaiting).1
    = Throw socketClosed.
Proof. vm_compute. repeat split. Qed.

(** C4, as the code has it.  A failure raised by a publish is not
    swallowed.  In [add] it is caught with every other failure and reported
    as an [HttpException] of status 400 with the failure's message; in
    [update] it is rethrown to the caller (as the not-found exception when
    its code is P2025).  In both cases what the call wrote to the store
    before publishing stays written. *)
Theorem publish_failure_propagates (validation : QueueValidation.t) :
  (∀ env dto w e,
     QueueValidation.ADD validation dto = true →
     (∀ op, storeFault env op = None) →
     countOnDayOf (now env) (db w) < 999 →
     emitFault env WaitingQueue = Some e →
     ∃ s w',
       QueueService.add validation env dto w
       = (Throw (HttpException (message e) HttpStatus.BAD_REQUEST), w')
       ∧ careSession (db w') = careSession (db w) ++ [s])
  ∧
  (∀ env id dto w n res w1 w2 e,
     Js.parseInt id None = Some n →
     QueueValidation.UPDATE validation dto = true →
     Prisma.careSession_update env n dto w = (Ok res, w1) →
     QueueService.assignMedicalRecordNumber env dto res w1 = (Ok tt, w2) →
     storeFault env CareSessionFindMany = None →
     emitFault env WaitingQueue = Some e
     ∨ (emitFault env WaitingQueue = None
        ∧ CareSession.status res.1 = IN_CONSULTATION
        ∧ emitFault env CalledQueue = Some e) →
     ∃ w',
       QueueService.update validation env id dto w = (Throw (rethrown e), w')
       ∧ db w' = db w2).
Proof.
  split.
  - intros env dto w e Hv Hs Hc He.
    destruct (resolvePatientId_ok env dto w (λ _, Hs _))
      as (pid & w1 & Hr & Hcs & _ & _).
    unfold QueueService.add. unfold validate at 1. rewrite Hv.
    step_m. rewrite Hr.
    rewrite generateQueueNumber_run by apply Hs.
    rewrite (countOnDayOf_ext _ (db w1) (db w)) by exact Hcs.
    destruct (Z.ltb_spec 999 (countOnDayOf (now env) (db w) + 1)); [lia|].
    unfold Prisma.careSession_create. rewrite Hs. step_m.
    rewrite getWaitingQueuesData_run by apply Hs.
    unfold QueueGateway.emitWaitingQueueUpdate, QueueGateway.emit.
    rewrite He. cbn [db emitted].
    eexists _, _. split; [reflexivity|]. cbn. now rewrite Hcs.
  - intros env id dto w n res w1 w2 e Hid Hv E1 E2 Hs He.
    unfold QueueService.update. rewrite Hid. unfold validate. rewrite Hv.
    step_m. rewrite E1, E2.
    rewrite getWaitingQueuesData_run by exact Hs.
    unfold QueueGateway.emitWaitingQueueUpdate,
      QueueGateway.emitCalledQueueUpdate, QueueGateway.emit, rethrown.
    destruct He as [He | (He & Hst & Hc)]; rewrite He.
    + destruct (bool_decide (code e = Some "P2025"));
        eexists; split; reflexivity.
    + rewrite bool_decide_eq_true_2 by exact Hst. rewrite Hc.
      destruct (bool_decide (code e = Some "P2025"));
        eexists; split; reflexivity.
Qed.

Lemma publish_failure_propagates_witness :
  (∃ s w',
    QueueService.add acceptAll (emitFails 1000 WaitingQueue socketClosed)
      (walkIn "Ani") emptyWorld
    = (Throw (HttpException (message socketClosed) HttpStatus.BAD_REQUEST),
       w')
    ∧ careSession (db w') = careSession (db emptyWorld) ++ [s])
  ∧
  (∃ w',
    QueueService.update acceptAll (emitFails 2000 CalledQueue socketClosed)
      "1" (setStatus IN_CONSULTATION) oneWaiting
    = (Throw (rethrown socketClosed), w')
    ∧ CareSession.status <$> careSession (db w') = [IN_CONSULTATION]).
Proof.
  split.
  - apply (proj1 (publish_failure_propagates acceptAll)
             (emitFails 1000 WaitingQueue socketClosed) (walkIn "Ani")
             emptyWorld socketClosed).
    + reflexivity.
    + intros op. reflexivity.
    + vm_compute. reflexivity.
    + reflexivity.
  - destruct (proj2 (publish_failure_propagates acceptAll)
                (emitFails 2000 CalledQueue socketClosed) "1"
                (setStatus IN_CONSULTATION) oneWaiting 1
                (CareSession.mk 1 IN_CONSULTATION "U001" "fever" None "dr-1" 2
                   (Some 1) 1000 2000,
                 Some (Patient.mk 1 (PatientData.mk "Ani" 0 "F") None))
                (mkWorld (mkDb [CareSession.mk 1 IN_CONSULTATION "U001" "fever"
                                  None "dr-1" 2 (Some 1) 1000 2000]
                               [Patient.mk 1 (PatientData.mk "Ani" 0 "F") None]
                               [] [] 2 2 1) [])
                (mkWorld (mkDb [CareSession.mk 1 IN_CONSULTATION "U001" "fever"
                                  None "dr-1" 2 (Some 1) 1000 2000]
                               [Patient.mk 1 (PatientData.mk "Ani" 0 "F") None]
                               [] [] 2 2 1) [])
                socketClosed eq_refl eq_refl eq_refl eq_refl eq_refl
                (or_intror (conj eq_refl (conj eq_refl eq_refl))))
      as (w' & Hrun & Hdb).
    exists w'. split; [exact Hrun|]. rewrite Hdb. reflexivity.
Defined.

(** ** The waiting queue *)

Global Instance createdBefore_transitive : Transitive Prisma.createdBefore.
Proof. intros a b c. unfold Prisma.createdBefore. lia. Qed.

Global Instance createdBefore_total : Total Prisma.createdBefore.
Proof. intros a b. unfold Prisma.createdBefore. lia. Qed.

(** C7.  Whatever the store holds, the waiting-queue snapshot lists
    exactly the sessions whose status is [WAITING_CONSULTATION], each as
    often as it is stored, in ascending order of [created_at]: entry by
    entry it carries the id, the queue number, the doctor and the room of
    the session at that place. *)
Theorem waiting_queue_is_fifo env w :
  storeFault env CareSessionFindMany = None →
  ∃ sessions snapshot,
    QueueService.getWaitingQueuesData env w = (Ok snapshot, w)
    ∧ Forall2 detailShows snapshot sessions
    ∧ sessions ≡ₚ filter (λ s, CareSession.status s = WAITING_CONSULTATION)
                         (careSession (db w))
    ∧ (∀ s, s ∈ sessions ↔
            s ∈ careSession (db w)
            ∧ CareSession.status s = WAITING_CONSULTATION)
    ∧ StronglySorted
        (λ a b, CareSession.created_at a ≤ CareSession.created_at b)
        sessions.
Proof.
  intros Hs. rewrite getWaitingQueuesData_run by exact Hs.
  eexists _, _. split; [reflexivity|].
  split.
  { apply Forall2_fmap_l, Forall_Forall2_diag, Forall_forall.
    intros s _. repeat split. }
  split; [apply merge_sort_Permutation|].
  split.
  - intros s. rewrite merge_sort_Permutation, list_elem_of_filter. tauto.
  - apply (StronglySorted_merge_sort Prisma.createdBefore).
Qed.

Lemma waiting_queue_is_fifo_witness :
  storeFault (calm 5000) CareSessionFindMany = None
  ∧ ∃ sessions snapshot,
      QueueService.getWaitingQueuesData (calm 5000) mixedQueue
      = (Ok snapshot, mixedQueue)
      ∧ Forall2 detailShows snapshot sessions
      ∧ sessions ≡ₚ filter (λ s, CareSession.status s = WAITING_CONSULTATION)
                           (careSession (db mixedQueue))
      ∧ (∀ s, s ∈ sessions ↔
              s ∈ careSession (db mixedQueue)
              ∧ CareSession.status s = WAITING_CONSULTATION)
      ∧ StronglySorted
          (λ a b, CareSession.created_at a ≤ CareSession.created_at b)
          sessions.
Proof.
  split; [reflexivity|].
  exact (waiting_queue_is_fifo (calm 5000) mixedQueue eq_refl).
Defined.

Example mixedQueue_snapshot :
  (QueueService.getWaitingQueuesData (calm 5000) mixedQueue).1
  = Ok [WaitingQueueDetail.mk 3 "dr-2" "U003" 1;
        WaitingQueueDetail.mk 1 "dr-1" "U001" 2].
Proof. vm_compute. reflexivity. Qed.

(** ** Applied treatments *)

Section Treatments.

Variable validation : TreatmentValidation.t.

Lemma priceMapOf_acc rows (m : gmap Z Z) id :
  id ∉ rows.*1 →
  foldl (λ m t, <[t.1 := t.2]> m) m rows !! id = m !! id.
Proof.
  revert m. induction rows as [|[k v] rows IH]; intros m Hid; [done|].
  rewrite fmap_cons, not_elem_of_cons in Hid. destruct Hid as [Hne Hid].
  simpl. rewrite IH by exact Hid. now apply lookup_insert_ne.
Qed.

Lemma priceMapOf_absent rows id :
  id ∉ rows.*1 → TreatmentService.priceMapOf rows !! id = None.
Proof.
  intros Hid. unfold TreatmentService.priceMapOf.
  rewrite priceMapOf_acc by exact Hid. apply lookup_empty.
Qed.

Lemma priceMapOf_present rows id p :
  NoDup rows.*1 → (id, p) ∈ rows →
  TreatmentService.priceMapOf rows !! id = Some p.
Proof.
  unfold TreatmentService.priceMapOf. generalize (∅ : gmap Z Z).
  induction rows as [|[k v] rows IH]; intros m Hnd Hin.
  - now apply elem_of_nil in Hin.
  - rewrite fmap_cons in Hnd. apply NoDup_cons in Hnd as [Hk Hnd].
    apply elem_of_cons in Hin as [[= <- <-]|Hin]; simpl.
    + rewrite priceMapOf_acc by exact Hk. apply lookup_insert_eq.
    + now apply IH.
Qed.

Lemma catalogRows_absent d ids id :
  id ∉ Treatment.id <$> treatment d → id ∉ (catalogRows d ids).*1.
Proof.
  intros Hid Hin. apply Hid. unfold catalogRows in Hin.
  rewrite <- list_fmap_compose in Hin.
  apply list_elem_of_fmap in Hin as (t & -> & Ht).
  apply list_elem_of_filter in Ht as [_ Ht].
  apply list_elem_of_fmap. now exists t.
Qed.

Lemma NoDup_fmap_filter {A B} (f : A → B) (P : A → Prop)
    `{∀ x, Decision (P x)} (l : list A) :
  NoDup (f <$> l) → NoDup (f <$> filter P l).
Proof.
  induction l as [|a l IH]; [done|].
  rewrite fmap_cons, NoDup_cons, filter_cons. intros [Ha Hnd].
  destruct (decide (P a)); [|now apply IH].
  rewrite fmap_cons. apply NoDup_cons. split; [|now apply IH].
  intros (x & Hx & Hin)%list_elem_of_fmap.
  apply list_elem_of_filter in Hin as [_ Hin].
  apply Ha, list_elem_of_fmap. now exists x.
Qed.

Lemma catalogRows_present d ids t :
  NoDup (Treatment.id <$> treatment d) →
  t ∈ treatment d → Treatment.id t ∈ ids →
  TreatmentService.priceMapOf (catalogRows d ids) !! Treatment.id t
  = Some (Treatment.price t).
Proof.
  intros Hnd Ht Hid. apply priceMapOf_present.
  - unfold catalogRows. rewrite <- list_fmap_compose.
    now apply (NoDup_fmap_filter Treatment.id).
  - unfold catalogRows.
    apply list_elem_of_fmap. exists t. split; [done|].
    now apply list_elem_of_filter.
Qed.

(** What a successful [addSessionTreatments] wrote and returned. *)
Lemma forallb_refers (d : Db) sid (price : Z → Z)
    (items : list SessionTreatmentItem.t) :
  forallb (Prisma.refers d)
    ((λ t, CareSessionTreatmentCreateInput.mk sid
             (SessionTreatmentItem.treatment_id t)
             (SessionTreatmentItem.quantity t)
             (price (SessionTreatmentItem.treatment_id t))) <$> items)
  = forallb
      (λ item,
         bool_decide (sid ∈ CareSession.id <$> careSession d)
         && bool_decide (SessionTreatmentItem.treatment_id item
                         ∈ Treatment.id <$> treatment d))
      items.
Proof.
  induction items as [|item items IH]; [reflexivity|].
  rewrite fmap_cons. cbn [forallb]. now rewrite IH.
Qed.

Lemma addSessionTreatments_run env dto w :
  TreatmentValidation.ADD_SESSION_TREATMENT validation dto = true →
  storeFault env TreatmentFindMany = None →
  storeFault env Transaction = None →
  allReferred (db w) dto = true →
  ∃ w',
    TreatmentService.addSessionTreatments validation env dto w
    = (Ok (responseOf <$> rowsFor (db w) dto), w')
    ∧ careSessionTreatment (db w')
      = careSessionTreatment (db w) ++ rowsFor (db w) dto
    ∧ treatment (db w') = treatment (db w).
Proof.
  intros Hv Hf Ht Href.
  unfold TreatmentService.addSessionTreatments, validate,
    Prisma.treatment_findMany, Prisma.transaction_createSessionTreatments.
  rewrite Hv, Hf, Ht. step_m. cbn [db].
  rewrite (forallb_refers (db w)
             (AddSessionTreatmentDto.care_session_id dto)
             (λ id, default 0 (TreatmentService.priceMapOf _ !! id))).
  unfold allReferred in Href. rewrite Href.
  eexists. split.
  - unfold rowsFor, catalogRows. rewrite imap_fmap. reflexivity.
  - cbn [db careSessionTreatment treatment set_careSessionTreatment
         bump_careSessionTreatmentId].
    unfold rowsFor, catalogRows. done.
Qed.

(** A request that names a missing session or treatment is refused by the
    store: nothing is inserted. *)
Lemma addSessionTreatments_refused env dto w :
  TreatmentValidation.ADD_SESSION_TREATMENT validation dto = true →
  storeFault env TreatmentFindMany = None →
  storeFault env Transaction = None →
  allReferred (db w) dto = false →
  TreatmentService.addSessionTreatments validation env dto w
  = (Throw Prisma.FOREIGN_KEY_FAILED, w).
Proof.
  intros Hv Hf Ht Href.
  unfold TreatmentService.addSessionTreatments, validate,
    Prisma.treatment_findMany, Prisma.transaction_createSessionTreatments.
  rewrite Hv, Hf, Ht. step_m. cbn [db].
  rewrite (forallb_refers (db w)
             (AddSessionTreatmentDto.care_session_id dto)
             (λ id, default 0 (TreatmentService.priceMapOf _ !! id))).
  unfold allReferred in Href. now rewrite Href.
Qed.

(** Whatever the environment, a call that throws has written nothing. *)
Lemma addSessionTreatments_throw_inv env dto w e w' :
  TreatmentService.addSessionTreatments validation env dto w
  = (Throw e, w') →
  w' = w.
Proof.
  unfold TreatmentService.addSessionTreatments, validate,
    Prisma.treatment_findMany, Prisma.transaction_createSessionTreatments.
  destruct (TreatmentValidation.ADD_SESSION_TREATMENT validation dto);
    [|now intros [= _ <-]].
  destruct (storeFault env TreatmentFindMany); [now intros [= _ <-]|].
  destruct (storeFault env Transaction); [now intros [= _ <-]|].
  step_m. destruct (forallb _ _); [discriminate|now intros [= _ <-]].
Qed.

Lemma addSessionTreatments_ok_inv env dto w created w' :
  TreatmentService.addSessionTreatments validation env dto w
  = (Ok created, w') →
  created = responseOf <$> rowsFor (db w) dto
  ∧ careSessionTreatment (db w')
    = careSessionTreatment (db w) ++ rowsFor (db w) dto
  ∧ treatment (db w') = treatment (db w)
  ∧ allReferred (db w) dto = true.
Proof.
  intros H.
  destruct (TreatmentValidation.ADD_SESSION_TREATMENT validation dto) eqn:Hv;
    [|unfold TreatmentService.addSessionTreatments, validate in H;
      rewrite Hv in H; discriminate].
  destruct (storeFault env TreatmentFindMany) eqn:Hf;
    [unfold TreatmentService.addSessionTreatments, validate,
       Prisma.treatment_findMany in H;
     rewrite Hv, Hf in H; discriminate|].
  destruct (storeFault env Transaction) eqn:Ht;
    [unfold TreatmentService.addSessionTreatments, validate,
       Prisma.treatment_findMany,
       Prisma.transaction_createSessionTreatments in H;
     rewrite Hv, Hf, Ht in H; discriminate|].
  destruct (allReferred (db w) dto) eqn:Href;
    [|rewrite (addSessionTreatments_refused env dto w Hv Hf Ht Href) in H;
      discriminate].
  destruct (addSessionTreatments_run env dto w Hv Hf Ht Href)
    as (w1 & Hrun & Hrows & Hcat).
  rewrite Hrun in H. injection H as <- <-. done.
Qed.

(** A catalog update writes to the catalog only. *)
Lemma treatment_update_frame env id dto w :
  careSessionTreatment
    (db (TreatmentService.update validation env id dto w).2)
  = careSessionTreatment (db w).
Proof.
  unfold TreatmentService.update.
  destruct (Js.parseInt id None) as [n|]; [|reflexivity].
  unfold validate.
  destruct (TreatmentValidation.UPDATE validation dto); [|reflexivity].
  unfold Prisma.treatment_update.
  destruct (storeFault env TreatmentUpdate) as [e|]; step_m.
  - now destruct (bool_decide (code e = Some "P2025")).
  - destruct (List.find _ _); reflexivity.
Qed.

Lemma runAll_treatment_updates_frame
    (updates : list (Env * string * UpdateTreatmentDto.t)) :
  ∀ w,
    careSessionTreatment
      (db (runAll ((λ u, TreatmentService.update validation u.1.1 u.1.2 u.2)
                     <$> updates) w).2)
    = careSessionTreatment (db w).
Proof.
  induction updates as [|[[env id] dto] updates IH]; intros w; [done|].
  cbn [fmap list_fmap runAll fst snd].
  pose proof (treatment_update_frame env id dto w) as Hstep.
  destruct (TreatmentService.update validation env id dto w) as [r w1].
  specialize (IH w1).
  change (list_fmap _ _ ?f updates) with (f <$> updates).
  destruct (runAll _ w1) as [rs w2]. simpl in *. congruence.
Qed.

Lemma rowsFor_lookup d dto i item :
  AddSessionTreatmentDto.treatments dto !! i = Some item →
  ∃ row,
    rowsFor d dto !! i = Some row
    ∧ CareSessionTreatment.care_session_id row
      = AddSessionTreatmentDto.care_session_id dto
    ∧ CareSessionTreatment.treatment_id row
      = SessionTreatmentItem.treatment_id item
    ∧ CareSessionTreatment.quantity row = SessionTreatmentItem.quantity item
    ∧ CareSessionTreatment.applied_price row
      = default 0
          (TreatmentService.priceMapOf
             (catalogRows d (SessionTreatmentItem.treatment_id <$>
                             AddSessionTreatmentDto.treatments dto))
           !! SessionTreatmentItem.treatment_id item).
Proof.
  intros Hi. unfold rowsFor. rewrite list_lookup_imap, Hi.
  eexists. split; [reflexivity|]. done.
Qed.

End Treatments.

(** C9.  The price recorded with an applied treatment is the catalog price
    of that treatment when it was applied, and catalog updates made
    afterwards change no recorded row of any session: after any sequence of
    [TreatmentService.update] calls the table of applied treatments is what
    it was, and the rows of the application still carry the price of that
    time. *)
Theorem applied_price_is_frozen (validation : TreatmentValidation.t)
    env dto w created w1
    (updates : list (Env * string * UpdateTreatmentDto.t)) :
  TreatmentService.addSessionTreatments validation env dto w
  = (Ok created, w1) →
  NoDup (Treatment.id <$> treatment (db w)) →
  let w2 := (runAll ((λ u, TreatmentService.update validation u.1.1 u.1.2 u.2)
                       <$> updates) w1).2 in
  careSessionTreatment (db w2) = careSessionTreatment (db w1)
  ∧ ∀ i item t,
      AddSessionTreatmentDto.treatments dto !! i = Some item →
      t ∈ treatment (db w) →
      Treatment.id t = SessionTreatmentItem.treatment_id item →
      ∃ row,
        careSessionTreatment (db w2)
          !! (length (careSessionTreatment (db w)) + i)%nat = Some row
        ∧ CareSessionTreatment.treatment_id row = Treatment.id t
        ∧ CareSessionTreatment.applied_price row = Treatment.price t.
Proof.
  intros Hrun Hnd w2.
  assert (Hframe : careSessionTreatment (db w2) = careSessionTreatment (db w1))
    by apply runAll_treatment_updates_frame.
  split; [exact Hframe|].
  intros i item t Hi Ht Hid.
  apply addSessionTreatments_ok_inv in Hrun as (_ & Hrows & _).
  destruct (rowsFor_lookup (db w) dto i item Hi)
    as (row & Hrow & _ & Htid & _ & Hprice).
  exists row. rewrite Hframe, Hrows.
  rewrite lookup_app_r by lia.
  replace (length (careSessionTreatment (db w)) + i
           - length (careSessionTreatment (db w)))%nat with i by lia.
  split; [exact Hrow|]. split; [congruence|].
  rewrite Hprice, <- Hid, catalogRows_present; try done.
  rewrite Hid. apply list_elem_of_fmap. exists item. split; [done|].
  eapply list_elem_of_lookup_2. exact Hi.
Qed.

Lemma applied_price_is_frozen_witness :
  let w2 :=
    (runAll ((λ u, TreatmentService.update acceptAllTreatments
                     u.1.1 u.1.2 u.2) <$> raiseNebulizer)
       afterNebulizer).2 in
  NoDup (Treatment.id <$> treatment (db clinic))
  ∧ careSessionTreatment (db w2) = careSessionTreatment (db afterNebulizer)
  ∧ ∀ i item t,
      AddSessionTreatmentDto.treatments applyNebulizer !! i = Some item →
      t ∈ treatment (db clinic) →
      Treatment.id t = SessionTreatmentItem.treatment_id item →
      ∃ row,
        careSessionTreatment (db w2)
          !! (length (careSessionTreatment (db clinic)) + i)%nat = Some row
        ∧ CareSessionTreatment.treatment_id row = Treatment.id t
        ∧ CareSessionTreatment.applied_price row = Treatment.price t.
Proof.
  assert (Hnd : NoDup (Treatment.id <$> treatment (db clinic))).
  { cbn. apply NoDup_cons. split; [|apply NoDup_singleton].
    intros [=]%list_elem_of_singleton. }
  split; [exact Hnd|].
  apply (applied_price_is_frozen acceptAllTreatments (calm 2000)
           applyNebulizer clinic
           [AddSessionTreatmentResponse.mk 1 1 50000 2] afterNebulizer
           raiseNebulizer); [|exact Hnd].
  vm_compute. reflexivity.
Defined.

Example raised_price_leaves_applied_price :
  let w2 :=
    (runAll ((λ u, TreatmentService.update acceptAllTreatments
                     u.1.1 u.1.2 u.2) <$> raiseNebulizer)
       afterNebulizer).2 in
  treatment (db w2)
  = [Treatment.mk 1 "Nebulizer" 75000; Treatment.mk 2 "Suture" 120000]
  ∧ careSessionTreatment (db w2) = [CareSessionTreatment.mk 1 1 1 2 50000].
Proof. vm_compute. split; reflexivity. Qed.

(** An application that names a known and an unknown treatment: the store
    refuses the batch, and not even the row of the known treatment is
    written. *)
Lemma unknown_treatment_row_is_not_created :
  let run := TreatmentService.addSessionTreatments acceptAllTreatments
               (calm 2000) applyUnknown clinic in
  SessionTreatmentItem.treatment_id <$>
    AddSessionTreatmentDto.treatments applyUnknown = [1; 9]
  ∧ Treatment.id <$> treatment (db clinic) = [1; 2]
  ∧ run.1 = Throw Prisma.FOREIGN_KEY_FAILED
  ∧ careSessionTreatment (db run.2) = [].
Proof. vm_compute. repeat split. Qed.

(** C10, as the code has it.  An application that names a treatment id the
    catalog does not have creates no row at all.  The service raises
    nothing itself for the unknown id and submits the batch, which the
    store refuses because the treatment column is a foreign key; the
    service has no handler, so the call throws and the store is as it was.
    When validation and the store's reads work, the error that reaches the
    caller is the store's foreign-key violation (code P2003), not a
    not-found answer. *)
Theorem unknown_treatment_creates_no_row (validation : TreatmentValidation.t)
    env dto w item :
  item ∈ AddSessionTreatmentDto.treatments dto →
  SessionTreatmentItem.treatment_id item
    ∉ Treatment.id <$> treatment (db w) →
  ∃ e,
    TreatmentService.addSessionTreatments validation env dto w
    = (Throw e, w)
    ∧ (TreatmentValidation.ADD_SESSION_TREATMENT validation dto = true →
       storeFault env TreatmentFindMany = None →
       storeFault env Transaction = None →
       e = Prisma.FOREIGN_KEY_FAILED ∧ code e = Some "P2003").
Proof.
  intros Hitem Habsent.
  assert (Href : allReferred (db w) dto = false).
  { unfold allReferred. apply not_true_is_false. intros Hall.
    rewrite forallb_forall in Hall.
    specialize (Hall item (proj1 (list_elem_of_In _ _) Hitem)).
    apply andb_true_iff in Hall as [_ Hin%bool_decide_eq_true].
    contradiction. }
  destruct (TreatmentService.addSessionTreatments validation env dto w)
    as [[created|e] w'] eqn:Hrun.
  { apply addSessionTreatments_ok_inv in Hrun as (_ & _ & _ & Hok).
    congruence. }
  pose proof (addSessionTreatments_throw_inv validation _ _ _ _ _ Hrun) as ->.
  exists e. split; [reflexivity|].
  intros Hv Hf Ht.
  rewrite (addSessionTreatments_refused validation env dto w Hv Hf Ht Href)
    in Hrun.
  injection Hrun as <-. split; reflexivity.
Qed.

Lemma unknown_treatment_creates_no_row_witness :
  SessionTreatmentItem.mk 9 1 ∈ AddSessionTreatmentDto.treatments applyUnknown
  ∧ (9 ∉ Treatment.id <$> treatment (db clinic))
  ∧ ∃ e,
      TreatmentService.addSessionTreatments acceptAllTreatments (calm 2000)
        applyUnknown clinic
      = (Throw e, clinic)
      ∧ e = Prisma.FOREIGN_KEY_FAILED ∧ code e = Some "P2003".
Proof.
  assert (Hitem : SessionTreatmentItem.mk 9 1
                  ∈ AddSessionTreatmentDto.treatments applyUnknown).
  { apply list_elem_of_In. right. left. reflexivity. }
  assert (Habsent : 9 ∉ Treatment.id <$> treatment (db clinic)).
  { apply (bool_decide_unpack _). vm_compute. exact I. }
  split; [exact Hitem|]. split; [exact Habsent|].
  destruct (unknown_treatment_creates_no_row acceptAllTreatments (calm 2000)
              applyUnknown clinic (SessionTreatmentItem.mk 9 1)
              Hitem Habsent) as (e & Hrun & He).
  exists e. split; [exact Hrun|].
  apply He; reflexivity.
Defined.

(** With every treatment of the request in the catalog the batch is
    written. *)
Example known_treatment_run :
  (TreatmentService.addSessionTreatments acceptAllTreatments (calm 2000)
     applyNebulizer clinic).1
  = Ok [AddSessionTreatmentResponse.mk 1 1 50000 2].
Proof. vm_compute. reflexivity. Qed.

(** ** Medical record numbers *)

Section MedicalRecordNumbers.

Lemma isDigit_inv c :
  Js.isDigit c = true → ∃ d, 0 ≤ d < 10 ∧ c = Js.digitChar d.
Proof.
  destruct c as [[] [] [] [] [] [] [] []]; intros H;
    try discriminate H;
    first [ exists 0; split; [lia|reflexivity]
          | exists 1; split; [lia|reflexivity]
          | exists 2; split; [lia|reflexivity]
          | exists 3; split; [lia|reflexivity]
          | exists 4; split; [lia|reflexivity]
          | exists 5; split; [lia|reflexivity]
          | exists 6; split; [lia|reflexivity]
          | exists 7; split; [lia|reflexivity]
          | exists 8; split; [lia|reflexivity]
          | exists 9; split; [lia|reflexivity] ].
Qed.

Lemma wellFormedMr_inv s :
  wellFormedMr s = true →
  ∃ k, 0 ≤ k < 1000000 ∧ s = specMedicalRecordFormat k.
Proof.
  unfold wellFormedMr.
  destruct s as [|a [|b [|p s]]]; try discriminate.
  destruct (Ascii.eqb_spec p "."%char) as [->|Hp];
    [|destruct p as [[] [] [] [] [] [] [] []]; try discriminate;
      now contradict Hp].
  destruct s as [|c [|d [|q s]]]; try discriminate.
  destruct (Ascii.eqb_spec q "."%char) as [->|Hq];
    [|destruct q as [[] [] [] [] [] [] [] []]; try discriminate;
      now contradict Hq].
  destruct s as [|e [|f [|]]]; try discriminate.
  rewrite !andb_true_iff.
  intros [[[[[(x5 & H5 & ->)%isDigit_inv (x4 & H4 & ->)%isDigit_inv]
               (x3 & H3 & ->)%isDigit_inv] (x2 & H2 & ->)%isDigit_inv]
             (x1 & H1 & ->)%isDigit_inv] (x0 & H0 & ->)%isDigit_inv].
  exists (x5 * 100000 + x4 * 10000 + x3 * 1000 + x2 * 100 + x1 * 10 + x0).
  split; [lia|]. unfold specMedicalRecordFormat.
  repeat match goal with
         | |- String (Js.digitChar ?x) _ = String (Js.digitChar ?y) _ =>
             replace y with x by (Z.div_mod_to_equations; lia); f_equal
         | |- String ?c _ = String ?c _ => f_equal
         end.
Qed.

Lemma wellFormedMr_format k :
  wellFormedMr (specMedicalRecordFormat k) = true.
Proof.
  unfold wellFormedMr, specMedicalRecordFormat.
  now rewrite !digitChar_isDigit.
Qed.

Lemma nonDigit_start c r b :
  Js.isDigit c = true →
  Js.parseInt (String c r) (Some b) = Js.parseDigits b (String c r) None.
Proof.
  intros Hc. unfold Js.parseInt.
  assert (Hs : Js.skipWhite (String c r) = String c r).
  { destruct c as [[] [] [] [] [] [] [] []]; try discriminate Hc;
      reflexivity. }
  rewrite Hs.
  assert (Hsign :
    (match String c r with
     | String "-"%char r' => (-1, r')
     | String "+"%char r' => (1, r')
     | _ => (1, String c r)
     end) = (1, String c r)).
  { destruct c as [[] [] [] [] [] [] [] []]; try discriminate Hc;
      reflexivity. }
  rewrite Hsign.
  destruct (Js.parseDigits b (String c r) None) as [z|]; [|reflexivity].
  simpl. f_equal. now destruct z.
Qed.

Lemma mrValue_format k :
  0 ≤ k < 1000000 → mrValue (specMedicalRecordFormat k) = Some k.
Proof.
  intros Hk. unfold mrValue, specMedicalRecordFormat.
  cbn [Js.removeDots]. rewrite !digitChar_not_dot.
  change (Ascii.eqb "." ".") with true. cbn iota.
  rewrite nonDigit_start by apply digitChar_isDigit.
  cbn [Js.parseDigits].
  rewrite !digitVal_digitChar by (Z.div_mod_to_equations; lia).
  repeat match goal with
         | |- context [?x <? 10] =>
             rewrite (proj2 (Z.ltb_lt x 10))
               by (Z.div_mod_to_equations; lia)
         end.
  cbn [default from_option]. unfold id. f_equal.
  Z.div_mod_to_equations. lia.
Qed.

Lemma compare_format a b :
  0 ≤ a < 1000000 → 0 ≤ b < 1000000 →
  String.compare (specMedicalRecordFormat a) (specMedicalRecordFormat b)
  = (a ?= b).
Proof.
  intros Ha Hb. unfold specMedicalRecordFormat. cbn [String.compare].
  rewrite !compare_digitChar by (Z.div_mod_to_equations; lia).
  change (Ascii.compare "." ".") with Eq. cbn iota.
  repeat match goal with
         | |- context [match ?x ?= ?y with _ => _ end] =>
             destruct (Z.compare_spec x y)
         end;
    symmetry;
    first [ apply Z.compare_eq_iff | apply Z.compare_lt_iff
          | apply Z.compare_gt_iff ];
    Z.div_mod_to_equations; lia.
Qed.

Lemma format_nonempty k : Js.truthy (Some (specMedicalRecordFormat k)) = true.
Proof. reflexivity. Qed.

(** On well-formed numbers the store's string order is the numeric
    order, so the row [findFirst] returns carries the greatest value. *)
Lemma greatest_wellFormed l :
  Forall (λ x, wellFormedMr x = true) l →
  match Prisma.greatest l with
  | None => l = []
  | Some m =>
      ∃ k, 0 ≤ k < 1000000 ∧ m = specMedicalRecordFormat k ∧ m ∈ l
           ∧ Forall (λ x, ∃ a, 0 ≤ a ≤ k ∧ x = specMedicalRecordFormat a) l
  end.
Proof.
  induction l as [|s r IH]; intros Hwf; [reflexivity|].
  apply Forall_cons in Hwf as [Hs Hr]. specialize (IH Hr).
  apply wellFormedMr_inv in Hs as (a & Ha & ->).
  cbn [Prisma.greatest].
  destruct (Prisma.greatest r) as [b|].
  - destruct IH as (k & Hk & -> & Hin & Hall).
    unfold String.ltb. rewrite compare_format by assumption.
    destruct (Z.compare_spec a k) as [->|Hlt|Hgt].
    + exists k. repeat split; try lia; [left|].
      constructor; [exists k; split; [lia|reflexivity]|exact Hall].
    + exists k. repeat split; try lia; [now right|].
      constructor; [exists a; split; [lia|reflexivity]|exact Hall].
    + exists a. repeat split; try lia; [left|].
      constructor; [exists a; split; [lia|reflexivity]|].
      eapply Forall_impl; [exact Hall|].
      intros x (c & Hc & ->). exists c. split; [lia|reflexivity].
  - subst r. exists a. repeat split; try lia; [left|].
    constructor; [exists a; split; [lia|reflexivity]|constructor].
Qed.

Lemma nextMedicalRecordNumber_nonempty last :
  last ≠ "" →
  QueueService.nextMedicalRecordNumber (Some last)
  = Z.succ <$> mrValue last.
Proof.
  intros Hne. unfold QueueService.nextMedicalRecordNumber, mrValue.
  destruct last as [|c r]; [done|]. cbn [Js.truthy default from_option id].
  now destruct (Js.parseInt _ _).
Qed.

Lemma nextMedicalRecordNumber_format k :
  0 ≤ k < 1000000 →
  QueueService.nextMedicalRecordNumber (Some (specMedicalRecordFormat k))
  = Some (k + 1).
Proof.
  intros Hk. rewrite nextMedicalRecordNumber_nonempty by discriminate.
  now rewrite mrValue_format.
Qed.

(** The row [findFirst] returns is on record and no record is above it in
    the store's string order. *)
Lemma leb_refl s : String.leb s s = true.
Proof. apply Is_true_true. exact (reflexivity (R:=String.le) s). Qed.

Lemma leb_trans a b c :
  String.leb a b = true → String.leb b c = true → String.leb a c = true.
Proof.
  intros Hab%Is_true_true Hbc%Is_true_true. apply Is_true_true.
  exact (transitivity (R:=String.le) Hab Hbc).
Qed.

Lemma greatest_max l :
  match Prisma.greatest l with
  | None => l = []
  | Some m => m ∈ l ∧ ∀ x, x ∈ l → String.leb x m = true
  end.
Proof.
  induction l as [|s r IH]; [reflexivity|]. cbn [Prisma.greatest].
  destruct (Prisma.greatest r) as [b|].
  - destruct IH as [Hin Hmax]. unfold String.ltb.
    destruct (String.compare s b) eqn:Hc.
    + apply String.compare_eq_iff in Hc. subst b.
      split; [left|]. intros x [->|Hx]%elem_of_cons;
        [apply leb_refl|now apply Hmax].
    + split; [now right|]. intros x [->|Hx]%elem_of_cons.
      * unfold String.leb. now rewrite Hc.
      * now apply Hmax.
    + assert (Hbs : String.leb b s = true).
      { unfold String.leb. rewrite String.compare_antisym, Hc.
        reflexivity. }
      split; [left|]. intros x [->|Hx]%elem_of_cons;
        [apply leb_refl|].
      apply (leb_trans x b s); [now apply Hmax|exact Hbs].
  - subst r. split; [left|]. intros x ->%list_elem_of_singleton.
    apply leb_refl.
Qed.

Lemma careSession_update_run env n dto w s :
  storeFault env CareSessionUpdate = None →
  sessionById (db w) n = Some s →
  ∃ w1,
    Prisma.careSession_update env n dto w
    = (Ok (Prisma.applyUpdate (now env) dto s,
           Prisma.joinPatient (db w) (Prisma.applyUpdate (now env) dto s)),
       w1)
    ∧ patient (db w1) = patient (db w)
    ∧ emitted w1 = emitted w.
Proof.
  intros Hf Hs. unfold Prisma.careSession_update, sessionById in *.
  rewrite Hf. step_m. rewrite Hs. eexists. split; [reflexivity|done].
Qed.

Lemma assignMedicalRecordNumber_run env request s p pid w :
  UpdateQueueDto.status request = Some COMPLETED →
  Js.truthy (Patient.medical_record_number p) = false →
  CareSession.patient_id s = Some pid →
  is_Some (patientById (db w) pid) →
  storeFault env PatientFindFirst = None →
  storeFault env PatientUpdate = None →
  ∃ w',
    QueueService.assignMedicalRecordNumber env request (s, Some p) w
    = (Ok tt, w')
    ∧ patient (db w')
      = List.map
          (λ q, if Patient.id q =? pid
                then Patient.set_medical_record_number
                       (Some (QueueService.formatMedicalRecordNumber
                                (QueueService.nextMedicalRecordNumber
                                   (Prisma.greatest
                                      (assignedNumbers (db w)))))) q
                else q)
          (patient (db w))
    ∧ careSession (db w') = careSession (db w)
    ∧ emitted w' = emitted w.
Proof.
  intros Hst Hp Hpid [p0 Hfind] Hf Hu.
  unfold QueueService.assignMedicalRecordNumber,
    QueueService.needsMedicalRecordNumber.
  rewrite bool_decide_eq_true_2 by exact Hst.
  cbn [snd fst andb]. rewrite Hp. cbn [negb].
  unfold Prisma.patient_findFirst_lastMr, Prisma.patient_update.
  rewrite Hf, Hpid, Hu. step_m.
  unfold patientById in Hfind. rewrite Hfind.
  eexists. split; [reflexivity|done].
Qed.

Lemma assignMedicalRecordNumber_skip env request s p w :
  Js.truthy (Patient.medical_record_number p) = true →
  QueueService.assignMedicalRecordNumber env request (s, Some p) w
  = (Ok tt, w).
Proof.
  intros Hp. unfold QueueService.assignMedicalRecordNumber,
    QueueService.needsMedicalRecordNumber.
  cbn [snd]. rewrite Hp. now rewrite andb_false_r.
Qed.

Lemma specMedicalRecordFormat_inj a b :
  0 ≤ a < 1000000 → 0 ≤ b < 1000000 →
  specMedicalRecordFormat a = specMedicalRecordFormat b → a = b.
Proof.
  intros Ha Hb E. apply (f_equal mrValue) in E.
  rewrite !mrValue_format in E by assumption. congruence.
Qed.

Lemma greatestValue_max values k :
  Forall (λ v, 0 ≤ v ≤ k) values → k ∈ values → greatestValue values = k.
Proof.
  unfold greatestValue. induction values as [|v r IH]; intros Hall Hin.
  - inversion Hin.
  - apply Forall_cons in Hall as [Hv Hr]. cbn [foldr].
    assert (Hle : 0 ≤ foldr Z.max 0 r ≤ k).
    { clear -Hr Hv. induction r as [|x r IH]; cbn [foldr]; [lia|].
      apply Forall_cons in Hr as [Hx Hr]. specialize (IH Hr). lia. }
    apply elem_of_cons in Hin as [<-|Hin]; [lia|].
    rewrite (IH Hr Hin). lia.
Qed.

End MedicalRecordNumbers.

(** C8.  Medical record numbers are printed zero-padded to six digits and
    grouped in pairs: 1 is [00.00.01], 123456 is [12.34.56].  Where the
    numbers on record are the six-digit forms of the values [values], each
    below 999999, the allocation block of [update] gives the patient the
    six-digit form of the greatest of these values plus one; with no
    number on record that is [00.00.01]. *)
Theorem medical_record_number_allocation :
  QueueService.formatMedicalRecordNumber (Some 1) = "00.00.01"
  ∧ QueueService.formatMedicalRecordNumber (Some 123456) = "12.34.56"
  ∧ (∀ n, 0 ≤ n < 1000000 →
          QueueService.formatMedicalRecordNumber (Some n)
          = specMedicalRecordFormat n)
  ∧ (∀ env request s p pid w values,
       UpdateQueueDto.status request = Some COMPLETED →
       Patient.medical_record_number p = None →
       CareSession.patient_id s = Some pid →
       is_Some (patientById (db w) pid) →
       storeFault env PatientFindFirst = None →
       storeFault env PatientUpdate = None →
       assignedNumbers (db w) = specMedicalRecordFormat <$> values →
       Forall (λ v, 0 ≤ v < 999999) values →
       ∃ w',
         QueueService.assignMedicalRecordNumber env request (s, Some p) w
         = (Ok tt, w')
         ∧ patient (db w')
           = List.map
               (λ q, if Patient.id q =? pid
                     then Patient.set_medical_record_number
                            (Some (specMedicalRecordFormat
                                     (greatestValue values + 1))) q
                     else q)
               (patient (db w))
         ∧ (values = [] →
            specMedicalRecordFormat (greatestValue values + 1) = "00.00.01")).
Proof.
  split; [reflexivity|]. split; [reflexivity|].
  split; [exact formatMedicalRecordNumber_grouped|].
  intros env request s p pid w values Hst Hp Hpid Hfind Hf Hu Hvals Hbound.
  destruct (assignMedicalRecordNumber_run env request s p pid w)
    as (w' & Hrun & Hpat & _); try done.
  { now rewrite Hp. }
  exists w'. split; [exact Hrun|]. split; [|now intros ->].
  rewrite Hpat. clear Hpat Hrun. rewrite Hvals.
  assert (Hnext :
    QueueService.formatMedicalRecordNumber
      (QueueService.nextMedicalRecordNumber
         (Prisma.greatest (specMedicalRecordFormat <$> values)))
    = specMedicalRecordFormat (greatestValue values + 1));
    [|now rewrite Hnext].
  pose proof (greatest_wellFormed (specMedicalRecordFormat <$> values)) as Hg.
  destruct (Prisma.greatest (specMedicalRecordFormat <$> values)) as [m|].
  - destruct Hg as (k & Hk & -> & Hin & Hall).
    { apply Forall_fmap, Forall_forall. intros v _.
      apply wellFormedMr_format. }
    apply list_elem_of_fmap in Hin as (v & Hv & Hvin).
    rewrite Forall_forall in Hbound.
    pose proof (Hbound v Hvin) as Hvb.
    apply specMedicalRecordFormat_inj in Hv; [|lia|lia]. subst v.
    assert (Hmax : greatestValue values = k).
    { apply greatestValue_max; [|exact Hvin].
      apply Forall_forall. intros x Hx.
      pose proof (Hbound x Hx) as Hxb.
      rewrite Forall_forall in Hall.
      destruct (Hall (specMedicalRecordFormat x)) as (a & Ha & Hxa).
      { now apply list_elem_of_fmap_2. }
      apply specMedicalRecordFormat_inj in Hxa; [|lia|lia]. lia. }
    rewrite Hmax, nextMedicalRecordNumber_format by lia.
    apply formatMedicalRecordNumber_grouped. lia.
  - assert (Hnil : values = []).
    { apply fmap_nil_inv with (f := specMedicalRecordFormat). apply Hg.
      apply Forall_fmap, Forall_forall. intros v _.
      apply wellFormedMr_format. }
    subst values. reflexivity.
Qed.

Lemma medical_record_number_allocation_witness :
  (0 ≤ 42 < 1000000
   ∧ QueueService.formatMedicalRecordNumber (Some 42)
     = specMedicalRecordFormat 42)
  ∧ assignedNumbers (db registry) = specMedicalRecordFormat <$> [7; 112]
  ∧ Forall (λ v, 0 ≤ v < 999999) [7; 112]
  ∧ ∃ w',
      QueueService.assignMedicalRecordNumber (calm 2000)
        (setStatus COMPLETED)
        (CareSession.mk 1 COMPLETED "U001" "fever" None "dr-1" 2 (Some 3)
           1000 2000,
         Some (Patient.mk 3 (PatientData.mk "Citra" 0 "F") None))
        registry
      = (Ok tt, w')
      ∧ patient (db w')
        = List.map
            (λ q, if Patient.id q =? 3
                  then Patient.set_medical_record_number
                         (Some (specMedicalRecordFormat
                                  (greatestValue [7; 112] + 1))) q
                  else q)
            (patient (db registry))
      ∧ ([7; 112] = [] →
         specMedicalRecordFormat (greatestValue [7; 112] + 1) = "00.00.01").
Proof.
  destruct medical_record_number_allocation as (_ & _ & Hfmt & Halloc).
  assert (Hbound : Forall (λ v, 0 ≤ v < 999999) [7; 112]).
  { repeat constructor; lia. }
  split.
  - split; [lia|]. apply Hfmt. lia.
  - split; [reflexivity|]. split; [exact Hbound|].
    apply Halloc; try reflexivity; [eexists; reflexivity|exact Hbound].
Defined.

Example first_number_on_an_empty_registry :
  Patient.medical_record_number <$>
  patient (db (QueueService.assignMedicalRecordNumber (calm 2000)
                 (setStatus COMPLETED)
                 (CareSession.mk 1 COMPLETED "U001" "fever" None "dr-1" 2
                    (Some 1) 1000 2000,
                  Some (Patient.mk 1 (PatientData.mk "Ani" 0 "F") None))
                 (mkWorld (mkDb [] [Patient.mk 1 (PatientData.mk "Ani" 0 "F")
                                      None] [] [] 1 2 1) [])).2)
  = [Some "00.00.01"].
Proof. vm_compute. reflexivity. Qed.

Example registry_next_number :
  Patient.medical_record_number <$>
  patient (db (QueueService.update acceptAll (calm 2000) "1"
                 (setStatus COMPLETED) registry).2)
  = [Some "00.00.07"; Some "00.01.12"; Some "00.01.13"].
Proof. vm_compute. reflexivity. Qed.

(** ** Completion and the medical record number *)

Section Completion.

Variable validation : QueueValidation.t.

Lemma update_run env id n dto w res w1 w2 :
  Js.parseInt id None = Some n →
  QueueValidation.UPDATE validation dto = true →
  Prisma.careSession_update env n dto w = (Ok res, w1) →
  QueueService.assignMedicalRecordNumber env dto res w1 = (Ok tt, w2) →
  storeFault env CareSessionFindMany = None →
  (∀ ch, emitFault env ch = None) →
  ∃ w', QueueService.update validation env id dto w = (Ok res, w')
        ∧ db w' = db w2.
Proof.
  intros Hid Hv E1 E2 Hs He.
  unfold QueueService.update. rewrite Hid. unfold validate. rewrite Hv.
  step_m. rewrite E1, E2.
  rewrite getWaitingQueuesData_run by exact Hs.
  unfold QueueGateway.emitWaitingQueueUpdate,
    QueueGateway.emitCalledQueueUpdate, QueueGateway.emit.
  rewrite !He.
  destruct (bool_decide (CareSession.status res.1 = IN_CONSULTATION));
    eexists; split; reflexivity.
Qed.

Lemma patientById_assigned d pid p m :
  patientById d pid = Some p →
  Patient.medical_record_number p = Some m →
  m ∈ assignedNumbers d.
Proof.
  intros Hfind Hm. unfold patientById in Hfind.
  apply List.find_some in Hfind as [Hin _].
  unfold assignedNumbers. apply list_elem_of_omap.
  exists p. split; [now apply list_elem_of_In|exact Hm].
Qed.

End Completion.

(** Two completions in a row on a registry whose greatest number is
    [99.99.99]: both patients get [10.00.000]. *)
Lemma numbers_repeat_past_six_digits :
  let w1 := (QueueService.update acceptAll (calm 2000) "1"
               (setStatus COMPLETED) fullRegistry).2 in
  let w2 := (QueueService.update acceptAll (calm 3000) "2"
               (setStatus COMPLETED) w1).2 in
  Patient.medical_record_number <$> patient (db w1)
  = [Some "99.99.99"; Some "10.00.000"; None]
  ∧ Patient.medical_record_number <$> patient (db w2)
    = [Some "99.99.99"; Some "10.00.000"; Some "10.00.000"]
  ∧ mrValue "10.00.000" = Some 1000000.
Proof. vm_compute. repeat split. Qed.

(** C2, as the code has it.  On a registry whose numbers all have the
    shape [NN.NN.NN] and lie below [99.99.99], completing a session whose
    patient has no number gives that patient exactly one number, of the
    same shape and strictly greater than every number on record, and
    leaves every other patient as they were; completing a session of a
    patient who has a number changes no patient. *)
Theorem completion_assigns_next_number (validation : QueueValidation.t)
    env id n dto w s pid p :
  noFaults env →
  Js.parseInt id None = Some n →
  QueueValidation.UPDATE validation dto = true →
  UpdateQueueDto.status dto = Some COMPLETED →
  sessionById (db w) n = Some s →
  CareSession.patient_id s = Some pid →
  patientById (db w) pid = Some p →
  Forall (λ x, wellFormedMr x = true ∧ x ≠ "99.99.99")
         (assignedNumbers (db w)) →
  (Patient.medical_record_number p = None →
   ∃ res w' m,
     QueueService.update validation env id dto w = (Ok res, w')
     ∧ wellFormedMr m = true
     ∧ patient (db w')
       = List.map (λ q, if Patient.id q =? pid
                        then Patient.set_medical_record_number (Some m) q
                        else q)
                  (patient (db w))
     ∧ Forall (λ x, ∃ a b, mrValue x = Some a ∧ mrValue m = Some b ∧ a < b)
              (assignedNumbers (db w)))
  ∧ (is_Some (Patient.medical_record_number p) →
     ∃ res w',
       QueueService.update validation env id dto w = (Ok res, w')
       ∧ patient (db w') = patient (db w)).
Proof.
  intros [Hs He] Hid Hv Hst Hsess Hpid Hfind Hwf.
  destruct (careSession_update_run env n dto w s (Hs _) Hsess)
    as (w1 & E1 & Hpat1 & _).
  assert (Hjoin : Prisma.joinPatient (db w)
                    (Prisma.applyUpdate (now env) dto s) = Some p).
  { unfold Prisma.joinPatient. cbn [Prisma.applyUpdate CareSession.patient_id].
    rewrite Hpid. exact Hfind. }
  rewrite Hjoin in E1.
  split.
  - intros Hnone.
    destruct (assignMedicalRecordNumber_run env dto
                (Prisma.applyUpdate (now env) dto s) p pid w1)
      as (w2 & E2 & Hpat2 & _); try done.
    { now rewrite Hnone. }
    { unfold patientById. rewrite Hpat1. now exists p. }
    destruct (update_run validation env id n dto w _ w1 w2 Hid Hv E1 E2
                (Hs _) He) as (w' & Hrun & Hdb).
    unfold assignedNumbers in Hpat2. rewrite Hpat1 in Hpat2.
    fold (assignedNumbers (db w)) in Hpat2.
    assert (Hshape : Forall (λ x, wellFormedMr x = true)
                       (assignedNumbers (db w))).
    { eapply Forall_impl; [exact Hwf|]. now intros x [? _]. }
    pose proof (greatest_wellFormed (assignedNumbers (db w)) Hshape) as Hgr.
    destruct (Prisma.greatest (assignedNumbers (db w))) as [last|].
    + destruct Hgr as (k & Hk & -> & Hin & Hall).
      assert (Hk' : k ≠ 999999).
      { intros ->. rewrite Forall_forall in Hwf.
        now destruct (Hwf _ Hin) as [_ Hne]. }
      rewrite nextMedicalRecordNumber_format in Hpat2 by exact Hk.
      rewrite formatMedicalRecordNumber_grouped in Hpat2 by lia.
      eexists. exists w', (specMedicalRecordFormat (k + 1)).
      split; [exact Hrun|]. split; [apply wellFormedMr_format|].
      split; [now rewrite Hdb|].
      eapply Forall_impl; [exact Hall|].
      intros x (a & Ha & ->). exists a, (k + 1).
      rewrite !mrValue_format by lia. repeat split; lia.
    + rewrite Hgr. eexists. exists w', "00.00.01".
      split; [exact Hrun|]. split; [reflexivity|].
      split; [now rewrite Hdb|constructor].
  - intros [m Hm].
    assert (Hin : m ∈ assignedNumbers (db w))
      by exact (patientById_assigned _ _ _ _ Hfind Hm).
    rewrite Forall_forall in Hwf. destruct (Hwf _ Hin) as [Hshape _].
    assert (Htruthy : Js.truthy (Patient.medical_record_number p) = true).
    { rewrite Hm. destruct m; [discriminate Hshape|reflexivity]. }
    pose proof (assignMedicalRecordNumber_skip env dto
                  (Prisma.applyUpdate (now env) dto s) p w1 Htruthy) as E2.
    destruct (update_run validation env id n dto w _ w1 w1 Hid Hv E1 E2
                (Hs _) He) as (w' & Hrun & Hdb).
    eexists. exists w'. split; [exact Hrun|]. now rewrite Hdb.
Qed.

Lemma completion_assigns_next_number_witness :
  Forall (λ x, wellFormedMr x = true ∧ x ≠ "99.99.99")
         (assignedNumbers (db registry))
  ∧ ∃ res w' m,
      QueueService.update acceptAll (calm 2000) "1" (setStatus COMPLETED)
        registry = (Ok res, w')
      ∧ wellFormedMr m = true
      ∧ patient (db w')
        = List.map (λ q, if Patient.id q =? 3
                         then Patient.set_medical_record_number (Some m) q
                         else q)
                   (patient (db registry))
      ∧ Forall (λ x, ∃ a b, mrValue x = Some a ∧ mrValue m = Some b ∧ a < b)
               (assignedNumbers (db registry)).
Proof.
  assert (Hwf : Forall (λ x, wellFormedMr x = true ∧ x ≠ "99.99.99")
                       (assignedNumbers (db registry))).
  { repeat constructor; discriminate. }
  split; [exact Hwf|].
  refine (proj1 (completion_assigns_next_number acceptAll (calm 2000) "1" 1
                   (setStatus COMPLETED) registry
                   (CareSession.mk 1 WAITING_PAYMENT "U001" "fever" None
                      "dr-1" 2 (Some 3) 1000 1500)
                   3 (Patient.mk 3 (PatientData.mk "Citra" 0 "F") None)
                   _ eq_refl eq_refl eq_refl eq_refl eq_refl eq_refl Hwf)
            eq_refl).
  split; intros ?; reflexivity.
Defined.

(** ** Printing and parsing integers *)

Section PrintParse.

Lemma digitChar_not_space d : Ascii.is_space (Js.digitChar d) = false.
Proof. unfold Js.digitChar. repeat case_match; reflexivity. Qed.

Lemma parseDigits_digitChar d rest acc :
  0 ≤ d < 10 →
  Js.parseDigits 10 (String (Js.digitChar d) rest) acc
  = Js.parseDigits 10 rest (Some (default 0 acc * 10 + d)).
Proof.
  intros Hd. cbn [Js.parseDigits]. rewrite digitVal_digitChar by exact Hd.
  now rewrite (proj2 (Z.ltb_lt d 10)) by lia.
Qed.

(** Reading back the digits printed for [n] appends them to what was read
    before. *)
Lemma parseDigits_digitsOf fuel :
  ∀ n rest acc,
    0 ≤ n < 10 ^ Z.of_nat (S fuel) →
    ∃ k, 0 ≤ k
         ∧ Js.parseDigits 10 (Js.digitsOf (S fuel) n rest) acc
           = Js.parseDigits 10 rest (Some (default 0 acc * 10 ^ k + n)).
Proof.
  induction fuel as [|fuel IH]; intros n rest acc Hn;
    change (Js.digitsOf (S ?f) n rest)
      with (if n <? 10 then String (Js.digitChar (n mod 10)) rest
            else Js.digitsOf f (n / 10)
                   (String (Js.digitChar (n mod 10)) rest));
    destruct (Z.ltb_spec n 10) as [Hlt|Hge];
    try (exists 1; split; [lia|];
         rewrite (Z.mod_small n 10) by lia;
         rewrite parseDigits_digitChar by lia; do 2 f_equal; lia).
  - simpl in Hn. lia.
  - rewrite Nat2Z.inj_succ, Z.pow_succ_r in Hn by lia.
    destruct (IH (n / 10) (String (Js.digitChar (n mod 10)) rest) acc)
      as (k & Hk & ->).
    { split; [apply Z.div_pos; lia|apply Z.div_lt_upper_bound; lia]. }
    exists (k + 1). split; [lia|].
    rewrite parseDigits_digitChar by (apply Z.mod_pos_bound; lia).
    do 2 f_equal. cbn [default from_option id].
    rewrite Z.pow_add_r, Z.pow_1_r by lia.
    pose proof (Z.div_mod n 10). lia.
Qed.

(** The printed form of [n] opens with a digit, and with the digit 0 only
    when it is the single character [0]. *)
Lemma digitsOf_head fuel :
  ∀ n rest,
    0 ≤ n →
    ∃ d tail,
      Js.digitsOf (S fuel) n rest = String (Js.digitChar d) tail
      ∧ 0 ≤ d < 10
      ∧ (tail = rest ∨ ∃ e tail', 0 ≤ e < 10
                                  ∧ tail = String (Js.digitChar e) tail').
Proof.
  induction fuel as [|fuel IH]; intros n rest Hn.
  - cbn [Js.digitsOf]. exists (n mod 10), rest.
    destruct (n <? 10); (split; [reflexivity|]);
      (split; [apply Z.mod_pos_bound; lia|now left]).
  - change (Js.digitsOf (S (S fuel)) n rest)
      with (if n <? 10 then String (Js.digitChar (n mod 10)) rest
            else Js.digitsOf (S fuel) (n / 10)
                   (String (Js.digitChar (n mod 10)) rest)).
    destruct (Z.ltb_spec n 10) as [Hlt|Hge].
    + exists (n mod 10), rest. split; [reflexivity|].
      split; [apply Z.mod_pos_bound; lia|now left].
    + destruct (IH (n / 10) (String (Js.digitChar (n mod 10)) rest))
        as (d & tail & Heq & Hd & Htail); [apply Z.div_pos; lia|].
      exists d, tail. split; [exact Heq|]. split; [exact Hd|].
      right. destruct Htail as [->|Hex]; [|exact Hex].
      exists (n mod 10), rest. split; [apply Z.mod_pos_bound; lia|done].
Qed.

Lemma parseInt_digits d tail :
  0 ≤ d < 10 →
  (tail = "" ∨ ∃ e tail', 0 ≤ e < 10 ∧ tail = String (Js.digitChar e) tail') →
  Js.parseInt (String (Js.digitChar d) tail) None
  = Js.parseDigits 10 (String (Js.digitChar d) tail) None.
Proof.
  intros Hd Htail. unfold Js.parseInt.
  cbn [Js.skipWhite]. rewrite digitChar_not_space.
  assert (Hfmap : ∀ o : option Z, Z.mul 1 <$> o = o).
  { intros [z|]; [|reflexivity]. simpl. f_equal. now destruct z. }
  destruct Htail as [->|(e & tail' & He & ->)].
  - destruct (digit_cases d Hd)
      as [->|[->|[->|[->|[->|[->|[->|[->|[->| ->]]]]]]]]];
      apply Hfmap.
  - destruct (digit_cases d Hd)
      as [->|[->|[->|[->|[->|[->|[->|[->|[->| ->]]]]]]]]];
      try apply Hfmap.
    destruct (digit_cases e He)
      as [->|[->|[->|[->|[->|[->|[->|[->|[->| ->]]]]]]]]];
      apply Hfmap.
Qed.

Lemma parseInt_intToString n :
  0 ≤ n < 10 ^ 22 →
  Js.parseInt (Js.intToString n) None = Some n.
Proof.
  intros Hn. unfold Js.intToString.
  destruct (Z.ltb_spec n 0) as [?|_]; [lia|].
  destruct (digitsOf_head 21 n "") as (d & tail & Heq & Hd & Htail); [lia|].
  rewrite Heq, parseInt_digits, <- Heq by assumption.
  destruct (parseDigits_digitsOf 21 n "" None Hn) as (k & _ & ->).
  cbn [Js.parseDigits default from_option id]. f_equal; lia.
Qed.

End PrintParse.

(** ** Listing the treatment catalog *)

Global Instance nameBefore_transitive : Transitive Prisma.nameBefore.
Proof.
  intros a b c. unfold Prisma.nameBefore.
  apply (transitivity (R:=String.le)).
Qed.

Global Instance nameBefore_total : Total Prisma.nameBefore.
Proof. intros a b. unfold Prisma.nameBefore. apply (total String.le). Qed.

Section Paging.

Lemma pageNumberOf_run page w :
  Pagination.pageNumberOf page w = (Ok (effectivePage page), w).
Proof.
  unfold Pagination.pageNumberOf, effectivePage, Js.orOne.
  destruct (Js.parseInt page None) as [k|]; [|reflexivity].
  cbn [default from_option id].
  destruct k as [|k|k]; [reflexivity| |reflexivity].
  destruct (Z.eqb_spec (Z.pos k) 0) as [?|_]; [lia|].
  destruct (Z.ltb_spec (Z.pos k) 1) as [?|_]; [lia|].
  unfold ret. do 2 f_equal. lia.
Qed.

Lemma ceilDiv_bounds total size :
  0 < size →
  (Js.ceilDiv total size - 1) * size < total ≤ Js.ceilDiv total size * size.
Proof.
  intros Hs. unfold Js.ceilDiv.
  pose proof (Z.div_mod (- total) size) as Hdm.
  pose proof (Z.mod_pos_bound (- total) size Hs) as Hm.
  nia.
Qed.

Lemma ceilDiv_lt p total size :
  0 < size → (p < Js.ceilDiv total size ↔ p * size < total).
Proof.
  intros Hs. pose proof (ceilDiv_bounds total size Hs). nia.
Qed.

(** Chunks of [n] rows, laid end to end, give the rows back. *)
Lemma chunks_concat {A} (n : nat) :
  (0 < n)%nat →
  ∀ k (l : list A),
    (length l ≤ k * n)%nat →
    mjoin ((λ i, take n (drop (i * n) l)) <$> seq 0 k) = l.
Proof.
  intros Hn. induction k as [|k IH]; intros l Hl.
  - destruct l; [reflexivity|simpl in Hl; lia].
  - cbn [seq fmap list_fmap mjoin list_join].
    change (list_fmap _ _ ?f (seq 1 k)) with (f <$> seq 1 k).
    rewrite <- fmap_S_seq, <- list_fmap_compose.
    change (list_join (?f <$> seq 0 k)) with (mjoin (f <$> seq 0 k)).
    rewrite (list_fmap_ext _ (λ i, take n (drop (i * n) (drop n l))));
      [|intros i x _; simpl; rewrite drop_drop; do 2 f_equal; lia].
    rewrite IH by (rewrite length_drop; lia).
    simpl. apply take_drop.
Qed.

End Paging.

Section TreatmentListing.

Variable contains : string → string → bool.

Lemma listedTreatments_length search d :
  length (listedTreatments contains search d)
  = length (filter (λ t, TreatmentService.searchFilter contains search t = true)
                   (treatment d)).
Proof. unfold listedTreatments. now rewrite merge_sort_Permutation. Qed.

Lemma getAll_paged_run q page search size w :
  (∀ op, queryFault q op = None) → 0 < size →
  TreatmentService.getAll contains q page search (Some size) w
  = (Ok (GetAllTreatmentsResponse.mk
           (take (Z.to_nat size)
              (drop (Z.to_nat ((effectivePage page - 1) * size))
                 (listedTreatments contains search (db w))))
           (Pagination.pagedMeta (effectivePage page) size
              (Z.of_nat (length (listedTreatments contains search (db w)))))),
     w).
Proof.
  intros Hq Hs. unfold TreatmentService.getAll.
  unfold bind at 1. rewrite pageNumberOf_run.
  cbn [Js.falsyNumber]. destruct (Z.eqb_spec size 0) as [?|_]; [lia|].
  unfold Pagination.promiseAll2, Prisma.treatment_findManyOrdered,
    Prisma.treatment_count, Prisma.paged.
  rewrite !Hq. cbn [default from_option id].
  assert (Hp : 1 ≤ effectivePage page) by (unfold effectivePage; lia).
  destruct (Z.ltb_spec ((effectivePage page - 1) * size) 0) as [?|_]; [nia|].
  step_m. unfold Prisma.window.
  destruct (Z.leb_spec 0 size) as [_|?]; [|lia].
  rewrite listedTreatments_length. reflexivity.
Qed.

End TreatmentListing.

(** X1.  The page argument of a listing never fails the call: whatever the
    string, the page number used is the parsed number when that is at least
    1, and 1 otherwise (not a number, zero, negative).  The "Invalid page
    data type" answer is never produced. *)
Theorem page_number_is_at_least_one page w :
  Pagination.pageNumberOf page w
  = (Ok (Z.max 1 (default 1 (Js.parseInt page None))), w).
Proof. apply pageNumberOf_run. Qed.

(** X2.  Without a page size (absent or 0) the listing returns every
    catalog row the search keeps, each once, in ascending order of name,
    as the single page 1 of 1 with no neighbouring page. *)
Theorem treatments_unpaged (contains : string → string → bool)
    q page search pageSize w :
  queryFault q TreatmentFindManyOrdered = None →
  Js.falsyNumber pageSize = true →
  ∃ rows,
    TreatmentService.getAll contains q page search pageSize w
    = (Ok (GetAllTreatmentsResponse.mk rows
             (Meta.mk 1 None None 1 (Z.of_nat (length rows)))), w)
    ∧ rows ≡ₚ filter (λ t, TreatmentService.searchFilter contains search t
                           = true) (treatment (db w))
    ∧ StronglySorted
        (λ a b, String.le (Treatment.name a) (Treatment.name b)) rows.
Proof.
  intros Hq Hsize. unfold TreatmentService.getAll.
  unfold bind at 1. rewrite pageNumberOf_run, Hsize.
  unfold Prisma.treatment_findManyOrdered, Prisma.paged. rewrite Hq.
  eexists. split; [reflexivity|].
  split; [apply merge_sort_Permutation|].
  apply (StronglySorted_merge_sort Prisma.nameBefore).
Qed.

Lemma treatments_unpaged_witness :
  ∃ rows,
    TreatmentService.getAll anywhere quiet "1" None None clinic
    = (Ok (GetAllTreatmentsResponse.mk rows
             (Meta.mk 1 None None 1 (Z.of_nat (length rows)))), clinic)
    ∧ rows ≡ₚ filter (λ t, TreatmentService.searchFilter anywhere None t
                           = true) (treatment (db clinic))
    ∧ StronglySorted
        (λ a b, String.le (Treatment.name a) (Treatment.name b)) rows.
Proof.
  exact (treatments_unpaged anywhere quiet "1" None None clinic
           eq_refl eq_refl).
Defined.

(** X3.  With a positive page size the listing returns the rows at
    positions [(p-1)*size, p*size) of the ordered matching rows, [p] being
    the page number used; it reports the number of matching rows, the
    least page count that holds them, a previous page exactly when [p] is
    not 1, and a next page exactly when rows remain after this page. *)
Theorem treatments_page (contains : string → string → bool)
    q page search size w :
  (∀ op, queryFault q op = None) → 0 < size →
  let p := effectivePage page in
  let full := listedTreatments contains search (db w) in
  let total := Z.of_nat (length full) in
  ∃ resp,
    TreatmentService.getAll contains q page search (Some size) w
    = (Ok resp, w)
    ∧ GetAllTreatmentsResponse.data resp
      = take (Z.to_nat size) (drop (Z.to_nat ((p - 1) * size)) full)
    ∧ Z.of_nat (length (GetAllTreatmentsResponse.data resp)) ≤ size
    ∧ Meta.current_page (GetAllTreatmentsResponse.meta resp) = p
    ∧ Meta.total_data (GetAllTreatmentsResponse.meta resp) = total
    ∧ (Meta.total_page (GetAllTreatmentsResponse.meta resp) - 1) * size
      < total
      ≤ Meta.total_page (GetAllTreatmentsResponse.meta resp) * size
    ∧ Meta.previous_page (GetAllTreatmentsResponse.meta resp)
      = (if decide (p = 1) then None else Some (p - 1))
    ∧ Meta.next_page (GetAllTreatmentsResponse.meta resp)
      = (if decide (p * size < total) then Some (p + 1) else None).
Proof.
  intros Hq Hs p full total.
  assert (Hp : 1 ≤ p) by (unfold p, effectivePage; lia).
  eexists. split; [apply getAll_paged_run; assumption|].
  cbn [GetAllTreatmentsResponse.data GetAllTreatmentsResponse.meta
       Pagination.pagedMeta Meta.current_page Meta.total_data
       Meta.total_page Meta.previous_page Meta.next_page].
  fold p full total.
  split; [reflexivity|]. split; [rewrite length_take; lia|].
  split; [reflexivity|]. split; [reflexivity|].
  split; [apply ceilDiv_bounds; exact Hs|]. split.
  - destruct (Z.ltb_spec 1 p), (decide (p = 1)); try reflexivity; lia.
  - pose proof (ceilDiv_lt p total size Hs) as Hlt.
    destruct (Z.ltb_spec p (Js.ceilDiv total size)),
             (decide (p * size < total)); try reflexivity; lia.
Qed.

Lemma treatments_page_witness :
  ∃ resp,
    TreatmentService.getAll anywhere quiet "2" None (Some 1) clinic
    = (Ok resp, clinic)
    ∧ GetAllTreatmentsResponse.data resp
      = [Treatment.mk 2 "Suture" 120000]
    ∧ Meta.previous_page (GetAllTreatmentsResponse.meta resp) = Some 1
    ∧ Meta.next_page (GetAllTreatmentsResponse.meta resp) = None.
Proof.
  destruct (treatments_page anywhere quiet "2" None 1 clinic)
    as (resp & Hrun & Hdata & _ & _ & _ & _ & Hprev & Hnext);
    [reflexivity|lia|].
  exists resp. split; [exact Hrun|]. split; [exact Hdata|].
  split; [exact Hprev|exact Hnext].
Defined.

(** X4.  The pages of a listing partition it: for a positive page size,
    the rows of pages 1, 2, ..., up to the reported page count, laid end
    to end, are exactly the ordered matching rows, none lost and none
    repeated.  (Rows with equal names come back in the same order on every
    call: the store's [orderBy] is a fixed stable sort here.) *)
Theorem treatment_pages_partition (contains : string → string → bool)
    q search size w :
  (∀ op, queryFault q op = None) → 0 < size →
  let full := listedTreatments contains search (db w) in
  let pages := Js.ceilDiv (Z.of_nat (length full)) size in
  pages < 10 ^ 21 →
  mjoin ((λ p, treatmentsOf
                 (TreatmentService.getAll contains q (Js.intToString p)
                    search (Some size) w).1)
         <$> seqZ 1 pages)
  = full.
Proof.
  intros Hq Hs full pages Hsmall.
  pose proof (ceilDiv_bounds (Z.of_nat (length full)) size Hs) as Hb.
  fold pages in Hb.
  assert (Hpages : 0 ≤ pages) by nia.
  etrans;
    [|apply (chunks_concat (Z.to_nat size) ltac:(lia) (Z.to_nat pages) full);
      nia].
  f_equal. unfold seqZ. rewrite <- list_fmap_compose.
  apply list_fmap_ext. intros i k Hk. simpl.
  apply lookup_seq in Hk as [-> Hi].
  rewrite getAll_paged_run by assumption. cbn [fst treatmentsOf
    GetAllTreatmentsResponse.data]. fold full.
  unfold effectivePage.
  rewrite parseInt_intToString by lia. cbn [default from_option id].
  do 2 f_equal. nia.
Qed.

Lemma treatment_pages_partition_witness :
  mjoin ((λ p, treatmentsOf
                 (TreatmentService.getAll anywhere quiet (Js.intToString p)
                    None (Some 1) clinic).1)
         <$> seqZ 1 (Js.ceilDiv
                       (Z.of_nat (length (listedTreatments anywhere None
                                            (db clinic)))) 1))
  = listedTreatments anywhere None (db clinic).
Proof.
  apply (treatment_pages_partition anywhere quiet None 1 clinic);
    [reflexivity|lia|vm_compute; reflexivity].
Defined.

(** X5.  A page past the last one is empty and has no next page. *)
Theorem treatments_page_past_the_end (contains : string → string → bool)
    q page search size w :
  (∀ op, queryFault q op = None) → 0 < size →
  Z.of_nat (length (listedTreatments contains search (db w)))
    ≤ (effectivePage page - 1) * size →
  ∃ resp,
    TreatmentService.getAll contains q page search (Some size) w
    = (Ok resp, w)
    ∧ GetAllTreatmentsResponse.data resp = []
    ∧ Meta.next_page (GetAllTreatmentsResponse.meta resp) = None.
Proof.
  intros Hq Hs Hpast.
  eexists. split; [apply getAll_paged_run; assumption|].
  cbn [GetAllTreatmentsResponse.data GetAllTreatmentsResponse.meta
       Pagination.pagedMeta Meta.next_page].
  split.
  - rewrite drop_ge by lia. apply take_nil.
  - pose proof (ceilDiv_lt (effectivePage page)
                  (Z.of_nat (length (listedTreatments contains search (db w))))
                  size Hs) as Hlt.
    destruct (Z.ltb_spec (effectivePage page)
                (Js.ceilDiv (Z.of_nat (length (listedTreatments contains
                                                 search (db w)))) size));
      [nia|reflexivity].
Qed.

Lemma treatments_page_past_the_end_witness :
  ∃ resp,
    TreatmentService.getAll anywhere quiet "7" None (Some 5) clinic
    = (Ok resp, clinic)
    ∧ GetAllTreatmentsResponse.data resp = []
    ∧ Meta.next_page (GetAllTreatmentsResponse.meta resp) = None.
Proof.
  apply (treatments_page_past_the_end anywhere quiet "7" None 5 clinic);
    [reflexivity|lia|vm_compute; discriminate].
Defined.

(** ** Changing the treatment catalog *)

Section CatalogChanges.

Variable validation : TreatmentValidation.t.

Lemma find_filter_out (n : Z) (l : list Treatment.t) :
  List.find (λ t, Treatment.id t =? n)
    (List.filter (λ r, negb (Treatment.id r =? n)) l) = None.
Proof.
  induction l as [|t l IH]; [reflexivity|]. simpl.
  destruct (Treatment.id t =? n) eqn:E; simpl; [exact IH|].
  now rewrite E.
Qed.

Lemma delete_run q id n w t :
  Js.parseInt id None = Some n →
  queryFault q TreatmentDelete = None →
  treatmentById (db w) n = Some t →
  TreatmentService.delete q id w
  = (Ok ("Successfully deleted: " +:+ id),
     mkWorld (set_treatment (List.filter (λ r, negb (Treatment.id r =? n)))
                (db w)) (emitted w)).
Proof.
  intros Hid Hq Hfind. unfold TreatmentService.delete, Prisma.treatment_delete.
  rewrite Hid, Hq. step_m. unfold treatmentById in Hfind. now rewrite Hfind.
Qed.

Lemma delete_missing q id n w :
  Js.parseInt id None = Some n →
  queryFault q TreatmentDelete = None →
  treatmentById (db w) n = None →
  TreatmentService.delete q id w
  = (Throw (HttpException "Data penanganan tidak ditemukan!"
              HttpStatus.NOT_FOUND), w).
Proof.
  intros Hid Hq Hfind. unfold TreatmentService.delete, Prisma.treatment_delete.
  rewrite Hid, Hq. step_m. unfold treatmentById in Hfind. now rewrite Hfind.
Qed.

Lemma update_missing env id n dto w :
  Js.parseInt id None = Some n →
  TreatmentValidation.UPDATE validation dto = true →
  storeFault env TreatmentUpdate = None →
  treatmentById (db w) n = None →
  TreatmentService.update validation env id dto w
  = (Throw (HttpException "Data penanganan tidak ditemukan!"
              HttpStatus.NOT_FOUND), w).
Proof.
  intros Hid Hv Hs Hfind.
  unfold TreatmentService.update, validate, Prisma.treatment_update.
  rewrite Hid, Hv, Hs. step_m. unfold treatmentById in Hfind.
  now rewrite Hfind.
Qed.

End CatalogChanges.



(** X7.  An id that names no treatment is refused by [update] and by
    [delete] with the 404 answer, and an id that is not a number with the
    400 answer; in both cases nothing is changed. *)
Theorem unknown_treatment_id_is_refused (validation : TreatmentValidation.t)
    env q id dto w :
  storeFault env TreatmentUpdate = None →
  queryFault q TreatmentDelete = None →
  TreatmentValidation.UPDATE validation dto = true →
  (∀ n, Js.parseInt id None = Some n → treatmentById (db w) n = None) →
  let answer :=
    match Js.parseInt id None with
    | Some _ => HttpException "Data penanganan tidak ditemukan!"
                  HttpStatus.NOT_FOUND
    | None => HttpException "Invalid ID format" HttpStatus.BAD_REQUEST
    end in
  TreatmentService.update validation env id dto w = (Throw answer, w)
  ∧ TreatmentService.delete q id w = (Throw answer, w).
Proof.
  intros Hs Hq Hv Hmissing.
  destruct (Js.parseInt id None) as [n|] eqn:Hid.
  - specialize (Hmissing n eq_refl). split.
    + now apply update_missing with n.
    + now apply delete_missing with n.
  - unfold TreatmentService.update, TreatmentService.delete.
    rewrite Hid. split; reflexivity.
Qed.

Lemma unknown_treatment_id_is_refused_witness :
  TreatmentService.update acceptAllTreatments (calm 3000) "9"
    (UpdateTreatmentDto.mk None (Some 1)) clinic
  = (Throw (HttpException "Data penanganan tidak ditemukan!"
              HttpStatus.NOT_FOUND), clinic)
  ∧ TreatmentService.delete quiet "9" clinic
    = (Throw (HttpException "Data penanganan tidak ditemukan!"
                HttpStatus.NOT_FOUND), clinic).
Proof.
  apply (unknown_treatment_id_is_refused acceptAllTreatments (calm 3000)
           quiet "9" (UpdateTreatmentDto.mk None (Some 1)) clinic);
    try reflexivity.
  intros n [= <-]. reflexivity.
Defined.

(** X8.  Once a treatment has been deleted its id is gone: a second delete
    and an update of the same id both answer 404 and change nothing. *)
Theorem deleted_treatment_stays_deleted (validation : TreatmentValidation.t)
    env q q' id n dto w t :
  Js.parseInt id None = Some n →
  queryFault q TreatmentDelete = None →
  queryFault q' TreatmentDelete = None →
  storeFault env TreatmentUpdate = None →
  TreatmentValidation.UPDATE validation dto = true →
  treatmentById (db w) n = Some t →
  let w' := (TreatmentService.delete q id w).2 in
  TreatmentService.delete q' id w'
  = (Throw (HttpException "Data penanganan tidak ditemukan!"
              HttpStatus.NOT_FOUND), w')
  ∧ TreatmentService.update validation env id dto w'
    = (Throw (HttpException "Data penanganan tidak ditemukan!"
                HttpStatus.NOT_FOUND), w').
Proof.
  intros Hid Hq Hq' Hs Hv Hfind w'.
  assert (Hgone : treatmentById (db w') n = None).
  { unfold w'. rewrite (delete_run q id n w t Hid Hq Hfind).
    apply find_filter_out. }
  split.
  - now apply delete_missing with n.
  - now apply update_missing with n.
Qed.

Lemma deleted_treatment_stays_deleted_witness :
  let w' := (TreatmentService.delete quiet "1" clinic).2 in
  TreatmentService.delete quiet "1" w'
  = (Throw (HttpException "Data penanganan tidak ditemukan!"
              HttpStatus.NOT_FOUND), w')
  ∧ TreatmentService.update acceptAllTreatments (calm 3000) "1"
      (UpdateTreatmentDto.mk None (Some 1)) w'
    = (Throw (HttpException "Data penanganan tidak ditemukan!"
                HttpStatus.NOT_FOUND), w').
Proof.
  exact (deleted_treatment_stays_deleted acceptAllTreatments (calm 3000)
           quiet quiet "1" 1 (UpdateTreatmentDto.mk None (Some 1)) clinic
           (Treatment.mk 1 "Nebulizer" 50000)
           eq_refl eq_refl eq_refl eq_refl eq_refl eq_refl).
Defined.

(** X9.  A successful catalog update rewrites only the rows with the given
    id: they keep their id, take the name and the price of the request
    where it gives them and keep their own otherwise; every other row, and
    the order of the catalog, stay as they were. *)
Theorem update_rewrites_one_treatment (validation : TreatmentValidation.t)
    env id n dto w t :
  Js.parseInt id None = Some n →
  TreatmentValidation.UPDATE validation dto = true →
  storeFault env TreatmentUpdate = None →
  treatmentById (db w) n = Some t →
  let t' := Treatment.mk (Treatment.id t)
              (default (Treatment.name t) (UpdateTreatmentDto.name dto))
              (default (Treatment.price t) (UpdateTreatmentDto.price dto)) in
  ∃ w',
    TreatmentService.update validation env id dto w = (Ok t', w')
    ∧ treatment (db w')
      = List.map (λ r, if Treatment.id r =? n then t' else r)
                 (treatment (db w))
    ∧ Treatment.id <$> treatment (db w') = Treatment.id <$> treatment (db w)
    ∧ treatmentById (db w') n = Some t'.
Proof.
  intros Hid Hv Hs Hfind t'.
  unfold TreatmentService.update, validate, Prisma.treatment_update.
  rewrite Hid, Hv, Hs. step_m.
  unfold treatmentById in *. rewrite Hfind.
  eexists. split; [reflexivity|].
  unfold set_treatment. cbn [db treatment]. fold t'.
  split; [reflexivity|].
  pose proof (List.find_some _ _ Hfind) as [_ Ht%Z.eqb_eq].
  split.
  - clear Hfind. induction (treatment (db w)) as [|r l IH]; [reflexivity|].
    cbn [List.map fmap list_fmap]. f_equal; [|exact IH].
    destruct (Z.eqb_spec (Treatment.id r) n); [|reflexivity].
    unfold t'. simpl. lia.
  - revert Hfind. induction (treatment (db w)) as [|r l IH]; [discriminate|].
    simpl. destruct (Z.eqb_spec (Treatment.id r) n) as [E|E].
    + intros _. unfold t' at 1. simpl. now rewrite Ht, Z.eqb_refl.
    + intros Hf. destruct (Z.eqb_spec (Treatment.id r) n); [lia|].
      now apply IH.
Qed.

Lemma update_rewrites_one_treatment_witness :
  ∃ w',
    TreatmentService.update acceptAllTreatments (calm 3000) "1"
      (UpdateTreatmentDto.mk None (Some 75000)) clinic
    = (Ok (Treatment.mk 1 "Nebulizer" 75000), w')
    ∧ treatment (db w')
      = [Treatment.mk 1 "Nebulizer" 75000; Treatment.mk 2 "Suture" 120000].
Proof.
  destruct (update_rewrites_one_treatment acceptAllTreatments (calm 3000)
              "1" 1 (UpdateTreatmentDto.mk None (Some 75000)) clinic
              (Treatment.mk 1 "Nebulizer" 50000)
              eq_refl eq_refl eq_refl eq_refl)
    as (w' & Hrun & Hrows & _).
  exists w'. split; [exact Hrun|exact Hrows].
Defined.

(** ** What the queue endpoints do to the store, whatever happens *)

Section Effects.

Variable validation : QueueValidation.t.

Lemma resolvePatientId_effect env request w :
  let w1 := (QueueService.resolvePatientId env request w).2 in
  careSession (db w1) = careSession (db w)
  ∧ nextCareSessionId (db w1) = nextCareSessionId (db w)
  ∧ emitted w1 = emitted w
  ∧ patientsGrew (db w) (db w1).
Proof.
  unfold QueueService.resolvePatientId, patientsGrew.
  destruct (AddQueueDto.patient_data request) as [pd|];
    [destruct (QueueService.noPatientId _)|]; cbn; try tauto.
  unfold Prisma.patient_create.
  destruct (storeFault env PatientCreate); cbn; [tauto|].
  repeat split; try reflexivity. right. now exists pd.
Qed.

(** [add] leaves the sessions on record alone and appends at most one. *)
Lemma add_effect env dto w :
  let w' := (QueueService.add validation env dto w).2 in
  patientsGrew (db w) (db w')
  ∧ ((careSession (db w') = careSession (db w)
      ∧ nextCareSessionId (db w') = nextCareSessionId (db w))
     ∨ (∃ s, careSession (db w') = careSession (db w) ++ [s]
             ∧ CareSession.id s = nextCareSessionId (db w)
             ∧ nextCareSessionId (db w') = nextCareSessionId (db w) + 1
             ∧ CareSession.created_at s = now env
             ∧ CareSession.status s = WAITING_CONSULTATION
             ∧ countOnDayOf (now env) (db w) < 999
             ∧ CareSession.queue_number s
               = specQueueLabel (countOnDayOf (now env) (db w) + 1))).
Proof.
  unfold QueueService.add, validate.
  destruct (QueueValidation.ADD validation dto);
    [|cbn; split; [left|left]; done].
  step_m.
  pose proof (resolvePatientId_effect env dto w) as (Hcs & Hnext & _ & Hpat).
  destruct (QueueService.resolvePatientId env dto w) as [[pid|e] w1];
    cbn [snd] in *; [|cbn; split; [exact Hpat|left; done]].
  unfold QueueService.generateQueueNumber, Prisma.careSession_count.
  destruct (storeFault env CareSessionCount);
    [cbn; split; [exact Hpat|left; done]|].
  step_m. fold (createdOnDayOf (now env) (db w1)).
  fold (countOnDayOf (now env) (db w1)).
  rewrite (countOnDayOf_ext _ (db w1) (db w)) by exact Hcs.
  destruct (Z.ltb_spec 999 (countOnDayOf (now env) (db w) + 1));
    [cbn; split; [exact Hpat|left; done]|].
  unfold Prisma.careSession_create.
  destruct (storeFault env CareSessionCreate);
    [cbn; split; [exact Hpat|left; done]|].
  step_m.
  match goal with
  | |- context [QueueService.getWaitingQueuesData env ?w2] =>
      pose proof (getWaitingQueuesData_reads env w2) as Hread;
      destruct (QueueService.getWaitingQueuesData env w2) as [[q|e] w3];
      cbn [snd] in Hread; subst w3
  end.
  - unfold QueueGateway.emitWaitingQueueUpdate, QueueGateway.emit.
    destruct (emitFault env WaitingQueue); cbn;
      (split; [exact Hpat|right]); eexists;
      (split; [now rewrite Hcs|]); rewrite Hnext;
      (repeat split; try reflexivity; try lia);
      apply queueLabel_padded; unfold countOnDayOf in *; lia.
  - cbn. split; [exact Hpat|right]. eexists.
    split; [now rewrite Hcs|]. rewrite Hnext.
    repeat split; try reflexivity; try lia.
    apply queueLabel_padded. unfold countOnDayOf in *. lia.
Qed.

End Effects.

Section UpdateEffects.

Variable validation : QueueValidation.t.

Lemma assignMedicalRecordNumber_effect env request s po w :
  let w2 := (QueueService.assignMedicalRecordNumber env request (s, po) w).2 in
  careSession (db w2) = careSession (db w)
  ∧ nextCareSessionId (db w2) = nextCareSessionId (db w)
  ∧ nextPatientId (db w2) = nextPatientId (db w)
  ∧ (patient (db w2) = patient (db w)
     ∨ ∃ p pid,
         po = Some p
         ∧ Js.truthy (Patient.medical_record_number p) = false
         ∧ UpdateQueueDto.status request = Some COMPLETED
         ∧ CareSession.patient_id s = Some pid
         ∧ is_Some (patientById (db w) pid)
         ∧ patient (db w2)
           = List.map
               (λ q, if Patient.id q =? pid
                     then Patient.set_medical_record_number
                            (Some (QueueService.formatMedicalRecordNumber
                                     (QueueService.nextMedicalRecordNumber
                                        (Prisma.greatest
                                           (assignedNumbers (db w)))))) q
                     else q)
               (patient (db w))).
Proof.
  unfold QueueService.assignMedicalRecordNumber,
    QueueService.needsMedicalRecordNumber.
  cbn [fst snd].
  destruct (bool_decide (UpdateQueueDto.status request = Some COMPLETED))
    eqn:Hst; [|cbn; tauto].
  apply bool_decide_eq_true_1 in Hst.
  destruct po as [p|]; [|cbn; tauto].
  destruct (Js.truthy (Patient.medical_record_number p)) eqn:Hp;
    [cbn; tauto|].
  cbn [andb negb].
  unfold Prisma.patient_findFirst_lastMr, Prisma.patient_update.
  destruct (storeFault env PatientFindFirst); [cbn; tauto|].
  step_m.
  destruct (CareSession.patient_id s) as [pid|]; [|cbn; tauto].
  destruct (storeFault env PatientUpdate); [cbn; tauto|].
  step_m.
  destruct (List.find _ (patient (db w))) as [p0|] eqn:Hfind; [|cbn; tauto].
  cbn. repeat split; try reflexivity.
  right. exists p, pid. repeat split; try done;
    try (unfold patientById; now exists p0).
Qed.

(** [update] rewrites the sessions with the given id, on a store whose
    session ids are distinct the one session, and may give its patient a
    number; everything else in the two tables is kept. *)
Lemma update_effect env id dto w :
  let w' := (QueueService.update validation env id dto w).2 in
  nextCareSessionId (db w') = nextCareSessionId (db w)
  ∧ nextPatientId (db w') = nextPatientId (db w)
  ∧ ((careSession (db w') = careSession (db w)
      ∧ patient (db w') = patient (db w))
     ∨ ∃ n s,
         Js.parseInt id None = Some n
         ∧ sessionById (db w) n = Some s
         ∧ careSession (db w')
           = List.map (λ r, if CareSession.id r =? n
                            then Prisma.applyUpdate (now env) dto s else r)
                      (careSession (db w))
         ∧ (patient (db w') = patient (db w)
            ∨ ∃ p pid,
                Js.truthy (Patient.medical_record_number p) = false
                ∧ CareSession.patient_id s = Some pid
                ∧ patientById (db w) pid = Some p
                ∧ patient (db w')
                  = List.map
                      (λ q, if Patient.id q =? pid
                            then Patient.set_medical_record_number
                                   (Some (QueueService.formatMedicalRecordNumber
                                      (QueueService.nextMedicalRecordNumber
                                         (Prisma.greatest
                                            (assignedNumbers (db w)))))) q
                            else q)
                      (patient (db w)))).
Proof.
  unfold QueueService.update.
  destruct (Js.parseInt id None) as [n|]; [|cbn; tauto].
  unfold validate.
  destruct (QueueValidation.UPDATE validation dto); [|cbn; tauto].
  step_m. unfold Prisma.careSession_update.
  destruct (storeFault env CareSessionUpdate) as [e|].
  { step_m. destruct (bool_decide (code e = Some "P2025")); cbn; tauto. }
  step_m.
  destruct (List.find _ (careSession (db w))) as [s|] eqn:Hfind;
    [|cbn; tauto].
  step_m.
  set (s' := Prisma.applyUpdate (now env) dto s).
  set (w1 := mkWorld _ (emitted w)).
  pose proof (assignMedicalRecordNumber_effect env dto s'
                (Prisma.joinPatient (db w) s') w1)
    as (Hcs & Hn1 & Hn2 & Hpat).
  assert (Hfinal :
    ∀ w2, db w2 = db (QueueService.assignMedicalRecordNumber env dto
                        (s', Prisma.joinPatient (db w) s') w1).2 →
      nextCareSessionId (db w2) = nextCareSessionId (db w)
      ∧ nextPatientId (db w2) = nextPatientId (db w)
      ∧ ((careSession (db w2) = careSession (db w)
          ∧ patient (db w2) = patient (db w))
         ∨ ∃ n0 s0,
             Some n = Some n0
             ∧ sessionById (db w) n0 = Some s0
             ∧ careSession (db w2)
               = List.map (λ r, if CareSession.id r =? n0
                                then Prisma.applyUpdate (now env) dto s0
                                else r)
                          (careSession (db w))
             ∧ (patient (db w2) = patient (db w)
                ∨ ∃ p pid,
                    Js.truthy (Patient.medical_record_number p) = false
                    ∧ CareSession.patient_id s0 = Some pid
                    ∧ patientById (db w) pid = Some p
                    ∧ patient (db w2)
                      = List.map
                          (λ q, if Patient.id q =? pid
                                then Patient.set_medical_record_number
                                       (Some (QueueService.formatMedicalRecordNumber
                                          (QueueService.nextMedicalRecordNumber
                                             (Prisma.greatest
                                                (assignedNumbers (db w)))))) q
                                else q)
                          (patient (db w))))).
  { intros w2 ->. rewrite Hn1, Hn2. split; [reflexivity|].
    split; [reflexivity|]. right. exists n, s.
    split; [reflexivity|]. split; [exact Hfind|].
    split; [rewrite Hcs; reflexivity|].
    destruct Hpat as [->|(p & pid & Hjoin & Hp & _ & Hpid & _ & ->)];
      [now left|].
    right. exists p, pid. split; [exact Hp|].
    unfold Prisma.joinPatient in Hjoin. rewrite Hpid in Hjoin.
    change (CareSession.patient_id s') with (CareSession.patient_id s)
      in Hpid.
    repeat split; try done. }
  destruct (QueueService.assignMedicalRecordNumber env dto
              (s', Prisma.joinPatient (db w) s') w1) as [[[]|e] w2];
    cbn [snd] in Hfinal.
  2: { destruct (bool_decide (code e = Some "P2025")); cbn [snd];
       now apply Hfinal. }
  pose proof (getWaitingQueuesData_reads env w2) as Hread.
  destruct (QueueService.getWaitingQueuesData env w2) as [[q|e] w3];
    cbn [snd] in Hread; subst w3.
  2: { destruct (bool_decide (code e = Some "P2025")); cbn [snd];
       now apply Hfinal. }
  unfold QueueGateway.emitWaitingQueueUpdate,
    QueueGateway.emitCalledQueueUpdate, QueueGateway.emit.
  destruct (emitFault env WaitingQueue) as [e|].
  { destruct (bool_decide (code e = Some "P2025")); cbn [snd];
      now apply Hfinal. }
  destruct (bool_decide (CareSession.status (s', _).1 = IN_CONSULTATION)).
  - destruct (emitFault env CalledQueue) as [e|].
    + destruct (bool_decide (code e = Some "P2025")); cbn [snd];
        now apply Hfinal.
    + cbn [snd]. now apply Hfinal.
  - cbn [snd]. now apply Hfinal.
Qed.

End UpdateEffects.

(** ** Invariants of the session table *)

Section SessionInvariants.

Variable validation : QueueValidation.t.

Lemma in_day_iff x t :
  DateFns.startOfDay t ≤ x ≤ DateFns.endOfDay t
  ↔ DateFns.startOfDay x = DateFns.startOfDay t.
Proof.
  unfold DateFns.endOfDay, DateFns.startOfDay, DateFns.msPerDay.
  split; intros H; Z.div_mod_to_equations; lia.
Qed.

Lemma find_session_unique (l : list CareSession.t) n s r :
  NoDup (CareSession.id <$> l) →
  List.find (λ x, CareSession.id x =? n) l = Some s →
  r ∈ l → CareSession.id r = n → r = s.
Proof.
  induction l as [|a l IH]; intros Hnd Hfind Hr Hid; [discriminate|].
  rewrite fmap_cons in Hnd. apply NoDup_cons in Hnd as [Ha Hnd].
  simpl in Hfind. destruct (Z.eqb_spec (CareSession.id a) n) as [E|E].
  - injection Hfind as <-.
    apply elem_of_cons in Hr as [->|Hr]; [reflexivity|].
    exfalso. apply Ha. rewrite E, <- Hid.
    apply list_elem_of_fmap. now exists r.
  - apply elem_of_cons in Hr as [->|Hr]; [contradiction|].
    now apply IH.
Qed.

(** With distinct ids the rewrite of [update] is row by row. *)
Lemma update_map_self (l : list CareSession.t) n s t dto :
  NoDup (CareSession.id <$> l) →
  List.find (λ x, CareSession.id x =? n) l = Some s →
  List.map (λ r, if CareSession.id r =? n
                 then Prisma.applyUpdate t dto s else r) l
  = List.map (λ r, if CareSession.id r =? n
                   then Prisma.applyUpdate t dto r else r) l.
Proof.
  intros Hnd Hfind. apply map_ext_in. intros r Hr%list_elem_of_In.
  destruct (Z.eqb_spec (CareSession.id r) n) as [E|_]; [|reflexivity].
  now rewrite (find_session_unique l n s r Hnd Hfind Hr E).
Qed.

Lemma touch_created_at t dto n r :
  CareSession.created_at (touch t dto n r) = CareSession.created_at r.
Proof. unfold touch. now destruct (_ =? _). Qed.

Lemma touch_queue_number t dto n r :
  CareSession.queue_number (touch t dto n r) = CareSession.queue_number r.
Proof. unfold touch. now destruct (_ =? _). Qed.

Lemma touch_id t dto n r :
  CareSession.id (touch t dto n r) = CareSession.id r.
Proof. unfold touch. now destruct (_ =? _). Qed.

Lemma touched_day_numbers t dto n day (l : list CareSession.t) :
  CareSession.queue_number <$>
    filter (λ s, DateFns.startOfDay day ≤ CareSession.created_at s
                 ∧ CareSession.created_at s ≤ DateFns.endOfDay day)
           (List.map (touch t dto n) l)
  = CareSession.queue_number <$>
    filter (λ s, DateFns.startOfDay day ≤ CareSession.created_at s
                 ∧ CareSession.created_at s ≤ DateFns.endOfDay day) l.
Proof.
  induction l as [|r l IH]; [reflexivity|].
  cbn [List.map]. rewrite !filter_cons, touch_created_at.
  destruct (decide _); [|exact IH].
  rewrite !fmap_cons, touch_queue_number. now f_equal.
Qed.

Lemma dayNumbered_ext d d' :
  (∀ day, CareSession.queue_number <$> createdOnDayOf day d'
          = CareSession.queue_number <$> createdOnDayOf day d) →
  dayNumbered d → dayNumbered d'.
Proof.
  intros Hsame Hd day. destruct (Hd day) as [Hle Hnum].
  assert (Hc : countOnDayOf day d' = countOnDayOf day d).
  { unfold countOnDayOf.
    rewrite <- (length_fmap CareSession.queue_number (createdOnDayOf day d')).
    rewrite Hsame. now rewrite length_fmap. }
  rewrite Hc, Hsame. split; assumption.
Qed.

Lemma add_keeps_invariants env dto w :
  sessionIdsFresh (db w) → dayNumbered (db w) →
  let w' := (QueueService.add validation env dto w).2 in
  sessionIdsFresh (db w') ∧ dayNumbered (db w').
Proof.
  intros [Hnd Hlt] Hday w'.
  destruct (add_effect validation env dto w) as [_ Heff]. fold w' in Heff.
  destruct Heff as [[Hcs Hnext]|(s & Hcs & Hid & Hnext & Hat & _ & Hroom & Hq)].
  - split.
    + unfold sessionIdsFresh. now rewrite Hcs, Hnext.
    + apply (dayNumbered_ext (db w)); [|exact Hday].
      intros day. unfold createdOnDayOf. now rewrite Hcs.
  - split.
    + unfold sessionIdsFresh. rewrite Hcs, Hnext, fmap_app. split.
      * apply NoDup_app. split; [exact Hnd|]. split; [|apply NoDup_singleton].
        intros x Hx ->%list_elem_of_singleton.
        apply list_elem_of_fmap in Hx as (r & Hr & Hin).
        rewrite Forall_forall in Hlt. specialize (Hlt r Hin). lia.
      * apply Forall_app. split.
        -- eapply Forall_impl; [exact Hlt|]. intros r Hr. simpl in Hr. lia.
        -- constructor; [lia|constructor].
    + intros day. destruct (Hday day) as [Hle Hnum].
      destruct (decide (DateFns.startOfDay (now env) = DateFns.startOfDay day))
        as [Hsame|Hother].
      * assert (Hc : countOnDayOf (now env) (db w) = countOnDayOf day (db w)).
        { unfold countOnDayOf.
          now rewrite (createdOnDayOf_same_day (now env) day). }
        assert (Hc' : countOnDayOf day (db w') = countOnDayOf day (db w) + 1).
        { apply (countOnDayOf_snoc day (db w) (db w') s Hcs).
          now rewrite Hat. }
        rewrite Hc'. split; [lia|].
        unfold createdOnDayOf in *. rewrite Hcs, filter_app, fmap_app.
        rewrite filter_cons_True
          by (rewrite Hat; apply in_day_iff; exact Hsame).
        rewrite Hnum. unfold countOnDayOf in *.
        rewrite seqZ_app by lia. rewrite fmap_app. f_equal.
        cbn. rewrite Hq, Hc.
        rewrite (seqZ_cons _ 1), seqZ_nil by lia. cbn.
        do 2 f_equal. lia.
      * assert (Hout : ¬ (DateFns.startOfDay day ≤ CareSession.created_at s
                          ∧ CareSession.created_at s ≤ DateFns.endOfDay day)).
        { intros Hin. apply Hother. rewrite <- Hat.
          now apply in_day_iff. }
        unfold countOnDayOf, createdOnDayOf in *.
        rewrite Hcs, filter_app. rewrite (filter_cons_False _ s) by exact Hout.
        rewrite filter_nil, app_nil_r. split; assumption.
Qed.

Lemma update_keeps_invariants env id dto w :
  sessionIdsFresh (db w) → dayNumbered (db w) →
  let w' := (QueueService.update validation env id dto w).2 in
  sessionIdsFresh (db w') ∧ dayNumbered (db w').
Proof.
  intros [Hnd Hlt] Hday w'.
  destruct (update_effect validation env id dto w) as (Hnext & _ & Heff).
  fold w' in Hnext, Heff.
  destruct Heff as [[Hcs _]|(n & s & _ & Hfind & Hcs & _)].
  - split.
    + unfold sessionIdsFresh. now rewrite Hcs, Hnext.
    + apply (dayNumbered_ext (db w)); [|exact Hday].
      intros day. unfold createdOnDayOf. now rewrite Hcs.
  - unfold sessionById in Hfind.
    rewrite (update_map_self _ n s (now env) dto Hnd Hfind) in Hcs.
    fold (touch (now env) dto n) in Hcs.
    assert (Hids : CareSession.id <$> careSession (db w')
                   = CareSession.id <$> careSession (db w)).
    { rewrite Hcs. clear. induction (careSession (db w)) as [|r l IH];
        [reflexivity|]. cbn [List.map]. rewrite !fmap_cons, touch_id.
      now f_equal. }
    split.
    + unfold sessionIdsFresh. rewrite Hids, Hnext. split; [exact Hnd|].
      rewrite Hcs. clear -Hlt.
      induction Hlt as [|r l Hr Hl IH]; cbn [List.map]; constructor;
        [now rewrite touch_id|exact IH].
    + apply (dayNumbered_ext (db w)); [|exact Hday].
      intros day. unfold createdOnDayOf. rewrite Hcs.
      apply touched_day_numbers.
Qed.

Lemma clocked_add_within_one_day env r dto w :
  withinOneDay r = true →
  Clocked.add validation env r dto w
  = QueueService.add validation (clockAt (atInsert r) env) dto w.
Proof.
  unfold withinOneDay. intros [Hs%Z.eqb_eq He%Z.eqb_eq]%andb_true_iff.
  unfold Clocked.add, QueueService.add, Clocked.generateQueueNumber,
    QueueService.generateQueueNumber, DateFns.endOfDay.
  cbn [now clockAt]. rewrite Hs, He. reflexivity.
Qed.

End SessionInvariants.

(** X10.  Session ids stay pairwise distinct, and on every day the
    sessions created that day stay numbered U001, U002, ... in order of
    creation, through any sequence of [add] and [update] calls in which
    every [add] takes its two clock readings and gets its creation stamp
    within one day, whatever the requests and the failures of store and
    gateway.  In particular no two sessions of one day then share a queue
    number.  An [add] that counts before midnight and is stamped after it
    breaks the numbering of the new day. *)
Theorem queue_store_invariants (validation : QueueValidation.t) calls :
  forallb servedWithinOneDay calls = true →
  ∀ w,
    sessionIdsFresh (db w) → dayNumbered (db w) →
    let w' := runClockedCalls validation calls w in
    sessionIdsFresh (db w')
    ∧ dayNumbered (db w')
    ∧ ∀ day, NoDup (CareSession.queue_number <$> createdOnDayOf day (db w')).
Proof.
  induction calls as [|[env r dto|env id dto] calls IH];
    cbn [forallb servedWithinOneDay]; intros Hdays w Hfresh Hday.
  - cbn. split; [exact Hfresh|]. split; [exact Hday|].
    intros day. destruct (Hday day) as [Hle ->].
    apply specQueueLabel_NoDup. unfold countOnDayOf in *. lia.
  - apply andb_true_iff in Hdays as [Hr Hdays]. cbn [runClockedCalls].
    rewrite (clocked_add_within_one_day validation env r dto w Hr).
    destruct (add_keeps_invariants validation (clockAt (atInsert r) env)
                dto w Hfresh Hday).
    now apply IH.
  - cbn [andb] in Hdays. cbn [runClockedCalls].
    destruct (update_keeps_invariants validation env id dto w Hfresh Hday).
    now apply IH.
Qed.

Lemma queue_store_invariants_witness :
  forallb servedWithinOneDay busyMorningClocked = true
  ∧ sessionIdsFresh (db emptyWorld) ∧ dayNumbered (db emptyWorld)
  ∧ let w' := runClockedCalls acceptAll busyMorningClocked emptyWorld in
    sessionIdsFresh (db w')
    ∧ dayNumbered (db w')
    ∧ ∀ day, NoDup (CareSession.queue_number <$> createdOnDayOf day (db w')).
Proof.
  assert (Hfresh : sessionIdsFresh (db emptyWorld)).
  { split; constructor. }
  assert (Hday : dayNumbered (db emptyWorld)).
  { intros day. split; [vm_compute; discriminate|reflexivity]. }
  split; [reflexivity|]. split; [exact Hfresh|]. split; [exact Hday|].
  exact (queue_store_invariants acceptAll busyMorningClocked eq_refl
           emptyWorld Hfresh Hday).
Defined.

Example busyMorningClocked_numbers :
  (λ s, (CareSession.id s, CareSession.queue_number s,
         CareSession.created_at s))
  <$> careSession (db (runClockedCalls acceptAll busyMorningClocked emptyWorld))
  = [(1, "U001", 1000); (2, "U002", 2003); (3, "U001", 90000000)].
Proof. vm_compute. reflexivity. Qed.

(** Across midnight the count is of the old day and the stamp of the new
    one: the new day opens with U002 and hands U002 out again. *)
Example midnight_straddle_repeats_a_number :
  forallb servedWithinOneDay overMidnight = false
  ∧ CareSession.queue_number <$>
    createdOnDayOf 86400000
      (db (runClockedCalls acceptAll overMidnight emptyWorld))
    = ["U002"; "U002"].
Proof. vm_compute. split; reflexivity. Qed.

Example busyMorning_numbers :
  (λ s, (CareSession.id s, CareSession.queue_number s, CareSession.status s))
  <$> careSession (db (runCalls acceptAll busyMorning emptyWorld))
  = [(1, "U001", COMPLETED); (2, "U002", WAITING_CONSULTATION);
     (3, "U001", WAITING_CONSULTATION)].
Proof. vm_compute. reflexivity. Qed.

(** X11.  On a store with distinct session ids an [update], however it
    ends, leaves the session table row for row in place: every row keeps
    its id, queue number, creation time and patient, and a row whose id is
    not the one the call names is not changed at all. *)
Theorem update_touches_one_session (validation : QueueValidation.t)
    env id dto w :
  NoDup (CareSession.id <$> careSession (db w)) →
  let w' := (QueueService.update validation env id dto w).2 in
  Forall2
    (λ r r',
       CareSession.id r' = CareSession.id r
       ∧ CareSession.queue_number r' = CareSession.queue_number r
       ∧ CareSession.created_at r' = CareSession.created_at r
       ∧ CareSession.patient_id r' = CareSession.patient_id r
       ∧ (Js.parseInt id None ≠ Some (CareSession.id r) → r' = r))
    (careSession (db w)) (careSession (db w')).
Proof.
  intros Hnd w'.
  destruct (update_effect validation env id dto w) as (_ & _ & Heff).
  fold w' in Heff.
  destruct Heff as [[-> _]|(n & s & Hid & Hfind & -> & _)].
  - apply Forall_Forall2_diag, Forall_forall. intros r _. done.
  - unfold sessionById in Hfind.
    rewrite (update_map_self _ n s (now env) dto Hnd Hfind).
    apply Forall2_fmap_r, Forall_Forall2_diag, Forall_forall.
    intros r _. rewrite Hid. unfold compose.
    destruct (Z.eqb_spec (CareSession.id r) n) as [E|E].
    + repeat split; try reflexivity. intros Hne. congruence.
    + repeat split; reflexivity.
Qed.

Lemma update_touches_one_session_witness :
  let w' := (QueueService.update acceptAll (calm 5000) "3"
               (setStatus IN_CONSULTATION) mixedQueue).2 in
  Forall2
    (λ r r',
       CareSession.id r' = CareSession.id r
       ∧ CareSession.queue_number r' = CareSession.queue_number r
       ∧ CareSession.created_at r' = CareSession.created_at r
       ∧ CareSession.patient_id r' = CareSession.patient_id r
       ∧ (Js.parseInt "3" None ≠ Some (CareSession.id r) → r' = r))
    (careSession (db mixedQueue)) (careSession (db w')).
Proof.
  apply (update_touches_one_session acceptAll (calm 5000) "3"
           (setStatus IN_CONSULTATION) mixedQueue).
  apply (bool_decide_unpack _). vm_compute. exact I.
Defined.

Section Acceptance.

Variable validation : QueueValidation.t.

Lemma assignMedicalRecordNumber_ok env dto s' d w1 :
  storeFault env PatientFindFirst = None →
  storeFault env PatientUpdate = None →
  patient (db w1) = patient d →
  ∃ w2,
    QueueService.assignMedicalRecordNumber env dto
      (s', Prisma.joinPatient d s') w1 = (Ok tt, w2)
    ∧ emitted w2 = emitted w1
    ∧ careSession (db w2) = careSession (db w1).
Proof.
  intros Hf Hu Hpat.
  destruct (bool_decide (UpdateQueueDto.status dto = Some COMPLETED))
    eqn:Hst.
  2: { exists w1. unfold QueueService.assignMedicalRecordNumber,
         QueueService.needsMedicalRecordNumber. now rewrite Hst. }
  apply bool_decide_eq_true_1 in Hst.
  destruct (Prisma.joinPatient d s') as [p|] eqn:Hjoin.
  2: { exists w1. unfold QueueService.assignMedicalRecordNumber,
         QueueService.needsMedicalRecordNumber. cbn [snd].
       now rewrite andb_false_r. }
  destruct (Js.truthy (Patient.medical_record_number p)) eqn:Hp.
  { exists w1. split; [|done].
    now apply assignMedicalRecordNumber_skip. }
  unfold Prisma.joinPatient in Hjoin.
  destruct (CareSession.patient_id s') as [pid|] eqn:Hpid; [|discriminate].
  destruct (assignMedicalRecordNumber_run env dto s' p pid w1)
    as (w2 & Hrun & _ & Hcs & Hem); try done.
  { unfold patientById. rewrite Hpat. now exists p. }
  exists w2. done.
Qed.

(** A valid request for a session on record succeeds when store and
    gateway work, whatever status the session has and whatever status is
    asked for. *)
Lemma update_accepted env id n dto w s :
  noFaults env →
  Js.parseInt id None = Some n →
  QueueValidation.UPDATE validation dto = true →
  sessionById (db w) n = Some s →
  ∃ po w' snapshot,
    QueueService.update validation env id dto w
    = (Ok (Prisma.applyUpdate (now env) dto s, po), w')
    ∧ careSession (db w')
      = List.map (λ r, if CareSession.id r =? n
                       then Prisma.applyUpdate (now env) dto s else r)
                 (careSession (db w))
    ∧ emitted w'
      = emitted w ++ WaitingQueueUpdate snapshot ::
        (if bool_decide (CareSession.status
                           (Prisma.applyUpdate (now env) dto s)
                         = IN_CONSULTATION)
         then [CalledQueueUpdate (CareSession.id s)
                 (CareSession.queue_number s)]
         else []).
Proof.
  intros [Hs He] Hid Hv Hfind.
  destruct (careSession_update_run env n dto w s (Hs _) Hfind)
    as (w1 & E1 & Hpat1 & Hem1).
  destruct (assignMedicalRecordNumber_ok env dto
              (Prisma.applyUpdate (now env) dto s) (db w) w1
              (Hs _) (Hs _) Hpat1) as (w2 & E2 & Hem2 & Hcs2).
  destruct (update_run validation env id n dto w _ w1 w2 Hid Hv E1 E2
              (Hs _) He) as (w' & Hrun & Hdb).
  destruct (update_ok_inv validation env id dto w _ w' Hrun)
    as (n' & w1' & w2' & Hid' & _ & E1' & E2' & _ & snapshot & _ & Hem).
  rewrite Hid in Hid'. injection Hid' as <-.
  rewrite E1 in E1'. injection E1' as <-.
  rewrite E2 in E2'. injection E2' as <-.
  eexists _, w', snapshot. split; [exact Hrun|]. split.
  - rewrite Hdb, Hcs2. clear -E1 Hs Hfind.
    unfold Prisma.careSession_update in E1. rewrite Hs in E1.
    revert E1. step_m. unfold sessionById in Hfind. rewrite Hfind.
    intros [= <-]. reflexivity.
  - rewrite Hem, Hem2, Hem1. reflexivity.
Qed.

Lemma find_map_replace (l : list CareSession.t) n s s' :
  List.find (λ x, CareSession.id x =? n) l = Some s →
  CareSession.id s' = n →
  List.find (λ x, CareSession.id x =? n)
    (List.map (λ r, if CareSession.id r =? n then s' else r) l)
  = Some s'.
Proof.
  intros Hfind Hn.
  induction l as [|r l IH]; [discriminate|].
  simpl in *. destruct (Z.eqb_spec (CareSession.id r) n) as [E|E].
  - now rewrite Hn, Z.eqb_refl.
  - destruct (Z.eqb_spec (CareSession.id r) n); [lia|]. now apply IH.
Qed.

End Acceptance.

(** X12.  The engine accepts every transition: for a session on record
    and a request that passes validation, with store and gateway working,
    [update] succeeds from any current status to any requested status; the
    returned session has the requested status, or its old one when the
    request names none. *)
Theorem any_transition_is_accepted (validation : QueueValidation.t)
    env id n dto w s :
  noFaults env →
  Js.parseInt id None = Some n →
  QueueValidation.UPDATE validation dto = true →
  sessionById (db w) n = Some s →
  ∃ res w',
    QueueService.update validation env id dto w = (Ok res, w')
    ∧ CareSession.id res.1 = CareSession.id s
    ∧ CareSession.status res.1
      = default (CareSession.status s) (UpdateQueueDto.status dto)
    ∧ sessionById (db w') n = Some res.1.
Proof.
  intros Hnf Hid Hv Hfind.
  destruct (update_accepted validation env id n dto w s Hnf Hid Hv Hfind)
    as (po & w' & snapshot & Hrun & Hcs & _).
  eexists _, w'. split; [exact Hrun|]. cbn [fst].
  split; [reflexivity|]. split; [reflexivity|].
  unfold sessionById in *. rewrite Hcs.
  apply (find_map_replace _ n s); [exact Hfind|].
  now pose proof (List.find_some _ _ Hfind) as [_ Hn%Z.eqb_eq].
Qed.

Lemma any_transition_is_accepted_witness :
  ∃ res w',
    QueueService.update acceptAll (calm 5000) "2"
      (setStatus WAITING_CONSULTATION) mixedQueue = (Ok res, w')
    ∧ CareSession.id res.1 = 2
    ∧ CareSession.status res.1 = WAITING_CONSULTATION
    ∧ sessionById (db w') 2 = Some res.1.
Proof.
  apply (any_transition_is_accepted acceptAll (calm 5000) "2" 2
           (setStatus WAITING_CONSULTATION) mixedQueue
           (CareSession.mk 2 IN_CONSULTATION "U002" "cough" None
              "dr-1" 2 (Some 2) 2000 2500));
    try reflexivity.
  split; intros ?; reflexivity.
Defined.

(** X13.  Any successful [update] of a session that is in consultation and
    stays so, for instance one that only records a diagnosis, announces the
    session again: after the waiting-queue publish it publishes the
    called-queue event with the session's id and queue number. *)
Theorem edit_in_consultation_reannounces (validation : QueueValidation.t)
    env id n dto w s :
  noFaults env →
  Js.parseInt id None = Some n →
  QueueValidation.UPDATE validation dto = true →
  sessionById (db w) n = Some s →
  CareSession.status s = IN_CONSULTATION →
  UpdateQueueDto.status dto = None →
  ∃ res w' snapshot,
    QueueService.update validation env id dto w = (Ok res, w')
    ∧ emitted w'
      = emitted w ++ [WaitingQueueUpdate snapshot;
                      CalledQueueUpdate (CareSession.id s)
                        (CareSession.queue_number s)].
Proof.
  intros Hnf Hid Hv Hfind Hst Hdto.
  destruct (update_accepted validation env id n dto w s Hnf Hid Hv Hfind)
    as (po & w' & snapshot & Hrun & _ & Hem).
  eexists _, w', snapshot. split; [exact Hrun|].
  rewrite Hem. cbn [Prisma.applyUpdate CareSession.status].
  rewrite Hdto. cbn [default].
  now rewrite bool_decide_eq_true_2 by exact Hst.
Qed.

Lemma edit_in_consultation_reannounces_witness :
  ∃ res w' snapshot,
    QueueService.update acceptAll (calm 5000) "2" (noteDiagnosis "flu")
      mixedQueue = (Ok res, w')
    ∧ emitted w'
      = emitted mixedQueue ++ [WaitingQueueUpdate snapshot;
                               CalledQueueUpdate 2 "U002"].
Proof.
  apply (edit_in_consultation_reannounces acceptAll (calm 5000) "2" 2
           (noteDiagnosis "flu") mixedQueue
           (CareSession.mk 2 IN_CONSULTATION "U002" "cough" None
              "dr-1" 2 (Some 2) 2000 2500));
    try reflexivity.
  split; intros ?; reflexivity.
Defined.

Section AddPublishes.

Variable validation : QueueValidation.t.

Lemma add_ok_inv env dto w s w' :
  QueueService.add validation env dto w = (Ok s, w') →
  careSession (db w') = careSession (db w) ++ [s]
  ∧ CareSession.status s = WAITING_CONSULTATION
  ∧ CareSession.doctor_id s = AddQueueDto.doctor_id dto
  ∧ CareSession.id s = nextCareSessionId (db w)
  ∧ emitted w'
    = emitted w ++
      [WaitingQueueUpdate
         (QueueService.toWaitingQueueDetail <$>
          merge_sort Prisma.createdBefore
            (filter (λ r, CareSession.status r = WAITING_CONSULTATION)
                    (careSession (db w'))))].
Proof.
  unfold QueueService.add, validate.
  destruct (QueueValidation.ADD validation dto); [|discriminate].
  step_m.
  pose proof (resolvePatientId_effect env dto w) as (Hcs & Hnext & Hem & _).
  destruct (QueueService.resolvePatientId env dto w) as [[pid|e] w1];
    cbn [snd] in *; [|discriminate].
  unfold QueueService.generateQueueNumber, Prisma.careSession_count.
  destruct (storeFault env CareSessionCount); [discriminate|].
  step_m.
  destruct (999 <? _); [discriminate|].
  unfold Prisma.careSession_create.
  destruct (storeFault env CareSessionCreate); [discriminate|].
  step_m.
  unfold QueueService.getWaitingQueuesData, Prisma.careSession_findMany.
  destruct (storeFault env CareSessionFindMany); [discriminate|].
  step_m.
  unfold QueueGateway.emitWaitingQueueUpdate, QueueGateway.emit.
  destruct (emitFault env WaitingQueue); [discriminate|].
  intros [= <- <-]. cbn. rewrite Hcs, Hnext, Hem. done.
Qed.

End AddPublishes.

(** X14.  A successful [add] publishes exactly one event, a waiting-queue
    snapshot taken after the insert: it has an entry with the id, queue
    number, doctor and room of the new session, and one for every session
    that was already waiting for consultation. *)
Theorem created_session_is_published (validation : QueueValidation.t)
    env dto w s w' :
  QueueService.add validation env dto w = (Ok s, w') →
  ∃ snapshot,
    emitted w' = emitted w ++ [WaitingQueueUpdate snapshot]
    ∧ (∃ d, d ∈ snapshot ∧ detailShows d s)
    ∧ ∀ r, r ∈ careSession (db w) →
           CareSession.status r = WAITING_CONSULTATION →
           ∃ d, d ∈ snapshot ∧ detailShows d r.
Proof.
  intros Hrun.
  destruct (add_ok_inv validation env dto w s w' Hrun)
    as (Hcs & Hst & _ & _ & Hem).
  eexists. split; [exact Hem|].
  assert (Hin : ∀ r, r ∈ careSession (db w') →
                     CareSession.status r = WAITING_CONSULTATION →
                     ∃ d, d ∈ QueueService.toWaitingQueueDetail <$>
                               merge_sort Prisma.createdBefore
                                 (filter (λ r, CareSession.status r
                                               = WAITING_CONSULTATION)
                                         (careSession (db w')))
                          ∧ detailShows d r).
  { intros r Hr Hw. exists (QueueService.toWaitingQueueDetail r).
    split; [|repeat split].
    apply list_elem_of_fmap_2.
    rewrite merge_sort_Permutation. apply list_elem_of_filter. done. }
  split.
  - apply Hin; [|exact Hst]. rewrite Hcs. set_solver.
  - intros r Hr Hw. apply Hin; [|exact Hw]. rewrite Hcs. set_solver.
Qed.

Lemma created_session_is_published_witness :
  ∃ snapshot,
    emitted (QueueService.add acceptAll (calm 5000) (walkIn "Dewi")
               mixedQueue).2
    = emitted mixedQueue ++ [WaitingQueueUpdate snapshot]
    ∧ (∃ d, d ∈ snapshot
            ∧ detailShows d
                (CareSession.mk 4 WAITING_CONSULTATION "U004" "fever" None
                   "dr-1" 2 (Some 4) 5000 5000))
    ∧ ∀ r, r ∈ careSession (db mixedQueue) →
           CareSession.status r = WAITING_CONSULTATION →
           ∃ d, d ∈ snapshot ∧ detailShows d r.
Proof.
  apply (created_session_is_published acceptAll (calm 5000) (walkIn "Dewi")
           mixedQueue).
  reflexivity.
Defined.

Example walk_in_snapshot :
  emitted (QueueService.add acceptAll (calm 5000) (walkIn "Dewi")
             mixedQueue).2
  = [WaitingQueueUpdate
       [WaitingQueueDetail.mk 3 "dr-2" "U003" 1;
        WaitingQueueDetail.mk 1 "dr-1" "U001" 2;
        WaitingQueueDetail.mk 4 "dr-1" "U004" 2]].
Proof. reflexivity. Qed.

(** ** The patient registry *)

Section Registry.

Variable validation : QueueValidation.t.

Lemma stamp_id pid m q : Patient.id (stamp pid m q) = Patient.id q.
Proof. unfold stamp. now destruct (_ =? _). Qed.

Lemma stamp_ids pid m (l : list Patient.t) :
  Patient.id <$> List.map (stamp pid m) l = Patient.id <$> l.
Proof.
  induction l as [|q l IH]; [reflexivity|].
  cbn [List.map]. rewrite !fmap_cons, stamp_id. now f_equal.
Qed.

Lemma stamp_absent pid m (l : list Patient.t) :
  pid ∉ Patient.id <$> l → List.map (stamp pid m) l = l.
Proof.
  induction l as [|q l IH]; [reflexivity|].
  rewrite fmap_cons, not_elem_of_cons. intros [Hq Hl].
  cbn [List.map]. rewrite IH by exact Hl. unfold stamp.
  destruct (Z.eqb_spec (Patient.id q) pid); [congruence|reflexivity].
Qed.

Lemma stamp_numbers pid m p (l : list Patient.t) :
  NoDup (Patient.id <$> l) →
  List.find (λ x, Patient.id x =? pid) l = Some p →
  Patient.medical_record_number p = None →
  omap Patient.medical_record_number (List.map (stamp pid m) l)
  ≡ₚ m :: omap Patient.medical_record_number l.
Proof.
  induction l as [|q l IH]; [discriminate|].
  rewrite fmap_cons, NoDup_cons. intros [Hq Hnd] Hfind Hp.
  simpl in Hfind. cbn [List.map omap list_omap]. unfold stamp at 1.
  destruct (Z.eqb_spec (Patient.id q) pid) as [E|E].
  - injection Hfind as ->. rewrite Hp.
    rewrite stamp_absent by (now rewrite <- E). reflexivity.
  - destruct (Patient.medical_record_number q) as [x|].
    + rewrite (IH Hnd Hfind Hp). apply Permutation_swap.
    + exact (IH Hnd Hfind Hp).
Qed.

Lemma find_stamp_other pid pid' m (l : list Patient.t) :
  pid' ≠ pid →
  List.find (λ x, Patient.id x =? pid) (List.map (stamp pid' m) l)
  = List.find (λ x, Patient.id x =? pid) l.
Proof.
  intros Hne. induction l as [|q l IH]; [reflexivity|].
  cbn [List.map List.find]. rewrite stamp_id, IH.
  destruct (Z.eqb_spec (Patient.id q) pid) as [E|E]; [|reflexivity].
  unfold stamp. destruct (Z.eqb_spec (Patient.id q) pid'); [lia|reflexivity].
Qed.

Lemma find_snoc_some {A} (f : A → bool) (l : list A) x a :
  List.find f l = Some a → List.find f (l ++ [x]) = Some a.
Proof.
  induction l as [|b l IH]; [discriminate|].
  simpl. destruct (f b); [done|exact IH].
Qed.

Lemma found_by_id (l : list Patient.t) q :
  NoDup (Patient.id <$> l) → q ∈ l →
  List.find (λ x, Patient.id x =? Patient.id q) l = Some q.
Proof.
  induction l as [|b l IH]; [intros _ H; inversion H|].
  rewrite fmap_cons, NoDup_cons. intros [Hb Hnd] Hq.
  simpl. destruct (Z.eqb_spec (Patient.id b) (Patient.id q)) as [E|E].
  - apply elem_of_cons in Hq as [->|Hq]; [reflexivity|].
    exfalso. apply Hb. rewrite E. apply list_elem_of_fmap. now exists q.
  - apply elem_of_cons in Hq as [->|Hq]; [contradiction|]. now apply IH.
Qed.

(** What [update] may do to the patient table. *)
Lemma update_patients env id dto w :
  let w' := (QueueService.update validation env id dto w).2 in
  nextPatientId (db w') = nextPatientId (db w)
  ∧ (patient (db w') = patient (db w)
     ∨ ∃ p pid,
         Js.truthy (Patient.medical_record_number p) = false
         ∧ patientById (db w) pid = Some p
         ∧ patient (db w')
           = List.map
               (stamp pid (QueueService.formatMedicalRecordNumber
                             (QueueService.nextMedicalRecordNumber
                                (Prisma.greatest (assignedNumbers (db w))))))
               (patient (db w))).
Proof.
  destruct (update_effect validation env id dto w) as (_ & Hn & Heff).
  split; [exact Hn|].
  destruct Heff as [[_ ->]|(n & s & _ & _ & _ & [->|Hst])]; [now left..|].
  destruct Hst as (p & pid & Hp & _ & Hfind & ->).
  right. now exists p, pid.
Qed.

(** A patient row that carries a number is out of reach of both calls. *)
Lemma add_keeps_numbered env dto w pid p :
  patientById (db w) pid = Some p →
  patientById (db (QueueService.add validation env dto w).2) pid = Some p.
Proof.
  intros Hp. destruct (add_effect validation env dto w) as (Hgrew & _).
  unfold patientById in *.
  destruct Hgrew as [[-> _]|(data & -> & _)]; [exact Hp|].
  now apply find_snoc_some.
Qed.

Lemma update_keeps_numbered env id dto w pid p :
  patientById (db w) pid = Some p →
  Js.truthy (Patient.medical_record_number p) = true →
  patientById (db (QueueService.update validation env id dto w).2) pid
  = Some p.
Proof.
  intros Hp Ht. destruct (update_patients env id dto w) as (_ & Heff).
  unfold patientById in *.
  destruct Heff as [->|(p' & pid' & Hp' & Hfind' & ->)]; [exact Hp|].
  destruct (decide (pid' = pid)) as [->|Hne].
  - rewrite Hp in Hfind'. congruence.
  - now rewrite find_stamp_other.
Qed.

Lemma runCalls_keeps_numbered calls w pid p :
  patientById (db w) pid = Some p →
  Js.truthy (Patient.medical_record_number p) = true →
  patientById (db (runCalls validation calls w)) pid = Some p.
Proof.
  revert w. induction calls as [|[env dto|env id dto] rest IH];
    intros w Hp Ht; cbn [runCalls]; [exact Hp| |].
  - apply IH; [|exact Ht]. now apply add_keeps_numbered.
  - apply IH; [|exact Ht]. now apply update_keeps_numbered.
Qed.

(** The number [update] gives out is new and well formed, unless the
    last one is on record. *)
Lemma fresh_number (l : list string) :
  Forall (λ x, wellFormedMr x = true) l →
  "99.99.99" ∉ l →
  let m := QueueService.formatMedicalRecordNumber
             (QueueService.nextMedicalRecordNumber (Prisma.greatest l)) in
  (m ∉ l) ∧ wellFormedMr m = true.
Proof.
  intros Hwf Hlast. pose proof (greatest_wellFormed l Hwf) as Hg.
  destruct (Prisma.greatest l) as [g|]; cbn zeta.
  - destruct Hg as (k & Hk & -> & Hin & Hall).
    assert (k ≠ 999999) by (intros ->; now apply Hlast).
    rewrite nextMedicalRecordNumber_format by exact Hk.
    rewrite formatMedicalRecordNumber_grouped by lia.
    split; [|apply wellFormedMr_format].
    intros Hin'. rewrite Forall_forall in Hall.
    destruct (Hall _ Hin') as (a & Ha & E).
    apply (f_equal mrValue) in E.
    rewrite !mrValue_format in E by lia. injection E. lia.
  - subst l. split; [apply not_elem_of_nil|reflexivity].
Qed.

Lemma add_keeps_registry env dto w :
  registryOk (db w) →
  registryOk (db (QueueService.add validation env dto w).2).
Proof.
  intros (Hnd & Hlt & Hnum & Hwf).
  destruct (add_effect validation env dto w) as (Hgrew & _).
  unfold registryOk, assignedNumbers in *.
  destruct Hgrew as [[-> ->]|(data & -> & ->)]; [done|].
  rewrite fmap_app, omap_app. cbn. rewrite app_nil_r.
  repeat split; try assumption.
  - apply NoDup_app. split; [exact Hnd|]. split; [|apply NoDup_singleton].
    intros x Hx ->%list_elem_of_singleton.
    apply list_elem_of_fmap in Hx as (q & Hq & Hin).
    rewrite Forall_forall in Hlt. specialize (Hlt q Hin). lia.
  - apply Forall_app. split.
    + eapply Forall_impl; [exact Hlt|]. intros q Hq. cbn beta in *. lia.
    + apply Forall_singleton. cbn. lia.
Qed.

Lemma update_keeps_registry env id dto w :
  registryOk (db w) →
  "99.99.99" ∉ assignedNumbers (db w) →
  registryOk (db (QueueService.update validation env id dto w).2).
Proof.
  intros (Hnd & Hlt & Hnum & Hwf) Hlast.
  destruct (update_patients env id dto w) as (Hn & Heff).
  unfold registryOk. rewrite Hn.
  destruct Heff as [E|(p & pid & Hp & Hfind & E)].
  { unfold assignedNumbers. rewrite E. done. }
  destruct (fresh_number _ Hwf Hlast) as [Hfresh Hm].
  set (m := QueueService.formatMedicalRecordNumber _) in *.
  assert (Hnone : Patient.medical_record_number p = None).
  { destruct (Patient.medical_record_number p) as [x|] eqn:Hx; [|done].
    pose proof (patientById_assigned _ _ _ _ Hfind Hx) as Hin.
    rewrite Forall_forall in Hwf. specialize (Hwf _ Hin).
    destruct x; [discriminate Hwf|discriminate Hp]. }
  assert (Hperm : assignedNumbers (db (QueueService.update validation env
                                         id dto w).2)
                  ≡ₚ m :: assignedNumbers (db w)).
  { unfold assignedNumbers. rewrite E.
    now apply (stamp_numbers pid m p). }
  rewrite E, stamp_ids.
  split; [exact Hnd|]. split.
  { clear -Hlt. induction Hlt as [|q l Hq Hl IH]; cbn [List.map];
      constructor; [now rewrite stamp_id|exact IH]. }
  rewrite Hperm. split.
  - apply NoDup_cons. done.
  - constructor; assumption.
Qed.

Lemma last_number_stays calls w :
  registryOk (db w) →
  "99.99.99" ∈ assignedNumbers (db w) →
  "99.99.99" ∈ assignedNumbers (db (runCalls validation calls w)).
Proof.
  intros (Hnd & _) Hin.
  apply list_elem_of_omap in Hin as (q & Hq & Hmr).
  apply (patientById_assigned _ (Patient.id q) q); [|exact Hmr].
  apply runCalls_keeps_numbered; [|now rewrite Hmr].
  now apply found_by_id.
Qed.

End Registry.

(** X15.  Starting from a registry with distinct patient ids and distinct,
    well-formed medical record numbers, any sequence of [add] and [update]
    calls run one after another, whether they return or throw, leaves such
    a registry, as long as the number 99.99.99 has not been given out: no
    two patients ever share a medical record number. *)
Theorem record_numbers_stay_distinct (validation : QueueValidation.t)
    calls w :
  registryOk (db w) →
  "99.99.99" ∉ assignedNumbers (db (runCalls validation calls w)) →
  registryOk (db (runCalls validation calls w)).
Proof.
  revert w. induction calls as [|[env dto|env id dto] rest IH];
    intros w Hok Hlast; cbn [runCalls] in *; [exact Hok| |].
  - apply IH; [|exact Hlast]. now apply add_keeps_registry.
  - apply IH; [|exact Hlast]. apply update_keeps_registry; [exact Hok|].
    intros Hin. apply Hlast.
    apply (last_number_stays validation
             (CallUpdate env id dto :: rest) w Hok Hin).
Qed.

Lemma record_numbers_stay_distinct_witness :
  registryOk (db (runCalls acceptAll dischargeBoth registry)).
Proof.
  apply (record_numbers_stay_distinct acceptAll dischargeBoth registry).
  - repeat split.
    + apply (bool_decide_unpack _). vm_compute. exact I.
    + apply (bool_decide_unpack _). vm_compute. exact I.
    + apply (bool_decide_unpack _). vm_compute. exact I.
    + apply (bool_decide_unpack _). vm_compute. exact I.
  - apply (bool_decide_unpack _). vm_compute. exact I.
Defined.

(** X16.  A medical record number is permanent: once a patient row
    carries a non-empty number, no sequence of [add] and [update] calls
    changes that row. *)
Theorem record_number_is_permanent (validation : QueueValidation.t)
    calls w pid p :
  patientById (db w) pid = Some p →
  Js.truthy (Patient.medical_record_number p) = true →
  patientById (db (runCalls validation calls w)) pid = Some p.
Proof. apply runCalls_keeps_numbered. Qed.

Lemma record_number_is_permanent_witness :
  patientById (db (runCalls acceptAll dischargeBoth registry)) 1
  = Some (Patient.mk 1 (PatientData.mk "Ani" 0 "F") (Some "00.00.07")).
Proof.
  apply (record_number_is_permanent acceptAll dischargeBoth registry 1);
    reflexivity.
Defined.

(** ** The pharmacy and doctor views *)

Section Views.

Variable rel : Relations.

Lemma head_fmap {A B} (f : A → B) (l : list A) :
  head (f <$> l) = f <$> head l.
Proof. now destruct l. Qed.

Lemma drop1_fmap {A B} (f : A → B) (l : list A) :
  drop 1 (f <$> l) = f <$> tail l.
Proof. now destruct l. Qed.

Lemma toNextQueue_included (d : Db) (l : list CareSession.t) :
  QueueService.toNextQueue <$> (Prisma.included rel d <$> l)
  = nextQueueOf <$> l.
Proof. induction l as [|a l IH]; [reflexivity|]. cbn. now f_equal. Qed.

Lemma matching_status st (d : Db) :
  Prisma.matching rel
    (λ r, bool_decide (CareSession.status (SessionRow.session r) ∈ [st])) d
  = filter (λ s, CareSession.status s = st) (careSession d).
Proof.
  unfold Prisma.matching. apply list_filter_iff. intros s. cbn.
  rewrite bool_decide_eq_true, list_elem_of_singleton. reflexivity.
Qed.

Lemma matching_ofDoctor st id (d : Db) :
  Prisma.matching rel (QueueService.ofDoctor [st] id) d
  = filter (λ s, CareSession.status s = st ∧ CareSession.doctor_id s = id)
           (careSession d).
Proof.
  unfold Prisma.matching, QueueService.ofDoctor.
  apply list_filter_iff. intros s. cbn.
  rewrite andb_true_iff, bool_decide_eq_true, list_elem_of_singleton,
    String.eqb_eq. reflexivity.
Qed.

Lemma getActivePharmacyQueues_run q w :
  queryFault q CareSessionFindManyWhere = None →
  let sorted :=
    merge_sort Prisma.createdBefore
      (filter (λ s, CareSession.status s = WAITING_MEDICATION)
              (careSession (db w))) in
  QueueService.getActivePharmacyQueues rel q w
  = (Ok (GetActivePharmacyQueueResponse.mk
           ((λ s, QueueService.toCurrentPharmacyQueue
                    (Prisma.included rel (db w) s)) <$> head sorted)
           (nextQueueOf <$> tail sorted)), w).
Proof.
  intros Hq sorted. unfold QueueService.getActivePharmacyQueues,
    Prisma.careSession_findManyWhere.
  rewrite Hq. step_m. unfold Prisma.ordered, Prisma.paged.
  rewrite matching_status. fold sorted. step_m.
  rewrite drop1_fmap, toNextQueue_included.
  destruct sorted as [|a l]; reflexivity.
Qed.

Lemma pharmacyIds_run q w :
  queryFault q CareSessionFindManyWhere = None →
  ∃ r, QueueService.getActivePharmacyQueues rel q w = (Ok r, w)
       ∧ ∀ n, n ∈ pharmacyIds r ↔
              ∃ s, s ∈ careSession (db w) ∧ CareSession.id s = n
                   ∧ CareSession.status s = WAITING_MEDICATION.
Proof.
  intros Hq. eexists. split; [now apply getActivePharmacyQueues_run|].
  intros n. unfold pharmacyIds. cbn.
  set (sorted := merge_sort _ _).
  assert (Hids : (CurrentPharmacyQueueDetail.id <$>
                  option_list ((λ s, QueueService.toCurrentPharmacyQueue
                                  (Prisma.included rel (db w) s))
                               <$> head sorted))
                 ++ (NextQueue.id <$> (nextQueueOf <$> tail sorted))
                 = CareSession.id <$> sorted).
  { destruct sorted as [|a l]; [reflexivity|]. cbn. f_equal.
    now rewrite <- list_fmap_compose. }
  rewrite Hids, list_elem_of_fmap. unfold sorted.
  split.
  - intros (s & -> & Hs). rewrite merge_sort_Permutation in Hs.
    apply list_elem_of_filter in Hs as [Hst Hs]. now exists s.
  - intros (s & Hs & <- & Hst). exists s. split; [reflexivity|].
    rewrite merge_sort_Permutation. now apply list_elem_of_filter.
Qed.

Lemma getActiveDoctorQueue_run q id w :
  queryFault q CareSessionFindFirst = None →
  queryFault q CareSessionFindManyWhere = None →
  QueueService.getActiveDoctorQueue rel q id w
  = (Ok (GetActiveDoctorQueueResponse.mk
           ((λ s, QueueService.toCurrentDoctorQueue
                    (Prisma.included rel (db w) s)) <$>
            head (filter (λ s, CareSession.status s = IN_CONSULTATION
                               ∧ CareSession.doctor_id s = id)
                         (careSession (db w))))
           (nextQueueOf <$>
            filter (λ s, CareSession.status s = WAITING_CONSULTATION
                         ∧ CareSession.doctor_id s = id)
                   (careSession (db w)))), w).
Proof.
  intros Hf Hm. unfold QueueService.getActiveDoctorQueue,
    Pagination.promiseAll2, Prisma.careSession_findFirst,
    Prisma.careSession_findManyWhere.
  rewrite Hf, Hm. step_m. unfold Prisma.ordered, Prisma.paged.
  rewrite !matching_ofDoctor. step_m.
  rewrite head_fmap, toNextQueue_included.
  now destruct (head _).
Qed.

Lemma joinPatient_id (d : Db) s p :
  toPatientSummary_opt d s = Some p →
  CareSession.patient_id s = Some (PatientSummary.id p).
Proof.
  unfold toPatientSummary_opt, Prisma.joinPatient.
  destruct (CareSession.patient_id s) as [pid|]; [|discriminate].
  destruct (List.find _ _) as [x|] eqn:E; [|discriminate].
  intros [= <-]. apply List.find_some in E as [_ E%Z.eqb_eq].
  cbn. now rewrite E.
Qed.

Lemma toCurrentPharmacyQueue_shows (d : Db) s :
  pharmacyShows rel
    (QueueService.toCurrentPharmacyQueue (Prisma.included rel d s)) s.
Proof.
  repeat split.
  - cbn. now rewrite <- list_fmap_compose.
  - intros p. apply joinPatient_id.
Qed.

Lemma toCurrentDoctorQueue_shows (d : Db) s :
  doctorShows rel
    (QueueService.toCurrentDoctorQueue (Prisma.included rel d s)) s.
Proof. repeat split. intros p. apply joinPatient_id. Qed.

End Views.

(** X17.  The pharmacy serves in order of arrival.  Unless the store read
    fails, [getActivePharmacyQueues] returns, changes nothing, and shows
    exactly the sessions whose status is [WAITING_MEDICATION], oldest
    first.  [current] stands for the oldest of them: it has that session's
    id, queue number, doctor and complaints, its diagnoses, the drugs of
    its orders and, when it shows a patient, the session's patient.
    [next_queues] has the id and queue number of each of the others, in
    order.  With no such session [current] is absent and [next_queues] is
    empty. *)
Theorem pharmacy_queue_is_fifo (rel : Relations) q w :
  queryFault q CareSessionFindManyWhere = None →
  ∃ sessions r,
    QueueService.getActivePharmacyQueues rel q w = (Ok r, w)
    ∧ sessions ≡ₚ filter (λ s, CareSession.status s = WAITING_MEDICATION)
                         (careSession (db w))
    ∧ StronglySorted
        (λ a b, CareSession.created_at a ≤ CareSession.created_at b)
        sessions
    ∧ match GetActivePharmacyQueueResponse.current r with
      | Some c => ∃ s, head sessions = Some s ∧ pharmacyShows rel c s
      | None => sessions = []
      end
    ∧ Forall2 (λ x s, NextQueue.id x = CareSession.id s
                      ∧ NextQueue.queue_number x = CareSession.queue_number s)
        (GetActivePharmacyQueueResponse.next_queues r) (tail sessions).
Proof.
  intros Hq.
  exists (merge_sort Prisma.createdBefore
            (filter (λ s, CareSession.status s = WAITING_MEDICATION)
                    (careSession (db w)))).
  eexists.
  split; [now apply getActivePharmacyQueues_run|].
  split; [apply merge_sort_Permutation|].
  split; [apply (StronglySorted_merge_sort Prisma.createdBefore)|].
  cbn. split.
  - destruct (merge_sort _ _) as [|a l]; [reflexivity|]. cbn.
    exists a. split; [reflexivity|]. apply toCurrentPharmacyQueue_shows.
  - apply Forall2_fmap_l, Forall_Forall2_diag, Forall_forall.
    intros s _. split; reflexivity.
Qed.

Lemma pharmacy_queue_is_fifo_witness :
  ∃ sessions r,
    QueueService.getActivePharmacyQueues noRelations quiet dispensary
    = (Ok r, dispensary)
    ∧ sessions ≡ₚ filter (λ s, CareSession.status s = WAITING_MEDICATION)
                         (careSession (db dispensary))
    ∧ StronglySorted
        (λ a b, CareSession.created_at a ≤ CareSession.created_at b)
        sessions
    ∧ match GetActivePharmacyQueueResponse.current r with
      | Some c => ∃ s, head sessions = Some s ∧ pharmacyShows noRelations c s
      | None => sessions = []
      end
    ∧ Forall2 (λ x s, NextQueue.id x = CareSession.id s
                      ∧ NextQueue.queue_number x = CareSession.queue_number s)
        (GetActivePharmacyQueueResponse.next_queues r) (tail sessions).
Proof.
  exact (pharmacy_queue_is_fifo noRelations quiet dispensary eq_refl).
Defined.

Example dispensary_view :
  (QueueService.getActivePharmacyQueues noRelations quiet dispensary).1
  = Ok (GetActivePharmacyQueueResponse.mk
          (Some (CurrentPharmacyQueueDetail.mk 3 "U003" [] [] "dr-2" None
                   "rash"))
          [NextQueue.mk 1 "U001"]).
Proof. reflexivity. Qed.

(** X18.  With distinct session ids, store and gateway working, a
    successful status change is seen by the pharmacy at once: after
    [update] to a status [st] the session is in the pharmacy view exactly
    when [st] is [WAITING_MEDICATION]. *)
Theorem pharmacy_sees_the_transition (validation : QueueValidation.t)
    (rel : Relations) q env id n dto w s st :
  NoDup (CareSession.id <$> careSession (db w)) →
  noFaults env →
  queryFault q CareSessionFindManyWhere = None →
  Js.parseInt id None = Some n →
  QueueValidation.UPDATE validation dto = true →
  sessionById (db w) n = Some s →
  UpdateQueueDto.status dto = Some st →
  ∃ res w' r,
    QueueService.update validation env id dto w = (Ok res, w')
    ∧ QueueService.getActivePharmacyQueues rel q w' = (Ok r, w')
    ∧ (n ∈ pharmacyIds r ↔ st = WAITING_MEDICATION).
Proof.
  intros Hnd Hnf Hq Hid Hv Hfind Hst.
  destruct (update_accepted validation env id n dto w s Hnf Hid Hv Hfind)
    as (po & w' & snapshot & Hrun & Hcs & _).
  destruct (pharmacyIds_run rel q w' Hq) as (r & Hview & Hids).
  eexists _, w', r. split; [exact Hrun|]. split; [exact Hview|].
  rewrite Hids, Hcs.
  pose proof (List.find_some _ _ Hfind) as [Hin Hn%Z.eqb_eq].
  apply list_elem_of_In in Hin.
  split.
  - intros (x & Hx & Hxn & Hxst).
    apply list_elem_of_In, in_map_iff in Hx as (y & Hy & Hyin).
    apply list_elem_of_In in Hyin.
    destruct (Z.eqb_spec (CareSession.id y) n) as [E|E].
    + subst x. cbn in Hxst. rewrite Hst in Hxst. exact Hxst.
    + subst x. contradiction.
  - intros ->. exists (Prisma.applyUpdate (now env) dto s).
    split; [|split; [exact Hn|cbn; now rewrite Hst]].
    apply list_elem_of_In, in_map_iff. exists s.
    split; [now rewrite Hn, Z.eqb_refl|now apply list_elem_of_In].
Qed.

Lemma pharmacy_sees_the_transition_witness :
  ∃ res w' r,
    QueueService.update acceptAll (calm 5000) "2"
      (setStatus WAITING_MEDICATION) dispensary = (Ok res, w')
    ∧ QueueService.getActivePharmacyQueues noRelations quiet w' = (Ok r, w')
    ∧ (2 ∈ pharmacyIds r ↔ WAITING_MEDICATION = WAITING_MEDICATION).
Proof.
  apply (pharmacy_sees_the_transition acceptAll noRelations quiet
           (calm 5000) "2" 2 (setStatus WAITING_MEDICATION) dispensary
           (CareSession.mk 2 IN_CONSULTATION "U002" "cough" None
              "dr-1" 2 None 2000 2500));
    try reflexivity.
  - apply (bool_decide_unpack _). vm_compute. exact I.
  - split; intros ?; reflexivity.
Defined.

(** X19.  A doctor's view holds that doctor's sessions only.  Unless a
    store read fails, [getActiveDoctorQueue] returns and changes nothing;
    [next_queues] has an entry, with its id and queue number, for each
    session of the doctor that waits for consultation and no other entry;
    [current], when present, stands for a stored session of the doctor
    that is in consultation: it has that session's id, queue number,
    doctor, complaints and vital signs and, when it shows a patient, the
    session's patient; it is absent only when the doctor has no session in
    consultation. *)
Theorem doctor_queue_lists_own_sessions (rel : Relations) q id w :
  queryFault q CareSessionFindFirst = None →
  queryFault q CareSessionFindManyWhere = None →
  ∃ r,
    QueueService.getActiveDoctorQueue rel q id w = (Ok r, w)
    ∧ (∀ x, x ∈ GetActiveDoctorQueueResponse.next_queues r ↔
            ∃ s, s ∈ careSession (db w)
                 ∧ CareSession.status s = WAITING_CONSULTATION
                 ∧ CareSession.doctor_id s = id
                 ∧ x = nextQueueOf s)
    ∧ match GetActiveDoctorQueueResponse.current r with
      | Some c =>
          CurrentDoctorQueueDetail.doctor c = id
          ∧ ∃ s, s ∈ careSession (db w)
                 ∧ CareSession.status s = IN_CONSULTATION
                 ∧ CareSession.doctor_id s = id
                 ∧ doctorShows rel c s
      | None =>
          ∀ s, s ∈ careSession (db w) → CareSession.doctor_id s = id →
               CareSession.status s ≠ IN_CONSULTATION
      end.
Proof.
  intros Hf Hm. eexists.
  split; [now apply getActiveDoctorQueue_run|]. cbn. split.
  - intros x. rewrite list_elem_of_fmap. split.
    + intros (s & -> & Hs). apply list_elem_of_filter in Hs as [[? ?] ?].
      now exists s.
    + intros (s & Hs & Hst & Hd & ->). exists s. split; [reflexivity|].
      now apply list_elem_of_filter.
  - destruct (filter _ (careSession (db w))) as [|a l] eqn:E; cbn.
    + intros s Hs Hd Hst.
      assert (Hin : s ∈ filter
                (λ s, CareSession.status s = IN_CONSULTATION
                      ∧ CareSession.doctor_id s = id) (careSession (db w)))
        by now apply list_elem_of_filter.
      rewrite E in Hin. inversion Hin.
    + assert (Hin : a ∈ filter
                (λ s, CareSession.status s = IN_CONSULTATION
                      ∧ CareSession.doctor_id s = id) (careSession (db w)))
        by (rewrite E; left).
      apply list_elem_of_filter in Hin as [[Hst Hd] Ha].
      split; [exact Hd|]. exists a.
      split; [exact Ha|]. split; [exact Hst|]. split; [exact Hd|].
      apply toCurrentDoctorQueue_shows.
Qed.

Lemma doctor_queue_lists_own_sessions_witness :
  ∃ r,
    QueueService.getActiveDoctorQueue noRelations quiet "dr-1" mixedQueue
    = (Ok r, mixedQueue)
    ∧ (∀ x, x ∈ GetActiveDoctorQueueResponse.next_queues r ↔
            ∃ s, s ∈ careSession (db mixedQueue)
                 ∧ CareSession.status s = WAITING_CONSULTATION
                 ∧ CareSession.doctor_id s = "dr-1"
                 ∧ x = nextQueueOf s)
    ∧ match GetActiveDoctorQueueResponse.current r with
      | Some c =>
          CurrentDoctorQueueDetail.doctor c = "dr-1"
          ∧ ∃ s, s ∈ careSession (db mixedQueue)
                 ∧ CareSession.status s = IN_CONSULTATION
                 ∧ CareSession.doctor_id s = "dr-1"
                 ∧ doctorShows noRelations c s
      | None =>
          ∀ s, s ∈ careSession (db mixedQueue) →
               CareSession.doctor_id s = "dr-1" →
               CareSession.status s ≠ IN_CONSULTATION
      end.
Proof.
  exact (doctor_queue_lists_own_sessions noRelations quiet "dr-1" mixedQueue
           eq_refl eq_refl).
Defined.

Example mixedQueue_doctor_view :
  (QueueService.getActiveDoctorQueue noRelations quiet "dr-1" mixedQueue).1
  = Ok (GetActiveDoctorQueueResponse.mk
          (Some (CurrentDoctorQueueDetail.mk 2 "dr-1" None "U002" "cough"
                   None))
          [NextQueue.mk 1 "U001"]).
Proof. reflexivity. Qed.

(** X20.  A session reaches its doctor and nobody else: after a
    successful [add], the doctor named in the request finds the new
    session among the [next_queues] of their view, and, when the session
    ids on record were distinct and below the id counter, no other doctor's
    view lists its id. *)
Theorem new_session_reaches_its_doctor (validation : QueueValidation.t)
    (rel : Relations) q env dto w s w' :
  QueueService.add validation env dto w = (Ok s, w') →
  queryFault q CareSessionFindFirst = None →
  queryFault q CareSessionFindManyWhere = None →
  (∃ r, QueueService.getActiveDoctorQueue rel q (AddQueueDto.doctor_id dto) w'
        = (Ok r, w')
        ∧ nextQueueOf s ∈ GetActiveDoctorQueueResponse.next_queues r)
  ∧ (sessionIdsFresh (db w) →
     ∀ other, other ≠ AddQueueDto.doctor_id dto →
       ∃ r, QueueService.getActiveDoctorQueue rel q other w' = (Ok r, w')
            ∧ CareSession.id s
              ∉ NextQueue.id <$> GetActiveDoctorQueueResponse.next_queues r).
Proof.
  intros Hrun Hf Hm.
  destruct (add_ok_inv validation env dto w s w' Hrun)
    as (Hcs & Hst & Hdoc & Hid & _).
  split.
  - eexists. split; [now apply getActiveDoctorQueue_run|]. cbn.
    apply list_elem_of_fmap_2, list_elem_of_filter.
    split; [done|]. rewrite Hcs. set_solver.
  - intros [_ Hlt] other Hother. eexists.
    split; [now apply getActiveDoctorQueue_run|]. cbn.
    rewrite <- list_fmap_compose. intros Hin.
    apply list_elem_of_fmap in Hin as (x & Hx & Hin).
    apply list_elem_of_filter in Hin as [[_ Hd] Hin].
    rewrite Hcs in Hin. apply elem_of_app in Hin as [Hin|Hin].
    + rewrite Forall_forall in Hlt. specialize (Hlt x Hin).
      cbn in Hx. lia.
    + apply list_elem_of_singleton in Hin. subst x. congruence.
Qed.

Lemma new_session_reaches_its_doctor_witness :
  (∃ r, QueueService.getActiveDoctorQueue noRelations quiet "dr-1"
          (QueueService.add acceptAll (calm 5000) (walkIn "Dewi")
             mixedQueue).2
        = (Ok r, (QueueService.add acceptAll (calm 5000) (walkIn "Dewi")
                    mixedQueue).2)
        ∧ NextQueue.mk 4 "U004"
          ∈ GetActiveDoctorQueueResponse.next_queues r)
  ∧ (sessionIdsFresh (db mixedQueue) →
     ∀ other, other ≠ "dr-1" →
       ∃ r, QueueService.getActiveDoctorQueue noRelations quiet other
              (QueueService.add acceptAll (calm 5000) (walkIn "Dewi")
                 mixedQueue).2
            = (Ok r, (QueueService.add acceptAll (calm 5000) (walkIn "Dewi")
                        mixedQueue).2)
            ∧ 4 ∉ NextQueue.id <$>
                  GetActiveDoctorQueueResponse.next_queues r).
Proof.
  exact (new_session_reaches_its_doctor acceptAll noRelations quiet
           (calm 5000) (walkIn "Dewi") mixedQueue _ _ eq_refl eq_refl
           eq_refl).
Defined.

(** ** The queue listing *)

Global Instance createdAfter_transitive : Transitive Prisma.createdAfter.
Proof. intros a b c. unfold Prisma.createdAfter. lia. Qed.

Global Instance createdAfter_total : Total Prisma.createdAfter.
Proof. intros a b. unfold Prisma.createdAfter. lia. Qed.

Section QueueListing.

Variable contains : string → string → bool.
Variable rel : Relations.

Lemma traverse_ok {A B} (f : A → Result B) (R : A → B → Prop) (l : list A) :
  Forall (λ a, ∃ b, f a = Ok b ∧ R a b) l →
  ∃ bs, traverse f l = Ok bs ∧ Forall2 R l bs.
Proof.
  induction 1 as [|a l (b & Hb & HR) _ (bs & Hbs & IH)].
  - exists []. split; [reflexivity|constructor].
  - exists (b :: bs). cbn. rewrite Hb, Hbs.
    split; [reflexivity|now constructor].
Qed.

Lemma lines_ok (d : Db) (s : CareSession.t) :
  linesResolve d →
  ∃ lines,
    traverse QueueService.toTreatmentLine
      (SessionRow.CareSessionTreatment (Prisma.included rel d s))
    = Ok lines.
Proof.
  intros Hres. unfold linesResolve in Hres. cbn.
  induction Hres as [|l ls [t Ht] _ IH]; [now exists []|].
  rewrite filter_cons. destruct (decide _); [|exact IH].
  destruct IH as (lines & IH). rewrite fmap_cons. cbn [traverse].
  unfold QueueService.toTreatmentLine at 1. cbn [snd fst]. rewrite Ht, IH.
  eexists. reflexivity.
Qed.

Lemma toQueueDetail_ok (d : Db) (s : CareSession.t) :
  linesResolve d →
  ∃ row,
    QueueService.toQueueDetail (Prisma.included rel d s) = Ok row
    ∧ QueueDetail.id row = CareSession.id s
    ∧ QueueDetail.status row = CareSession.status s
    ∧ QueueDetail.queue_number row = CareSession.queue_number s
    ∧ QueueDetail.created_at row = CareSession.created_at s.
Proof.
  intros Hres. destruct (lines_ok d s Hres) as (lines & Hl).
  unfold QueueService.toQueueDetail, QueueService.transformCareSession.
  rewrite Hl. eexists. split; [reflexivity|]. done.
Qed.

(** The status set [getAll] filters by. *)
Lemma includedStatusesOf_run isQueueActive status st w :
  (Js.truthy status = true →
   QueueService.statusNamed (default "" status) = Some st) →
  QueueService.includedStatusesOf isQueueActive status w
  = (Ok (if Js.truthy status then [st]
         else if default false isQueueActive
              then [WAITING_CONSULTATION; IN_CONSULTATION;
                    WAITING_MEDICATION; WAITING_PAYMENT]
              else [COMPLETED]), w).
Proof.
  intros Hst. unfold QueueService.includedStatusesOf.
  destruct (Js.truthy status); [|reflexivity].
  now rewrite Hst.
Qed.

End QueueListing.

(** X21.  A [status] filter that is not the name of a queue status is
    refused: [getAll] throws [Invalid status] with code 400, whatever the
    other arguments are, before it reads the store. *)
Theorem unknown_status_is_refused (contains : string → string → bool)
    (rel : Relations) q page pageSize isQueueActive roomId status search w :
  Js.truthy status = true →
  QueueService.statusNamed (default "" status) = None →
  QueueService.getAll contains rel q page pageSize isQueueActive roomId
    status search w
  = (Throw (HttpException "Invalid status" HttpStatus.BAD_REQUEST), w).
Proof.
  intros Ht Hn. unfold QueueService.getAll.
  unfold bind at 1. rewrite pageNumberOf_run.
  unfold bind at 1. unfold QueueService.includedStatusesOf.
  now rewrite Ht, Hn.
Qed.

Lemma unknown_status_is_refused_witness :
  QueueService.getAll anywhere noRelations
    (mkQueryEnv (λ _, Some socketClosed)) "1" None (Some true) None
    (Some "completed") None archive
  = (Throw (HttpException "Invalid status" HttpStatus.BAD_REQUEST), archive).
Proof.
  apply (unknown_status_is_refused anywhere noRelations
           (mkQueryEnv (λ _, Some socketClosed)) "1" None (Some true) None
           (Some "completed") None archive); reflexivity.
Defined.

(** X22.  The unpaged queue listing.  When the store read works and every
    treatment line names a catalog treatment, [getAll] without a page size
    returns one row per matching session and changes nothing.  The
    sessions are those whose status is the one named by [status], or,
    without [status], any status but [COMPLETED] when [isQueueActive] is
    set and [COMPLETED] otherwise, narrowed by room and search text.  The
    order depends on [isQueueActive] alone: oldest first when it is set,
    newest first otherwise. *)
Theorem queue_listing (contains : string → string → bool)
    (rel : Relations) q page pageSize isQueueActive roomId status search
    st w :
  queryFault q CareSessionFindManyWhere = None →
  linesResolve (db w) →
  Js.falsyNumber pageSize = true →
  (Js.truthy status = true →
   QueueService.statusNamed (default "" status) = Some st) →
  let statuses :=
    if Js.truthy status then [st]
    else if default false isQueueActive
         then [WAITING_CONSULTATION; IN_CONSULTATION;
               WAITING_MEDICATION; WAITING_PAYMENT]
         else [COMPLETED] in
  ∃ sessions r,
    QueueService.getAll contains rel q page pageSize isQueueActive roomId
      status search w = (Ok r, w)
    ∧ sessions
      ≡ₚ filter (λ s, QueueService.whereClause contains statuses roomId
                        search (Prisma.included rel (db w) s) = true)
                (careSession (db w))
    ∧ StronglySorted
        (λ a b, if default false isQueueActive
                then CareSession.created_at a ≤ CareSession.created_at b
                else CareSession.created_at b ≤ CareSession.created_at a)
        sessions
    ∧ Forall2 (λ s row, QueueDetail.id row = CareSession.id s
                        ∧ QueueDetail.status row = CareSession.status s
                        ∧ QueueDetail.queue_number row
                          = CareSession.queue_number s
                        ∧ QueueDetail.created_at row
                          = CareSession.created_at s)
              sessions (GetAllQueuesResponse.data r)
    ∧ (∀ row, row ∈ GetAllQueuesResponse.data r →
              QueueDetail.status row ∈ statuses)
    ∧ GetAllQueuesResponse.meta r
      = Meta.mk 1 None None 1 (Z.of_nat (length sessions)).
Proof.
  intros Hq Hres Hsize Hst statuses.
  set (where_ := QueueService.whereClause contains statuses roomId search).
  set (orderBy := Some (if default false isQueueActive
                        then Prisma.Asc else Prisma.Desc)).
  set (sessions := Prisma.ordered orderBy
                     (Prisma.matching rel where_ (db w))).
  assert (Hperm : sessions ≡ₚ Prisma.matching rel where_ (db w)).
  { unfold sessions, orderBy, Prisma.ordered.
    destruct (default false isQueueActive); apply merge_sort_Permutation. }
  destruct (traverse_ok QueueService.toQueueDetail
              (λ a row, QueueDetail.id row
                          = CareSession.id (SessionRow.session a)
                        ∧ QueueDetail.status row
                          = CareSession.status (SessionRow.session a)
                        ∧ QueueDetail.queue_number row
                          = CareSession.queue_number (SessionRow.session a)
                        ∧ QueueDetail.created_at row
                          = CareSession.created_at (SessionRow.session a))
              (Prisma.included rel (db w) <$> sessions))
    as (rows & Hrows & Hrel).
  { apply Forall_fmap, Forall_forall. intros s _.
    apply toQueueDetail_ok, Hres. }
  exists sessions. eexists. split.
  { unfold QueueService.getAll.
    unfold bind at 1. rewrite pageNumberOf_run.
    unfold bind at 1.
    rewrite (includedStatusesOf_run isQueueActive status st w Hst).
    rewrite Hsize. unfold Prisma.careSession_findManyWhere.
    rewrite Hq. step_m. unfold Prisma.paged. step_m.
    fold statuses where_ orderBy sessions.
    unfold liftResult. rewrite Hrows. reflexivity. }
  cbn [GetAllQueuesResponse.data GetAllQueuesResponse.meta].
  apply Forall2_fmap_l in Hrel.
  split; [exact Hperm|]. split.
  { unfold sessions, orderBy, Prisma.ordered.
    destruct (default false isQueueActive).
    - apply (StronglySorted_merge_sort Prisma.createdBefore).
    - apply (StronglySorted_merge_sort Prisma.createdAfter). }
  split; [exact Hrel|]. split.
  - intros row Hrow.
    destruct (proj1 (list_elem_of_lookup _ _) Hrow) as [i Hi].
    destruct (Forall2_lookup_r _ _ _ _ _ Hrel Hi) as (s & Hs & _ & E & _).
    apply list_elem_of_lookup_2 in Hs. rewrite Hperm in Hs.
    apply list_elem_of_filter in Hs as [Hw _].
    unfold where_, QueueService.whereClause in Hw.
    apply andb_true_iff in Hw as [Hw _].
    apply andb_true_iff in Hw as [Hw _].
    apply bool_decide_eq_true in Hw. now rewrite E.
  - unfold Pagination.unpagedMeta. now rewrite length_fmap.
Qed.

Lemma queue_listing_witness :
  ∃ sessions r,
    QueueService.getAll anywhere noRelations quiet "1" None (Some true) None
      (Some "COMPLETED") None archive = (Ok r, archive)
    ∧ sessions
      ≡ₚ filter (λ s, QueueService.whereClause anywhere [COMPLETED] None
                        None (Prisma.included noRelations (db archive) s)
                      = true)
                (careSession (db archive))
    ∧ StronglySorted
        (λ a b, CareSession.created_at a ≤ CareSession.created_at b)
        sessions
    ∧ Forall2 (λ s row, QueueDetail.id row = CareSession.id s
                        ∧ QueueDetail.status row = CareSession.status s
                        ∧ QueueDetail.queue_number row
                          = CareSession.queue_number s
                        ∧ QueueDetail.created_at row
                          = CareSession.created_at s)
              sessions (GetAllQueuesResponse.data r)
    ∧ (∀ row, row ∈ GetAllQueuesResponse.data r →
              QueueDetail.status row ∈ [COMPLETED])
    ∧ GetAllQueuesResponse.meta r
      = Meta.mk 1 None None 1 (Z.of_nat (length sessions)).
Proof.
  apply (queue_listing anywhere noRelations quiet "1" None (Some true) None
           (Some "COMPLETED") None COMPLETED archive); try reflexivity.
  unfold linesResolve. cbn.
  repeat (constructor; [eexists; reflexivity|]). constructor.
Defined.

Example archive_history :
  QueueDetail.id <$>
    match (QueueService.getAll anywhere noRelations quiet "1" None None None
             None None archive).1 with
    | Ok r => GetAllQueuesResponse.data r
    | Throw _ => []
    end
  = [3; 1].
Proof. reflexivity. Qed.

(** ** The listing across a catalog change *)

Section Recatalog.

Variable contains : string → string → bool.
Variable rel : Relations.
Variable g : Treatment.t → Treatment.t.
Hypothesis g_id : ∀ t, Treatment.id (g t) = Treatment.id t.

Lemma find_map_id (l : list Treatment.t) k :
  List.find (λ t, Treatment.id t =? k) (List.map g l)
  = g <$> List.find (λ t, Treatment.id t =? k) l.
Proof.
  induction l as [|t l IH]; [reflexivity|].
  cbn [List.map List.find]. rewrite g_id.
  destruct (Treatment.id t =? k); [reflexivity|exact IH].
Qed.

Lemma included_recatalog (d d2 : Db) s :
  patient d2 = patient d →
  careSessionTreatment d2 = careSessionTreatment d →
  treatment d2 = List.map g (treatment d) →
  Prisma.included rel d2 s = recatalog g (Prisma.included rel d s).
Proof.
  intros Hp Hl Ht. unfold Prisma.included, recatalog, Prisma.joinPatient.
  cbn. rewrite Hp, Hl, Ht. f_equal.
  rewrite <- list_fmap_compose. apply list_fmap_ext.
  intros i l _. cbn. now rewrite find_map_id.
Qed.

Lemma matching_recatalog (d d2 : Db) statuses roomId search :
  careSession d2 = careSession d →
  patient d2 = patient d →
  careSessionTreatment d2 = careSessionTreatment d →
  treatment d2 = List.map g (treatment d) →
  Prisma.matching rel
    (QueueService.whereClause contains statuses roomId search) d2
  = Prisma.matching rel
      (QueueService.whereClause contains statuses roomId search) d.
Proof.
  intros Hs Hp Hl Ht. unfold Prisma.matching. rewrite Hs.
  apply list_filter_iff. intros s.
  now rewrite (included_recatalog d d2 s Hp Hl Ht).
Qed.

Lemma window_fmap {A B} (f : A → B) skip take_ (rows : list A) :
  Prisma.window skip take_ (f <$> rows) = f <$> Prisma.window skip take_ rows.
Proof.
  assert (Hrev : ∀ l : list A, rev (f <$> l) = f <$> rev l).
  { induction l as [|a l IH]; [reflexivity|].
    cbn. now rewrite fmap_app, IH. }
  unfold Prisma.window. destruct (0 <=? take_).
  - now rewrite <- fmap_drop, <- fmap_take.
  - now rewrite Hrev, <- fmap_drop, <- fmap_take, Hrev.
Qed.

Lemma lines_recatalog (ls : list (CareSessionTreatment.t * option Treatment.t)) :
  alike (λ a b, lineFacts <$> b = lineFacts <$> a)
    (traverse QueueService.toTreatmentLine ls)
    (traverse QueueService.toTreatmentLine (reline g <$> ls)).
Proof.
  induction ls as [|[l [t|]] ls IH]; cbn; [reflexivity| |reflexivity].
  unfold alike in IH.
  destruct (traverse _ ls), (traverse _ (_ <$> ls)); cbn; try done.
  unfold lineFacts at 1 3. cbn. rewrite g_id. now f_equal.
Qed.

Lemma toQueueDetail_recatalog (r : SessionRow.t) :
  alike (λ a b, rowFacts b = rowFacts a)
    (QueueService.toQueueDetail r)
    (QueueService.toQueueDetail (recatalog g r)).
Proof.
  unfold QueueService.toQueueDetail, QueueService.transformCareSession.
  cbn [recatalog SessionRow.CareSessionTreatment SessionRow.session].
  pose proof (lines_recatalog (SessionRow.CareSessionTreatment r)) as H.
  unfold alike in H.
  destruct (traverse _ (SessionRow.CareSessionTreatment r)),
    (traverse _ (_ <$> SessionRow.CareSessionTreatment r)); cbn; try done.
  unfold rowFacts. cbn. now rewrite H.
Qed.

Lemma rows_recatalog (rows : list SessionRow.t) :
  alike (λ a b, rowFacts <$> b = rowFacts <$> a)
    (traverse QueueService.toQueueDetail rows)
    (traverse QueueService.toQueueDetail (recatalog g <$> rows)).
Proof.
  induction rows as [|r rows IH]; cbn; [reflexivity|].
  pose proof (toQueueDetail_recatalog r) as H. unfold alike in *.
  destruct (QueueService.toQueueDetail r),
    (QueueService.toQueueDetail (recatalog g r)); cbn; try done.
  destruct (traverse _ rows), (traverse _ (_ <$> rows)); cbn; try done.
  now f_equal.
Qed.

Lemma getAll_recatalog q page pageSize isQueueActive roomId status search
    w w2 :
  careSession (db w2) = careSession (db w) →
  patient (db w2) = patient (db w) →
  careSessionTreatment (db w2) = careSessionTreatment (db w) →
  treatment (db w2) = List.map g (treatment (db w)) →
  appliedPrices
    (QueueService.getAll contains rel q page pageSize isQueueActive roomId
       status search w2).1
  = appliedPrices
      (QueueService.getAll contains rel q page pageSize isQueueActive roomId
         status search w).1.
Proof.
  intros Hs Hp Hl Ht. unfold QueueService.getAll. step_m.
  rewrite !pageNumberOf_run. unfold QueueService.includedStatusesOf.
  destruct (Js.truthy status);
    [destruct (QueueService.statusNamed _); [|reflexivity]|];
    step_m;
    (destruct (Js.falsyNumber pageSize);
     unfold Pagination.promiseAll2, Prisma.careSession_findManyWhere,
       Prisma.careSession_countWhere;
     (destruct (queryFault q CareSessionFindManyWhere); [reflexivity|]);
     step_m;
     rewrite (matching_recatalog (db w) (db w2)) by assumption;
     match goal with
     | |- context [Prisma.ordered ?o ?m] => set (sessions := Prisma.ordered o m)
     end;
     rewrite (list_fmap_ext (Prisma.included rel (db w2))
                (recatalog g ∘ Prisma.included rel (db w)) sessions)
       by (intros; try reflexivity; now apply included_recatalog);
     rewrite list_fmap_compose;
     unfold Prisma.paged, liftResult).
  1, 3: step_m;
    pose proof (rows_recatalog (Prisma.included rel (db w) <$> sessions))
      as H; unfold alike in H;
    destruct (traverse _ (Prisma.included rel (db w) <$> sessions)),
      (traverse _ (recatalog g <$> _)); cbn; done.
  all: destruct (_ <? 0); [reflexivity|]; step_m;
    (destruct (queryFault q CareSessionCountWhere); [reflexivity|]);
    rewrite window_fmap;
    match goal with
    | |- context [recatalog g <$> ?rows] =>
        pose proof (rows_recatalog rows) as H
    end;
    unfold alike in H;
    match goal with
    | |- context [recatalog g <$> ?rows] =>
        destruct (traverse QueueService.toQueueDetail rows),
          (traverse QueueService.toQueueDetail (recatalog g <$> rows))
    end; cbn; done.
Qed.

End Recatalog.

Section CatalogUpdate.

Variable validation : TreatmentValidation.t.

(** [TreatmentService.update] rewrites catalog rows in place, keeping
    their ids, and touches no other table. *)
Lemma treatment_update_tables env id dto w :
  let w2 := (TreatmentService.update validation env id dto w).2 in
  careSession (db w2) = careSession (db w)
  ∧ patient (db w2) = patient (db w)
  ∧ careSessionTreatment (db w2) = careSessionTreatment (db w)
  ∧ ∃ g, (∀ t, Treatment.id (g t) = Treatment.id t)
         ∧ treatment (db w2) = List.map g (treatment (db w)).
Proof.
  assert (Hsame : ∀ w2 : World, db w2 = db w →
    careSession (db w2) = careSession (db w)
    ∧ patient (db w2) = patient (db w)
    ∧ careSessionTreatment (db w2) = careSessionTreatment (db w)
    ∧ ∃ g, (∀ t, Treatment.id (g t) = Treatment.id t)
           ∧ treatment (db w2) = List.map g (treatment (db w))).
  { intros w2 ->. repeat split. exists (λ t, t).
    split; [reflexivity|]. now rewrite map_id. }
  unfold TreatmentService.update.
  destruct (Js.parseInt id None) as [n|]; [|now apply Hsame].
  unfold validate.
  destruct (TreatmentValidation.UPDATE validation dto); [|now apply Hsame].
  unfold Prisma.treatment_update.
  destruct (storeFault env TreatmentUpdate) as [e|]; step_m.
  - destruct (bool_decide (code e = Some "P2025")); now apply Hsame.
  - destruct (List.find _ _) as [t|] eqn:Hfind; [|now apply Hsame].
    cbn. repeat split. eexists. split; [|reflexivity].
    intros r. cbn. destruct (Z.eqb_spec (Treatment.id r) n) as [E|E];
      [|reflexivity].
    cbn. pose proof (List.find_some _ _ Hfind) as [_ Hn%Z.eqb_eq]. lia.
Qed.

End CatalogUpdate.

(** X23.  The queue listing shows applied prices as they were frozen: a
    [TreatmentService.update], whatever it changes in the catalog and
    however it ends, leaves what [getAll] reports of every session's
    treatment lines (treatment id, quantity, applied price) as it was, for
    every choice of page, filter and search. *)
Theorem listing_keeps_applied_prices (validation : TreatmentValidation.t)
    (contains : string → string → bool) (rel : Relations)
    env id dto q page pageSize isQueueActive roomId status search w :
  appliedPrices
    (QueueService.getAll contains rel q page pageSize isQueueActive roomId
       status search (TreatmentService.update validation env id dto w).2).1
  = appliedPrices
      (QueueService.getAll contains rel q page pageSize isQueueActive roomId
         status search w).1.
Proof.
  destruct (treatment_update_tables validation env id dto w)
    as (Hs & Hp & Hl & g & Hg & Ht).
  now apply (getAll_recatalog contains rel g Hg).
Qed.

Example archive_prices_after_raise :
  let w2 := (TreatmentService.update acceptAllTreatments (calm 9000) "1"
               (UpdateTreatmentDto.mk None (Some 75000)) archive).2 in
  treatment (db w2)
  = [Treatment.mk 1 "Nebulizer" 75000; Treatment.mk 2 "Suture" 120000]
  ∧ appliedPrices
      (QueueService.getAll anywhere noRelations quiet "1" None None None
         None None w2).1
    = [(3, [(2, 1, 120000)]); (1, [(1, 2, 50000)])].
Proof. split; reflexivity. Qed.

(** ** Staff *)

Ltac step_s :=
  cbv beta iota zeta delta
    [sbind sret sthrow stryCatch sraiseIf getStaff setStaff svalidate].

Section Staffing.

Variable validation : EmployeeValidation.t.

Lemma indexOf_role role :
  (Js.indexOf role EmployeeService.roleValues =? -1) = false.
Proof. destruct role; reflexivity. Qed.

Lemma generateNip_inv o role s nip s' :
  EmployeeService.generateNip o role s = (Ok nip, s') →
  s' = s ∧ nip = nipFor (fullYear o) role (length (employees s)).
Proof.
  unfold EmployeeService.generateNip. rewrite indexOf_role.
  unfold PrismaEmployee.employee_count.
  destruct (staffFault o EmployeeCount); step_s; [discriminate|].
  intros [= <- <-]. split; reflexivity.
Qed.

Lemma generateNip_run o role s :
  staffFault o EmployeeCount = None →
  EmployeeService.generateNip o role s
  = (Ok (nipFor (fullYear o) role (length (employees s))), s).
Proof.
  intros Hc. unfold EmployeeService.generateNip. rewrite indexOf_role.
  unfold PrismaEmployee.employee_count. rewrite Hc. reflexivity.
Qed.

Lemma generateNip_state o role s :
  (EmployeeService.generateNip o role s).2 = s.
Proof.
  unfold EmployeeService.generateNip. rewrite indexOf_role.
  unfold PrismaEmployee.employee_count.
  destruct (staffFault o EmployeeCount); reflexivity.
Qed.

(** What a registration that returned has done. *)
Lemma add_inv o dto s r s' :
  EmployeeService.add validation o dto s = (Ok r, s') →
  let row := hired o dto (length (employees s)) in
  employees s' = employees s ++ [row]
  ∧ PrismaEmployee.repeated (employees s) row = None
  ∧ r = AddEmployeeResponse.mk (EmployeeService.toEmployeeDetail row) None
  ∧ outbox s'
    = outbox s ++ match sendMailFault o with
                  | None => [welcome o dto (length (employees s))]
                  | Some _ => []
                  end.
Proof.
  unfold EmployeeService.add. step_s.
  destruct (EmployeeService.generateNip o (AddEmployeeDto.role dto) s)
    as [[nip|e] s1] eqn:Hnip; [|discriminate].
  apply generateNip_inv in Hnip as [-> ->].
  destruct (EmployeeValidation.ADD validation _); [|discriminate].
  unfold PrismaEmployee.employee_countByEmail.
  destruct (staffFault o EmployeeCountByEmail); step_s; [discriminate|].
  destruct (negb _); [discriminate|].
  unfold PrismaEmployee.employee_create.
  destruct (staffFault o EmployeeCreate); step_s; [discriminate|].
  cbn [AddEmployeeRequest.set_password AddEmployeeRequest.id
       AddEmployeeRequest.nip AddEmployeeRequest.name
       AddEmployeeRequest.role AddEmployeeRequest.email
       AddEmployeeRequest.phone AddEmployeeRequest.password].
  fold (hired o dto (length (employees s))).
  destruct (PrismaEmployee.repeated (employees s) _) eqn:Hrep;
    [discriminate|].
  unfold MailerService.sendMail. cbn [employees outbox].
  destruct (sendMailFault o); intros [= <- <-]; cbn;
    rewrite ?app_nil_r; done.
Qed.

(** A registration that threw has changed nothing. *)
Lemma add_throw_inv o dto s e s' :
  EmployeeService.add validation o dto s = (Throw e, s') → s' = s.
Proof.
  unfold EmployeeService.add. step_s.
  pose proof (generateNip_state o (AddEmployeeDto.role dto) s) as Hst.
  destruct (EmployeeService.generateNip o (AddEmployeeDto.role dto) s)
    as [[nip|e0] s1]; cbn [snd] in Hst; subst s1; [|now intros [= _ <-]].
  destruct (EmployeeValidation.ADD validation _); [|now intros [= _ <-]].
  unfold PrismaEmployee.employee_countByEmail.
  destruct (staffFault o EmployeeCountByEmail); step_s;
    [now intros [= _ <-]|].
  destruct (negb _); [now intros [= _ <-]|].
  unfold PrismaEmployee.employee_create.
  destruct (staffFault o EmployeeCreate); step_s; [now intros [= _ <-]|].
  destruct (PrismaEmployee.repeated (employees s) _);
    [now intros [= _ <-]|].
  unfold MailerService.sendMail.
  destruct (sendMailFault o); discriminate.
Qed.

Lemma no_such_email (rows : list Employee.t) email :
  email ∉ Employee.email <$> rows →
  filter (λ e, Employee.email e = email) rows = [].
Proof.
  induction rows as [|e l IH]; [reflexivity|].
  rewrite fmap_cons, not_elem_of_cons. intros [Hne Hl].
  rewrite filter_cons_False by congruence. now apply IH.
Qed.

(** A registration with a fresh id, NIP and mail address goes through. *)
Lemma add_run o dto s :
  staffFault o EmployeeCount = None →
  staffFault o EmployeeCountByEmail = None →
  staffFault o EmployeeCreate = None →
  EmployeeValidation.ADD validation (addRequest o dto (length (employees s)))
  = true →
  AddEmployeeDto.email dto ∉ Employee.email <$> employees s →
  PrismaEmployee.repeated (employees s) (hired o dto (length (employees s)))
  = None →
  EmployeeService.add validation o dto s
  = (Ok (AddEmployeeResponse.mk
           (EmployeeService.toEmployeeDetail
              (hired o dto (length (employees s)))) None),
     mkStaff (employees s ++ [hired o dto (length (employees s))])
       (outbox s ++ match sendMailFault o with
                    | None => [welcome o dto (length (employees s))]
                    | Some _ => []
                    end)).
Proof.
  intros Hc He Hcr Hv Hmail Hrep.
  unfold EmployeeService.add. unfold sbind at 1.
  rewrite generateNip_run by exact Hc.
  unfold sbind at 1, svalidate. fold (addRequest o dto (length (employees s))).
  rewrite Hv. step_s.
  unfold PrismaEmployee.employee_countByEmail. rewrite He. step_s.
  rewrite (no_such_email _ _ Hmail).
  change (negb (Z.of_nat (length []) =? 0)) with false. cbv iota.
  unfold PrismaEmployee.employee_create. rewrite Hcr. step_s.
  cbn [AddEmployeeRequest.set_password AddEmployeeRequest.id
       AddEmployeeRequest.nip AddEmployeeRequest.name
       AddEmployeeRequest.role AddEmployeeRequest.email
       AddEmployeeRequest.phone AddEmployeeRequest.password addRequest].
  fold (hired o dto (length (employees s))). rewrite Hrep.
  unfold MailerService.sendMail. cbn [employees outbox].
  destruct (sendMailFault o); cbn; rewrite ?app_nil_r; reflexivity.
Qed.

Lemma repeated_none (rows : list Employee.t) row :
  PrismaEmployee.repeated rows row = None →
  (Employee.id row ∉ Employee.id <$> rows)
  ∧ (Employee.nip row ∉ Employee.nip <$> rows)
  ∧ (Employee.email row ∉ Employee.email <$> rows).
Proof.
  unfold PrismaEmployee.repeated. repeat case_bool_decide; done.
Qed.

Lemma repeated_fresh (rows : list Employee.t) row :
  Employee.id row ∉ Employee.id <$> rows →
  Employee.nip row ∉ Employee.nip <$> rows →
  Employee.email row ∉ Employee.email <$> rows →
  PrismaEmployee.repeated rows row = None.
Proof.
  intros. unfold PrismaEmployee.repeated.
  now rewrite !bool_decide_eq_false_2.
Qed.

Lemma repeated_nip (rows : list Employee.t) row :
  Employee.id row ∉ Employee.id <$> rows →
  Employee.nip row ∈ Employee.nip <$> rows →
  PrismaEmployee.repeated rows row = Some "nip".
Proof.
  intros. unfold PrismaEmployee.repeated.
  now rewrite bool_decide_eq_false_2, bool_decide_eq_true_2.
Qed.

Lemma delete_inv o id s msg s' :
  EmployeeService.delete o id s = (Ok msg, s') →
  employees s'
  = List.filter (λ r, negb (String.eqb (Employee.id r) id)) (employees s)
  ∧ outbox s' = outbox s.
Proof.
  unfold EmployeeService.delete, PrismaEmployee.employee_delete.
  destruct (staffFault o EmployeeDelete) as [e|]; step_s.
  { destruct (bool_decide (code e = Some "P2025")); discriminate. }
  destruct (List.find _ (employees s)); [|discriminate].
  intros [= _ <-]. done.
Qed.

Lemma filter_out_absent (rows : list Employee.t) id :
  id ∉ Employee.id <$> rows →
  List.filter (λ r, negb (String.eqb (Employee.id r) id)) rows = rows.
Proof.
  induction rows as [|e l IH]; [reflexivity|].
  rewrite fmap_cons, not_elem_of_cons. intros [Hne Hl]. simpl.
  destruct (String.eqb_spec (Employee.id e) id); [congruence|].
  simpl. now rewrite IH.
Qed.

(** The registration that follows two hires and the departure of the
    first composes the NIP of the second. *)
Lemma rehire_nip oA oB oD dtoA dtoB s0 rA sA rB sB msg sD :
  EmployeeService.add validation oA dtoA s0 = (Ok rA, sA) →
  EmployeeService.add validation oB dtoB sA = (Ok rB, sB) →
  EmployeeService.delete oD
    (EmployeeDetail.id (AddEmployeeResponse.user rA)) sB = (Ok msg, sD) →
  employees sD
  = employees s0 ++ [hired oB dtoB (S (length (employees s0)))]
  ∧ outbox sD = outbox sB.
Proof.
  intros HA HB HD.
  apply add_inv in HA as (EA & RA & -> & _).
  apply add_inv in HB as (EB & RB & _ & _).
  apply delete_inv in HD as (ED & Hout). split; [|exact Hout].
  rewrite ED, EB, EA. cbn [AddEmployeeResponse.user EmployeeDetail.id
    EmployeeService.toEmployeeDetail].
  apply repeated_none in RA as (HidA & _ & _).
  apply repeated_none in RB as (HidB & _ & _).
  rewrite EA in HidB. rewrite length_app, Nat.add_1_r.
  rewrite fmap_app, not_elem_of_app in HidB. destruct HidB as [_ HidB].
  rewrite !List.filter_app. rewrite filter_out_absent by exact HidA.
  rewrite <- app_assoc. f_equal. cbn [List.filter].
  rewrite String.eqb_refl. cbn [negb app].
  rewrite length_app, Nat.add_1_r in HidB.
  destruct (String.eqb_spec
              (Employee.id (hired oB dtoB (S (length (employees s0)))))
              (Employee.id (hired oA dtoA (length (employees s0)))))
    as [E|_]; [|reflexivity].
  exfalso. apply HidB. rewrite E. set_solver.
Qed.

End Staffing.

(** X24.  NIPs are composed from the head count, so they repeat after a
    departure.  When two employees have been registered and the first of
    them has been deleted, a registration for the role of the second in the
    same year cannot succeed: it throws and stores nothing, and when
    nothing else is wrong the error is the unique-constraint violation on
    the NIP. *)
Theorem rehire_after_delete_collides (validation : EmployeeValidation.t)
    oA oB oC oD dtoA dtoB dtoC s0 rA sA rB sB msg sD :
  EmployeeService.add validation oA dtoA s0 = (Ok rA, sA) →
  EmployeeService.add validation oB dtoB sA = (Ok rB, sB) →
  EmployeeService.delete oD
    (EmployeeDetail.id (AddEmployeeResponse.user rA)) sB = (Ok msg, sD) →
  fullYear oC = fullYear oB →
  AddEmployeeDto.role dtoC = AddEmployeeDto.role dtoB →
  ∃ e,
    EmployeeService.add validation oC dtoC sD = (Throw e, sD)
    ∧ (noStaffFaults oC →
       EmployeeValidation.ADD validation
         (addRequest oC dtoC (length (employees sD))) = true →
       AddEmployeeDto.email dtoC ∉ Employee.email <$> employees sD →
       uuid oC ∉ Employee.id <$> employees sD →
       e = PrismaEmployee.UNIQUE_CONSTRAINT_FAILED "nip").
Proof.
  intros HA HB HD Hyear Hrole.
  destruct (rehire_nip validation _ _ _ _ _ _ _ _ _ _ _ _ HA HB HD)
    as (ED & _).
  assert (Hlen : length (employees sD) = S (length (employees s0)))
    by (rewrite ED, length_app; simpl; lia).
  assert (Hnip : Employee.nip (hired oC dtoC (length (employees sD)))
                 ∈ Employee.nip <$> employees sD).
  { rewrite Hlen. rewrite ED at 1. rewrite fmap_app.
    apply elem_of_app. right. cbn. rewrite Hyear, Hrole. left. }
  destruct (EmployeeService.add validation oC dtoC sD) as [[r|e] s'] eqn:HC.
  { apply add_inv in HC as (_ & HR & _).
    apply repeated_none in HR as (_ & HR & _). contradiction. }
  pose proof (add_throw_inv validation _ _ _ _ _ HC) as ->.
  exists e. split; [reflexivity|].
  intros Hq Hv Hmail Hid.
  revert HC. unfold EmployeeService.add. unfold sbind at 1.
  rewrite generateNip_run by apply Hq.
  unfold sbind at 1, svalidate.
  fold (addRequest oC dtoC (length (employees sD))).
  rewrite Hv. step_s.
  unfold PrismaEmployee.employee_countByEmail. rewrite Hq. step_s.
  rewrite (no_such_email _ _ Hmail).
  change (negb (Z.of_nat (length []) =? 0)) with false. cbv iota.
  unfold PrismaEmployee.employee_create. rewrite Hq. step_s.
  cbn [AddEmployeeRequest.set_password AddEmployeeRequest.id
       AddEmployeeRequest.nip AddEmployeeRequest.name
       AddEmployeeRequest.role AddEmployeeRequest.email
       AddEmployeeRequest.phone AddEmployeeRequest.password addRequest].
  fold (hired oC dtoC (length (employees sD))).
  rewrite (repeated_nip (employees sD)
             (hired oC dtoC (length (employees sD))) Hid Hnip).
  now intros [= <-].
Qed.

Lemma rehire_after_delete_collides_witness :
  let sA := (EmployeeService.add acceptAllEmployees (desk "id-1" 2025 0) ani
               emptyStaff).2 in
  let sB := (EmployeeService.add acceptAllEmployees (desk "id-2" 2025 1) budi
               sA).2 in
  let sD := (EmployeeService.delete (desk "" 2025 0) "id-1" sB).2 in
  ∃ e,
    EmployeeService.add acceptAllEmployees (desk "id-3" 2025 2) citra sD
    = (Throw e, sD)
    ∧ (noStaffFaults (desk "id-3" 2025 2) →
       EmployeeValidation.ADD acceptAllEmployees
         (addRequest (desk "id-3" 2025 2) citra (length (employees sD)))
       = true →
       AddEmployeeDto.email citra ∉ Employee.email <$> employees sD →
       uuid (desk "id-3" 2025 2) ∉ Employee.id <$> employees sD →
       e = PrismaEmployee.UNIQUE_CONSTRAINT_FAILED "nip").
Proof.
  intros sA sB sD.
  apply (rehire_after_delete_collides acceptAllEmployees
           (desk "id-1" 2025 0) (desk "id-2" 2025 1) (desk "id-3" 2025 2)
           (desk "" 2025 0) ani budi citra emptyStaff
           (AddEmployeeResponse.mk
              (EmployeeService.toEmployeeDetail
                 (hired (desk "id-1" 2025 0) ani 0)) None)
           sA
           (AddEmployeeResponse.mk
              (EmployeeService.toEmployeeDetail
                 (hired (desk "id-2" 2025 1) budi 1)) None)
           sB "Successfully deleted: id-1" sD);
    reflexivity.
Defined.

Example staff_after_departure :
  let sA := (EmployeeService.add acceptAllEmployees (desk "id-1" 2025 0) ani
               emptyStaff).2 in
  let sB := (EmployeeService.add acceptAllEmployees (desk "id-2" 2025 1) budi
               sA).2 in
  let sD := (EmployeeService.delete (desk "" 2025 0) "id-1" sB).2 in
  Employee.nip <$> employees sB = ["25020001"; "25030002"]
  ∧ Employee.nip <$> employees sD = ["25030002"]
  ∧ (EmployeeService.add acceptAllEmployees (desk "id-3" 2025 2) citra sD).1
    = Throw (PrismaEmployee.UNIQUE_CONSTRAINT_FAILED "nip").
Proof. repeat split; reflexivity. Qed.

(** X25.  A mailer failure does not fail the registration: the employee is
    stored and the call returns as it does when the mailer works, but no
    welcome mail leaves, and the generated password, of which only the
    hash is stored, is in neither the answer nor the outbox. *)
Theorem mailer_failure_is_swallowed (validation : EmployeeValidation.t)
    o dto s e :
  sendMailFault o = Some e →
  noStaffFaults o →
  EmployeeValidation.ADD validation (addRequest o dto (length (employees s)))
  = true →
  AddEmployeeDto.email dto ∉ Employee.email <$> employees s →
  PrismaEmployee.repeated (employees s) (hired o dto (length (employees s)))
  = None →
  let row := hired o dto (length (employees s)) in
  EmployeeService.add validation o dto s
  = (Ok (AddEmployeeResponse.mk (EmployeeService.toEmployeeDetail row) None),
     mkStaff (employees s ++ [row]) (outbox s))
  ∧ Employee.password row
    = bcryptHash o
        (EmployeeService.generatePassword o (AddEmployeeDto.role dto)
           (Employee.nip row)).
Proof.
  intros Hm Hq Hv Hmail Hrep row. split; [|reflexivity].
  rewrite (add_run validation o dto s (Hq _) (Hq _) (Hq _) Hv Hmail Hrep).
  rewrite Hm, app_nil_r. reflexivity.
Qed.

Lemma mailer_failure_is_swallowed_witness :
  EmployeeService.add acceptAllEmployees (mailerDown (desk "id-1" 2025 0))
    ani emptyStaff
  = (Ok (AddEmployeeResponse.mk
           (EmployeeDetail.mk "id-1" "25020001" "Ani" "ani@klinik.id" "0811"
              DOKTER) None),
     mkStaff [Employee.mk "id-1" "25020001" "Ani" DOKTER "ani@klinik.id"
                "0811" "bcrypt:TKD1000!" None] []).
Proof.
  apply (mailer_failure_is_swallowed acceptAllEmployees
           (mailerDown (desk "id-1" 2025 0)) ani emptyStaff socketClosed);
    try reflexivity.
  - intros op. reflexivity.
  - apply not_elem_of_nil.
Defined.

Section SignIn.

Lemma find_map_key {A} (key : A → string) (f : A → A) (l : list A) k :
  (∀ x, key (f x) = key x) →
  List.find (λ x, String.eqb (key x) k) (List.map f l)
  = f <$> List.find (λ x, String.eqb (key x) k) l.
Proof.
  intros Hkey. induction l as [|a l IH]; [reflexivity|].
  cbn [List.map List.find]. rewrite Hkey.
  destruct (String.eqb (key a) k); [reflexivity|exact IH].
Qed.

Lemma find_by_key {A} (key : A → string) (l : list A) a :
  NoDup (key <$> l) → a ∈ l →
  List.find (λ x, String.eqb (key x) (key a)) l = Some a.
Proof.
  induction l as [|b l IH]; [intros _ H; inversion H|].
  rewrite fmap_cons, NoDup_cons. intros [Hb Hnd] Ha. simpl.
  destruct (String.eqb_spec (key b) (key a)) as [E|E].
  - apply elem_of_cons in Ha as [->|Ha]; [reflexivity|].
    exfalso. apply Hb. rewrite E. apply list_elem_of_fmap. now exists a.
  - apply elem_of_cons in Ha as [->|Ha]; [contradiction|]. now apply IH.
Qed.

Lemma find_snoc_new {A} (f : A → bool) (l : list A) a :
  (∀ x, x ∈ l → f x = false) → f a = true →
  List.find f (l ++ [a]) = Some a.
Proof.
  intros Hl Ha. induction l as [|b l IH]; simpl; [now rewrite Ha|].
  rewrite (Hl b) by left. apply IH. intros x Hx. apply Hl. now right.
Qed.

(** What a sign-in that returned has done. *)
Lemma login_inv o dto s r s' :
  AuthService.login o dto s = (Ok r, s') →
  ∃ u tok,
    List.find (λ e, String.eqb (Employee.nip e) (AuthLoginDto.nip dto))
      (employees s) = Some u
    ∧ bcryptCompare o (AuthLoginDto.password dto) (Employee.password u)
      = true
    ∧ signAsync o (Employee.id u) (Employee.name u) = Ok tok
    ∧ r = AuthResponse.mk (EmployeeService.toEmployeeDetail u) (Some tok)
    ∧ employees s'
      = List.map (λ e, if String.eqb (Employee.nip e) (AuthLoginDto.nip dto)
                       then Employee.set_token (Some tok) e else e)
                 (employees s)
    ∧ outbox s' = outbox s.
Proof.
  unfold AuthService.login. step_s.
  destruct (AuthValidation.LOGIN dto); [|discriminate].
  unfold PrismaEmployee.employee_findUnique.
  destruct (staffFault o EmployeeFindUnique); step_s; [discriminate|].
  destruct (List.find _ (employees s)) as [u|] eqn:Hfind; [|discriminate].
  destruct (bcryptCompare o _ _) eqn:Hcmp; [|discriminate]. cbn [negb].
  destruct (signAsync o _ _) as [tok|] eqn:Hsign; [|discriminate].
  unfold PrismaEmployee.employee_updateToken.
  destruct (staffFault o EmployeeUpdate); step_s; [discriminate|].
  rewrite Hfind. intros [= <- <-]. exists u, tok. done.
Qed.

Lemma login_run o dto s u tok :
  AuthValidation.LOGIN dto = true →
  staffFault o EmployeeFindUnique = None →
  staffFault o EmployeeUpdate = None →
  List.find (λ e, String.eqb (Employee.nip e) (AuthLoginDto.nip dto))
    (employees s) = Some u →
  bcryptCompare o (AuthLoginDto.password dto) (Employee.password u) = true →
  signAsync o (Employee.id u) (Employee.name u) = Ok tok →
  AuthService.login o dto s
  = (Ok (AuthResponse.mk (EmployeeService.toEmployeeDetail u) (Some tok)),
     mkStaff
       (List.map (λ e, if String.eqb (Employee.nip e) (AuthLoginDto.nip dto)
                       then Employee.set_token (Some tok) e else e)
                 (employees s))
       (outbox s)).
Proof.
  intros Hv Hf Hu Hfind Hcmp Hsign.
  unfold AuthService.login, svalidate. rewrite Hv. step_s.
  unfold PrismaEmployee.employee_findUnique. rewrite Hf. step_s.
  rewrite Hfind, Hcmp. cbn [negb]. rewrite Hsign.
  unfold PrismaEmployee.employee_updateToken. rewrite Hu. step_s.
  rewrite Hfind. reflexivity.
Qed.

End SignIn.

(** X26.  The mailed credentials work.  After a registration whose mail
    went out, signing in with the NIP and the password of that mail
    succeeds, provided bcrypt accepts the password against its own hash,
    the validation accepts the two strings and the store and the JWT
    service work; the answer carries the new employee and the signed
    token. *)
Theorem mailed_credentials_sign_in (validation : EmployeeValidation.t)
    o dto s r s1 o' tok :
  EmployeeService.add validation o dto s = (Ok r, s1) →
  sendMailFault o = None →
  ∃ m,
    last (outbox s1) = Some m
    ∧ Mail.to m = AddEmployeeDto.email dto
    ∧ (noStaffFaults o' →
       AuthValidation.LOGIN (AuthLoginDto.mk (Mail.nip m) (Mail.password m))
       = true →
       bcryptCompare o' (Mail.password m) (bcryptHash o (Mail.password m))
       = true →
       signAsync o' (uuid o) (AddEmployeeDto.name dto) = Ok tok →
       ∃ s2,
         AuthService.login o'
           (AuthLoginDto.mk (Mail.nip m) (Mail.password m)) s1
         = (Ok (AuthResponse.mk (AddEmployeeResponse.user r) (Some tok)), s2)
         ∧ outbox s2 = outbox s1).
Proof.
  intros Hadd Hmail.
  apply add_inv in Hadd as (Erows & Hrep & -> & Eout).
  rewrite Hmail in Eout.
  exists (welcome o dto (length (employees s))).
  split; [rewrite Eout; apply last_snoc|]. split; [reflexivity|].
  intros Hq Hv Hcmp Hsign.
  apply repeated_none in Hrep as (_ & Hnip & _).
  rewrite (login_run o' _ s1 (hired o dto (length (employees s))) tok);
    try done.
  - eexists. split; reflexivity.
  - rewrite Erows. apply find_snoc_new; [|apply String.eqb_refl].
    intros x Hx. apply String.eqb_neq. intros E. apply Hnip.
    cbn in E. cbn. rewrite <- E. apply list_elem_of_fmap. now exists x.
Qed.

Lemma mailed_credentials_sign_in_witness :
  ∃ m,
    last (outbox (EmployeeService.add acceptAllEmployees
                    (desk "id-1" 2025 0) ani emptyStaff).2) = Some m
    ∧ Mail.to m = "ani@klinik.id"
    ∧ (noStaffFaults (desk "" 2025 0) →
       AuthValidation.LOGIN (AuthLoginDto.mk (Mail.nip m) (Mail.password m))
       = true →
       bcryptCompare (desk "" 2025 0) (Mail.password m)
         (bcryptHash (desk "id-1" 2025 0) (Mail.password m)) = true →
       signAsync (desk "" 2025 0) "id-1" "Ani" = Ok "jwt:id-1:Ani" →
       ∃ s2,
         AuthService.login (desk "" 2025 0)
           (AuthLoginDto.mk (Mail.nip m) (Mail.password m))
           (EmployeeService.add acceptAllEmployees (desk "id-1" 2025 0) ani
              emptyStaff).2
         = (Ok (AuthResponse.mk
                  (EmployeeDetail.mk "id-1" "25020001" "Ani" "ani@klinik.id"
                     "0811" DOKTER) (Some "jwt:id-1:Ani")), s2)
         ∧ outbox s2
           = outbox (EmployeeService.add acceptAllEmployees
                       (desk "id-1" 2025 0) ani emptyStaff).2).
Proof.
  apply (mailed_credentials_sign_in acceptAllEmployees (desk "id-1" 2025 0)
           ani emptyStaff
           (AddEmployeeResponse.mk
              (EmployeeDetail.mk "id-1" "25020001" "Ani" "ani@klinik.id"
                 "0811" DOKTER) None)
           _ (desk "" 2025 0) "jwt:id-1:Ani");
    reflexivity.
Defined.

Example ani_signs_in :
  let s1 := (EmployeeService.add acceptAllEmployees (desk "id-1" 2025 0) ani
               emptyStaff).2 in
  outbox s1
  = [Mail.mk "ani@klinik.id" "Informasi Akun MFlow Anda" "Ani" "25020001"
       "TKD1000!"]
  ∧ (AuthService.login (desk "" 2025 0)
       (AuthLoginDto.mk "25020001" "TKD1000!") s1).1
    = Ok (AuthResponse.mk
            (EmployeeDetail.mk "id-1" "25020001" "Ani" "ani@klinik.id" "0811"
               DOKTER) (Some "jwt:id-1:Ani")).
Proof. split; reflexivity. Qed.

(** X27.  A failed sign-in does not say why.  For a request that passes
    validation, an unknown NIP and a wrong password get the same answer,
    the 401 [NIP atau password salah!], and neither changes anything. *)
Theorem sign_in_failures_look_alike o dto s :
  AuthValidation.LOGIN dto = true →
  staffFault o EmployeeFindUnique = None →
  (∀ e, e ∈ employees s → Employee.nip e = AuthLoginDto.nip dto →
        bcryptCompare o (AuthLoginDto.password dto) (Employee.password e)
        = false) →
  AuthService.login o dto s
  = (Throw (HttpException "NIP atau password salah!" 401), s).
Proof.
  intros Hv Hf Hwrong.
  unfold AuthService.login, svalidate. rewrite Hv. step_s.
  unfold PrismaEmployee.employee_findUnique. rewrite Hf. step_s.
  destruct (List.find _ (employees s)) as [u|] eqn:Hfind; [|reflexivity].
  apply List.find_some in Hfind as [Hin Hnip%String.eqb_eq].
  rewrite (Hwrong u) by (try apply list_elem_of_In; assumption).
  reflexivity.
Qed.

Lemma sign_in_failures_look_alike_witness :
  let s1 := (EmployeeService.add acceptAllEmployees (desk "id-1" 2025 0) ani
               emptyStaff).2 in
  AuthService.login (desk "" 2025 0) (AuthLoginDto.mk "25020001" "guess") s1
  = (Throw (HttpException "NIP atau password salah!" 401), s1)
  ∧ AuthService.login (desk "" 2025 0) (AuthLoginDto.mk "25029999" "guess")
      s1
    = (Throw (HttpException "NIP atau password salah!" 401), s1).
Proof.
  intros s1. split.
  - apply (sign_in_failures_look_alike (desk "" 2025 0)
             (AuthLoginDto.mk "25020001" "guess") s1); try reflexivity.
    intros e He _. apply list_elem_of_singleton in He. subst e. reflexivity.
  - apply (sign_in_failures_look_alike (desk "" 2025 0)
             (AuthLoginDto.mk "25029999" "guess") s1); try reflexivity.
    intros e He Hnip. apply list_elem_of_singleton in He. subst e.
    discriminate Hnip.
Defined.

(** X28.  Signing out undoes signing in.  On a table with distinct ids
    and NIPs, after a sign-in that returned, [logout] with the id of the
    answer returns the same employee with no token, and leaves the table
    as it was before the sign-in except that this employee's token is
    null: whatever token the row held before is gone too. *)
Theorem sign_out_clears_the_token o dto s r s1 o' :
  NoDup (Employee.id <$> employees s) →
  NoDup (Employee.nip <$> employees s) →
  AuthService.login o dto s = (Ok r, s1) →
  staffFault o' EmployeeUpdate = None →
  AuthService.logout o' (EmployeeDetail.id (AuthResponse.user r)) s1
  = (Ok (AuthResponse.mk (AuthResponse.user r) None),
     mkStaff
       (List.map (λ e, if String.eqb (Employee.id e)
                            (EmployeeDetail.id (AuthResponse.user r))
                       then Employee.set_token None e else e)
                 (employees s))
       (outbox s)).
Proof.
  intros Hids Hnips Hlogin Hu.
  apply login_inv in Hlogin as (u & tok & Hfind & _ & _ & -> & Erows & Eout).
  cbn [AuthResponse.user EmployeeDetail.id EmployeeService.toEmployeeDetail].
  pose proof (List.find_some _ _ Hfind) as [Hin Hnip%String.eqb_eq].
  apply list_elem_of_In in Hin.
  unfold AuthService.logout, PrismaEmployee.employee_updateToken.
  rewrite Hu. step_s. rewrite Erows.
  rewrite (find_map_key Employee.id) by (intros x; now destruct (_ =? _)%string).
  rewrite (find_by_key Employee.id _ u Hids Hin). cbn [fmap option_fmap option_map].
  rewrite <- Hnip, String.eqb_refl. cbn. rewrite Eout. do 2 f_equal.
  rewrite <- Hnip in Erows. rewrite Erows, List.map_map. apply map_ext_in. intros x Hx%list_elem_of_In.
  destruct (String.eqb_spec (Employee.nip x) (Employee.nip u)) as [E|E].
  - assert (x = u) as ->.
    { pose proof (find_by_key Employee.nip _ x Hnips Hx) as H1.
      pose proof (find_by_key Employee.nip _ u Hnips Hin) as H2.
      rewrite E in H1. congruence. }
    cbn. rewrite String.eqb_refl. reflexivity.
  - destruct (String.eqb_spec (Employee.id x) (Employee.id u)) as [E'|E'];
      [|reflexivity].
    exfalso. apply E.
    pose proof (find_by_key Employee.id _ x Hids Hx) as H1.
    pose proof (find_by_key Employee.id _ u Hids Hin) as H2.
    rewrite E' in H1. congruence.
Qed.

Lemma sign_out_clears_the_token_witness :
  let s := (EmployeeService.add acceptAllEmployees (desk "id-1" 2025 0) ani
              emptyStaff).2 in
  let s1 := (AuthService.login (desk "" 2025 0)
               (AuthLoginDto.mk "25020001" "TKD1000!") s).2 in
  AuthService.logout (desk "" 2025 0) "id-1" s1
  = (Ok (AuthResponse.mk
           (EmployeeDetail.mk "id-1" "25020001" "Ani" "ani@klinik.id" "0811"
              DOKTER) None), s).
Proof.
  intros s s1.
  apply (sign_out_clears_the_token (desk "" 2025 0)
           (AuthLoginDto.mk "25020001" "TKD1000!") s
           (AuthResponse.mk
              (EmployeeDetail.mk "id-1" "25020001" "Ani" "ani@klinik.id"
                 "0811" DOKTER) (Some "jwt:id-1:Ani"))
           s1 (desk "" 2025 0));
    try reflexivity.
  - apply (bool_decide_unpack _). vm_compute. exact I.
  - apply (bool_decide_unpack _). vm_compute. exact I.
Defined.

(** ** The layout of a NIP *)

Section NipLayout.

Variable validation : EmployeeValidation.t.

Lemma append_cons c a b : String c a +:+ b = String c (a +:+ b).
Proof. reflexivity. Qed.

Lemma append_inj_l a a' b b' :
  String.length a = String.length a' → a +:+ b = a' +:+ b' → b = b'.
Proof.
  revert a'. induction a as [|c a IH]; intros [|c' a'] Hlen E;
    try discriminate Hlen.
  - exact E.
  - rewrite !append_cons in E. injection E as _ E.
    apply (IH a'); [simpl in Hlen; lia|exact E].
Qed.

Lemma digitsOf_longer fuel :
  ∀ n acc,
    (String.length acc < String.length (Js.digitsOf (S fuel) n acc))%nat.
Proof.
  induction fuel as [|fuel IH]; intros n acc.
  - cbn [Js.digitsOf]. destruct (n <? 10); simpl; lia.
  - change (Js.digitsOf (S (S fuel)) n acc)
      with (if n <? 10 then String (Js.digitChar (n mod 10)) acc
            else Js.digitsOf (S fuel) (n / 10)
                   (String (Js.digitChar (n mod 10)) acc)).
    destruct (n <? 10); [cbn [String.length]; lia|].
    specialize (IH (n / 10) (String (Js.digitChar (n mod 10)) acc)).
    cbn [String.length] in IH. lia.
Qed.

Lemma sliceLast_length k s :
  String.length (Js.sliceLast k s) = (k `min` String.length s)%nat.
Proof.
  induction s as [|c s IH]; [simpl; lia|].
  cbn [Js.sliceLast].
  destruct (Nat.leb_spec (String.length (String c s)) k) as [H|H].
  - lia.
  - rewrite IH. simpl in *. lia.
Qed.

Lemma year_code_length y :
  10 ≤ y →
  String.length (Js.sliceLast 2 (Js.toString (Some y))) = 2%nat.
Proof.
  intros Hy. rewrite sliceLast_length.
  unfold Js.toString, Js.intToString.
  destruct (Z.ltb_spec y 0) as [?|_]; [lia|].
  change (Js.digitsOf 22 y "")
    with (if y <? 10 then String (Js.digitChar (y mod 10)) ""
          else Js.digitsOf 21 (y / 10) (String (Js.digitChar (y mod 10)) "")).
  destruct (Z.ltb_spec y 10) as [?|_]; [lia|].
  pose proof (digitsOf_longer 20 (y / 10)
                (String (Js.digitChar (y mod 10)) "")) as H.
  cbn [String.length] in H. lia.
Qed.

Lemma role_code_length role :
  String.length
    (Js.padStart 2 "0"
       (Js.toString (Some (Js.indexOf role EmployeeService.roleValues + 1))))
  = 2%nat.
Proof. destruct role; reflexivity. Qed.

Lemma padded_sequence_inj a b :
  0 ≤ a < 10000 → 0 ≤ b < 10000 →
  Js.padStart 4 "0" (Js.toString (Some a))
  = Js.padStart 4 "0" (Js.toString (Some b)) →
  a = b.
Proof.
  intros Ha Hb.
  rewrite !(padStart_toString 4) by (simpl; lia).
  cbn [fixedDigits]. intros E. injection E as E3 E2 E1 E0.
  apply digitChar_inj in E3, E2, E1, E0;
    try (Z.div_mod_to_equations; lia).
Qed.

Lemma nipFor_layout year role n :
  10 ≤ year →
  ∃ yy rr, String.length yy = 2%nat ∧ String.length rr = 2%nat
           ∧ nipFor year role n
             = yy +:+ rr
               +:+ Js.padStart 4 "0" (Js.toString (Some (Z.of_nat n + 1))).
Proof.
  intros Hy. eexists _, _.
  split; [apply (year_code_length year Hy)|].
  split; [apply (role_code_length role)|reflexivity].
Qed.

(** In a table numbered in order the next NIP is new. *)
Lemma next_nip_is_new (rows : list Employee.t) year role :
  hiredInOrder rows → Z.of_nat (length rows) < 9999 → 10 ≤ year →
  nipFor year role (length rows) ∉ Employee.nip <$> rows.
Proof.
  intros Hord Hlen Hy Hin.
  apply list_elem_of_fmap in Hin as (row & Hnip & Hrow).
  apply list_elem_of_lookup in Hrow as [i Hi].
  pose proof (lookup_lt_Some _ _ _ Hi) as Hlt.
  destruct (Hord i row Hi) as (yy & rr & Hyy & Hrr & E).
  destruct (nipFor_layout year role (length rows) Hy)
    as (yy' & rr' & Hyy' & Hrr' & E').
  rewrite E, E' in Hnip.
  apply append_inj_l in Hnip; [|lia].
  apply append_inj_l in Hnip; [|lia].
  apply padded_sequence_inj in Hnip; lia.
Qed.

Lemma add_keeps_order o dto s :
  10 ≤ fullYear o →
  hiredInOrder (employees s) →
  hiredInOrder (employees (EmployeeService.add validation o dto s).2).
Proof.
  intros Hy Hord.
  destruct (EmployeeService.add validation o dto s) as [[r|e] s'] eqn:Hadd;
    cbn [snd].
  - apply add_inv in Hadd as (-> & _).
    intros i row Hi. apply lookup_app_Some in Hi as [Hi|[Hge Hi]].
    + now apply Hord.
    + apply list_lookup_singleton_Some in Hi as [Hi <-].
      replace i with (length (employees s)) by lia.
      apply nipFor_layout, Hy.
  - apply add_throw_inv in Hadd as ->. exact Hord.
Qed.

Lemma hireAll_keeps_order calls s :
  Forall (λ c, 10 ≤ fullYear c.1) calls →
  hiredInOrder (employees s) →
  hiredInOrder (employees (hireAll validation calls s)).
Proof.
  intros Hcalls. revert s.
  induction Hcalls as [|[o dto] rest Hy _ IH]; intros s Hord; [exact Hord|].
  cbn [hireAll]. apply IH. now apply add_keeps_order.
Qed.

End NipLayout.

(** X29.  Without departures NIPs never collide.  In a table filled by
    registrations alone, processed one after another in years of at least
    two digits, and holding fewer than 9999 employees, the NIP composed
    for the next registration is not on record; the registration goes
    through whenever the store works, validation accepts the request and
    the id and mail address are new. *)
Theorem hires_without_departures_never_collide
    (validation : EmployeeValidation.t) calls o dto :
  Forall (λ c, 10 ≤ fullYear c.1) calls →
  10 ≤ fullYear o →
  let s := hireAll validation calls (mkStaff [] []) in
  let row := hired o dto (length (employees s)) in
  Z.of_nat (length (employees s)) < 9999 →
  (Employee.nip row ∉ Employee.nip <$> employees s)
  ∧ (noStaffFaults o →
     EmployeeValidation.ADD validation
       (addRequest o dto (length (employees s))) = true →
     AddEmployeeDto.email dto ∉ Employee.email <$> employees s →
     uuid o ∉ Employee.id <$> employees s →
     ∃ s',
       EmployeeService.add validation o dto s
       = (Ok (AddEmployeeResponse.mk (EmployeeService.toEmployeeDetail row)
                None), s')
       ∧ employees s' = employees s ++ [row]).
Proof.
  intros Hcalls Hy s row Hlen.
  assert (Hord : hiredInOrder (employees s)).
  { apply hireAll_keeps_order; [exact Hcalls|]. intros i r Hi. inversion Hi. }
  assert (Hnew : Employee.nip row ∉ Employee.nip <$> employees s)
    by now apply next_nip_is_new.
  split; [exact Hnew|].
  intros Hq Hv Hmail Hid.
  rewrite (add_run validation o dto s (Hq _) (Hq _) (Hq _) Hv Hmail).
  - eexists. split; reflexivity.
  - now apply repeated_fresh.
Qed.

Lemma hires_without_departures_never_collide_witness :
  let s := hireAll acceptAllEmployees
             [(desk "id-1" 2025 0, ani); (desk "id-2" 2025 1, budi)]
             (mkStaff [] []) in
  let row := hired (desk "id-3" 2026 2) citra (length (employees s)) in
  (Employee.nip row ∉ Employee.nip <$> employees s)
  ∧ (noStaffFaults (desk "id-3" 2026 2) →
     EmployeeValidation.ADD acceptAllEmployees
       (addRequest (desk "id-3" 2026 2) citra (length (employees s))) = true →
     AddEmployeeDto.email citra ∉ Employee.email <$> employees s →
     uuid (desk "id-3" 2026 2) ∉ Employee.id <$> employees s →
     ∃ s',
       EmployeeService.add acceptAllEmployees (desk "id-3" 2026 2) citra s
       = (Ok (AddEmployeeResponse.mk (EmployeeService.toEmployeeDetail row)
                None), s')
       ∧ employees s' = employees s ++ [row]).
Proof.
  apply (hires_without_departures_never_collide acceptAllEmployees
           [(desk "id-1" 2025 0, ani); (desk "id-2" 2025 1, budi)]
           (desk "id-3" 2026 2) citra).
  - repeat (constructor; [vm_compute; discriminate|]). constructor.
  - vm_compute. discriminate.
  - vm_compute. reflexivity.
Defined.

Example three_hires :
  Employee.nip <$>
    employees (hireAll acceptAllEmployees
                 [(desk "id-1" 2025 0, ani); (desk "id-2" 2025 1, budi);
                  (desk "id-3" 2026 2, citra)] (mkStaff [] []))
  = ["25020001"; "25030002"; "26030003"].
Proof. reflexivity. Qed.

(** X30.  The initial password is one of seven strings that anyone can
    compute from the role and the NIP: the reversed role code, the last
    four characters of the NIP reversed, and one of the seven special
    characters.  The fallback code [USR] is never used. *)
Theorem initial_password_is_one_of_seven o role nip :
  0 ≤ draw o < 7 →
  EmployeeService.generatePassword o role nip
  ∈ (λ c, Js.reverse (EmployeeService.roleMap role)
          +:+ Js.reverse (Js.sliceLast 4 nip) +:+ c)
    <$> EmployeeService.specialChars.
Proof.
  intros Hd. unfold EmployeeService.generatePassword.
  assert (Hcode : Js.truthy (Some (Js.reverse (EmployeeService.roleMap role)))
                  = true) by (destruct role; reflexivity).
  rewrite Hcode.
  destruct (Z.ltb_spec (draw o) 0) as [?|_]; [lia|].
  destruct (lookup_lt_is_Some_2 EmployeeService.specialChars
              (Z.to_nat (draw o))) as [c Hc]; [simpl; lia|].
  rewrite Hc. cbn [default from_option id].
  apply list_elem_of_fmap. exists c. split; [reflexivity|].
  now apply list_elem_of_lookup_2 in Hc.
Qed.

Lemma initial_password_is_one_of_seven_witness :
  EmployeeService.generatePassword (desk "id-1" 2025 0) DOKTER "25020001"
  ∈ ["TKD1000!"; "TKD1000@"; "TKD1000#"; "TKD1000$"; "TKD1000%"; "TKD1000*";
     "TKD1000?"].
Proof.
  apply (initial_password_is_one_of_seven (desk "id-1" 2025 0) DOKTER
           "25020001").
  cbn [draw desk]. lia.
Defined.
